(** * NYC Public Restrooms map: filter engine, statistics and coverage grid

    A shallow embedding of the two revisions of the application script
    ([restroom-map.js], with the coverage heat map, and the revision that
    carries the statistics panel), with the properties the specification
    states about them.

    - [JSNumber]  : ECMAScript numbers, with NaN and the two infinities.
    - [JSString]  : the string methods the filter uses.
    - data model  : GeoJSON features, their property bag, the filter state.
    - [Part000]   : the revision with the statistics panel:
                    [applyFilters] and [updateStatistics].
    - [RestroomMap] : [restroom-map.js]: [applyFilters],
                    [generateCoverageHeatmap], [toggleHeatmap] and the
                    event handlers around them, on a page where
                    [initializeMap] has run once.
    - [MapLayers] : the colour of the markers and the popup listener.
    - [Token]     : the token section of the page.
    - [Page]      : the page with all its runs of [initializeMap]. *)

From Stdlib Require Import Reals Lra List String Ascii Bool Arith Lia.
From Stdlib Require Import Permutation.
Import ListNotations.

Set Implicit Arguments.

(* ------------------------------------------------------------------ *)
(** * ECMAScript numbers *)
(* ------------------------------------------------------------------ *)

(** A Number is NaN, one of the infinities, or a finite value. Finite
    doubles are idealised as reals: rounding, overflow to an infinity and
    the sign of zero are abstracted; every special case of the operators
    on NaN and the infinities is kept as IEEE 754 has it (a zero divisor
    counts as +0). *)
Module JSNumber.

Inductive number : Type :=
| NaN
| Infinity
| NegInfinity
| Num (r : R).

Local Open Scope R_scope.

(** Sign of a real: [Lt] negative, [Eq] zero, [Gt] positive. *)
Definition Rsign (r : R) : comparison :=
  match total_order_T r 0 with
  | inleft (left _) => Lt
  | inleft (right _) => Eq
  | inright _ => Gt
  end.

Definition isFinite (x : number) : bool :=
  match x with Num _ => true | _ => false end.

Definition of_nat (n : nat) : number := Num (INR n).

(** Unary minus. *)
Definition neg (x : number) : number :=
  match x with
  | NaN => NaN
  | Infinity => NegInfinity
  | NegInfinity => Infinity
  | Num r => Num (- r)
  end.

(** [x + y] *)
Definition add (x y : number) : number :=
  match x, y with
  | NaN, _ | _, NaN => NaN
  | Infinity, NegInfinity | NegInfinity, Infinity => NaN
  | Infinity, _ | _, Infinity => Infinity
  | NegInfinity, _ | _, NegInfinity => NegInfinity
  | Num a, Num b => Num (a + b)
  end.

(** [x - y] *)
Definition sub (x y : number) : number := add x (neg y).

(** An infinity times (or divided by) a finite value of the given sign. *)
Definition scaleInfinity (positive : bool) (s : comparison) : number :=
  match s with
  | Eq => NaN
  | Gt => if positive then Infinity else NegInfinity
  | Lt => if positive then NegInfinity else Infinity
  end.

(** [x * y] *)
Definition mul (x y : number) : number :=
  match x, y with
  | NaN, _ | _, NaN => NaN
  | Num a, Num b => Num (a * b)
  | Infinity, Num b | Num b, Infinity => scaleInfinity true (Rsign b)
  | NegInfinity, Num b | Num b, NegInfinity => scaleInfinity false (Rsign b)
  | Infinity, Infinity | NegInfinity, NegInfinity => Infinity
  | Infinity, NegInfinity | NegInfinity, Infinity => NegInfinity
  end.

(** [x / y] *)
Definition div (x y : number) : number :=
  match x, y with
  | NaN, _ | _, NaN => NaN
  | (Infinity | NegInfinity), (Infinity | NegInfinity) => NaN
  | Infinity, Num b =>
      match Rsign b with Lt => NegInfinity | _ => Infinity end
  | NegInfinity, Num b =>
      match Rsign b with Lt => Infinity | _ => NegInfinity end
  | Num _, (Infinity | NegInfinity) => Num 0
  | Num a, Num b =>
      match Rsign b with
      | Eq => match Rsign a with
              | Eq => NaN
              | Gt => Infinity
              | Lt => NegInfinity
              end
      | _ => Num (a / b)
      end
  end.

(** [Math.sqrt(x)] *)
Definition Math_sqrt (x : number) : number :=
  match x with
  | NaN | NegInfinity => NaN
  | Infinity => Infinity
  | Num r => match Rsign r with
             | Lt => NaN
             | _ => Num (sqrt r)
             end
  end.

(** [x < y]: false as soon as an operand is NaN. *)
Definition lessThan (x y : number) : bool :=
  match x, y with
  | NaN, _ | _, NaN => false
  | _, NegInfinity => false
  | NegInfinity, _ => true
  | Infinity, _ => false
  | Num _, Infinity => true
  | Num a, Num b => if Rlt_dec a b then true else false
  end.

(** [Math.min(x, y)]: NaN as soon as an argument is NaN. *)
Definition Math_min (x y : number) : number :=
  match x, y with
  | NaN, _ | _, NaN => NaN
  | _, _ => if lessThan y x then y else x
  end.

(** [Math.pow(x, 0.6)], the only exponent the script uses: a finite,
    positive exponent that is not an integer. *)
Definition Math_pow_0_6 (x : number) : number :=
  match x with
  | NaN => NaN
  | Infinity | NegInfinity => Infinity
  | Num r => match Rsign r with
             | Lt => NaN
             | Eq => Num 0
             | Gt => Num (Rpower r 0.6)
             end
  end.

End JSNumber.
Import JSNumber.

(** The other functions of [Math] the script calls, on the same
    idealised numbers. *)
Module JSMath.

Local Open Scope R_scope.


(** [Math.abs(x)] *)
Definition Math_abs (x : number) : number :=
  match x with
  | NaN => NaN
  | Infinity | NegInfinity => Infinity
  | Num r => Num (Rabs r)
  end.




End JSMath.
Import JSMath.

(* ------------------------------------------------------------------ *)
(** * ECMAScript strings *)
(* ------------------------------------------------------------------ *)

(** Strings are sequences of characters; [toLowerCase] maps the letters
    A-Z to a-z and leaves every other character alone. No result below
    uses a property of [toLowerCase]. *)
Module JSString.

Local Open Scope string_scope.

Definition lowerChar (c : ascii) : ascii :=
  let n := nat_of_ascii c in
  if (65 <=? n)%nat && (n <=? 90)%nat then ascii_of_nat (n + 32) else c.

(** [s.toLowerCase()] *)
Fixpoint toLowerCase (s : string) : string :=
  match s with
  | EmptyString => EmptyString
  | String c rest => String (lowerChar c) (toLowerCase rest)
  end.

(** [text.includes(search)]: is there a position of [text] at which
    [search] starts? *)
Fixpoint includes (text search : string) : bool :=
  if String.prefix search text then true
  else match text with
       | EmptyString => false
       | String _ rest => includes rest search
       end.

(** [elements.join(separator)]: an element that is undefined or null
    contributes the empty string. *)
Fixpoint join (separator : string) (elements : list (option string)) : string :=
  match elements with
  | [] => ""
  | [e] => match e with Some s => s | None => "" end
  | e :: rest =>
      (match e with Some s => s | None => "" end)
        ++ separator ++ join separator rest
  end.

(** [value !== s] for a property value (absent, or a string) and a
    string: only an equal string is not unequal. *)
Definition strictNotEqual (value : option string) (s : string) : bool :=
  match value with
  | Some v => negb (v =? s)
  | None => true
  end.

(** What the specification calls a substring. *)
Definition Substring (search text : string) : Prop :=
  exists before after, text = before ++ search ++ after.

End JSString.
Import JSString.

(* ------------------------------------------------------------------ *)
(** * Data model *)
(* ------------------------------------------------------------------ *)

(** A value found where a number is expected: a coordinate component. *)
Inductive JSValue : Type :=
| Undefined
| Null
| Number (n : number).

(** [ToNumber]: undefined is NaN, null is +0. *)
Definition ToNumber (v : JSValue) : number :=
  match v with
  | Undefined => NaN
  | Null => Num 0
  | Number n => n
  end.

(** [geometry.coordinates]: absent, null, or an array. *)
Inductive Coordinates : Type :=
| CoordsUndefined
| CoordsNull
| CoordsArray (elements : list JSValue).

(** The property bag of a feature. [None] is a property that is absent
    or null. *)
Module Props.
Record t : Type := {
  facility_name : option string;
  operator : option string;
  location_type : option string;
  status : option string;
  accessibility : option string
}.
End Props.

(** GeoJSON objects, as [response.json()] delivers them. *)
Module GeoJSON.

Record Geometry : Type := { coordinates : Coordinates }.

Record Feature : Type := {
  geometry : Geometry;
  properties : Props.t
}.

Record FeatureCollection : Type := { features : list Feature }.

End GeoJSON.
Import GeoJSON.

(** [currentFilters] *)
Module Filters.
Record t : Type := {
  search : string;
  status : string;
  accessibility : string;
  locationType : string
}.

Definition initial : t :=
  {| search := ""; status := "all"; accessibility := "all";
     locationType := "all" |}.

Definition set_search (v : string) (f : t) : t :=
  {| search := v; status := status f; accessibility := accessibility f;
     locationType := locationType f |}.
Definition set_status (v : string) (f : t) : t :=
  {| search := search f; status := v; accessibility := accessibility f;
     locationType := locationType f |}.
Definition set_accessibility (v : string) (f : t) : t :=
  {| search := search f; status := status f; accessibility := v;
     locationType := locationType f |}.
Definition set_locationType (v : string) (f : t) : t :=
  {| search := search f; status := status f;
     accessibility := accessibility f; locationType := v |}.
End Filters.

(** Completion of a call: it returns, or it throws. *)
Inductive Error : Type := TypeError.

Inductive Completion (A : Type) : Type :=
| Normal (a : A)
| Throw (e : Error).
Arguments Normal {A} a.
Arguments Throw {A} e.

(** [for (const x of xs) body], threading the variables the body
    assigns; a throw in the body leaves the loop. *)
Fixpoint for_of {A B : Type} (xs : list A) (body : A -> B -> Completion B)
  (vars : B) : Completion B :=
  match xs with
  | [] => Normal vars
  | x :: rest =>
      match body x vars with
      | Normal vars' => for_of rest body vars'
      | Throw e => Throw e
      end
  end.

(* ------------------------------------------------------------------ *)
(** * The filter callback (identical in both revisions) *)
(* ------------------------------------------------------------------ *)

Local Open Scope string_scope.

(** The arrow function given to [allRestroomData.features.filter]: each
    [if] that holds returns false, in the order of the script. *)
Definition featureMatches (currentFilters : Filters.t) (feature : Feature)
  : bool :=
  let props := properties feature in
  (* Search filter *)
  if negb (Filters.search currentFilters =? "")
     && (let searchableText :=
           toLowerCase (join " " [Props.facility_name props;
                                  Props.operator props;
                                  Props.location_type props]) in
         negb (includes searchableText (Filters.search currentFilters)))
  then false
  (* Status filter *)
  else if negb (Filters.status currentFilters =? "all")
     && strictNotEqual (Props.status props) (Filters.status currentFilters)
  then false
  (* Accessibility filter *)
  else if negb (Filters.accessibility currentFilters =? "all")
     && strictNotEqual (Props.accessibility props)
          (Filters.accessibility currentFilters)
  then false
  (* Location type filter *)
  else if negb (Filters.locationType currentFilters =? "all")
     && strictNotEqual (Props.location_type props)
          (Filters.locationType currentFilters)
  then false
  else true.

(** [allRestroomData.features.filter(feature => ...)] *)
Definition filterFeatures (currentFilters : Filters.t)
  (features : list Feature) : list Feature :=
  filter (featureMatches currentFilters) features.

(* ------------------------------------------------------------------ *)
(** * The revision with the statistics panel *)
(* ------------------------------------------------------------------ *)

Module Part000.

(** The variables of [restroomMapApp], the 'restrooms' source of the map
    ([None] until [setupMapLayers] adds it) and the text of the four
    counters of the statistics panel. *)
Record state : Type := {
  allRestroomData : option FeatureCollection;
  currentFilters : Filters.t;
  restroomsSource : option FeatureCollection;
  totalVisible : nat;
  operationalCount : nat;
  accessibleCount : nat;
  parkCount : nat
}.

Definition M (A : Type) : Type := state -> Completion A * state.

Definition setData (data : FeatureCollection) (st : state) : state :=
  {| allRestroomData := allRestroomData st;
     currentFilters := currentFilters st;
     restroomsSource := Some data;
     totalVisible := totalVisible st;
     operationalCount := operationalCount st;
     accessibleCount := accessibleCount st;
     parkCount := parkCount st |}.

Definition setCounters (total operational accessible parks : nat)
  (st : state) : state :=
  {| allRestroomData := allRestroomData st;
     currentFilters := currentFilters st;
     restroomsSource := restroomsSource st;
     totalVisible := total;
     operationalCount := operational;
     accessibleCount := accessible;
     parkCount := parks |}.

Definition set_currentFilters (f : Filters.t) (st : state) : state :=
  {| allRestroomData := allRestroomData st;
     currentFilters := f;
     restroomsSource := restroomsSource st;
     totalVisible := totalVisible st;
     operationalCount := operationalCount st;
     accessibleCount := accessibleCount st;
     parkCount := parkCount st |}.

(** [f.properties.<key> === literal] *)
Definition strictEqual (value : option string) (literal : string) : bool :=
  negb (strictNotEqual value literal).

(** [updateStatistics(features = null)]: the records are
    [features || allRestroomData.features] (an array, even empty, is
    truthy; reading [.features] of a null store throws), then the four
    counters are written. *)
Definition updateStatistics (features : option (list Feature)) : M unit :=
  fun st =>
    let data :=
      match features with
      | Some given => Normal given
      | None => match allRestroomData st with
                | Some store => Normal (GeoJSON.features store)
                | None => Throw TypeError
                end
      end in
    match data with
    | Throw e => (Throw e, st)
    | Normal data =>
        let operational :=
          List.length
            (filter (fun f => strictEqual (Props.status (properties f))
                                "Operational") data) in
        let accessible :=
          List.length
            (filter (fun f => strictEqual
                                (Props.accessibility (properties f))
                                "Fully Accessible") data) in
        let parks :=
          List.length
            (filter (fun f => strictEqual
                                (Props.location_type (properties f))
                                "Park") data) in
        (Normal tt,
         setCounters (List.length data) operational accessible parks st)
    end.

(** [applyFilters()] *)
Definition applyFilters : M unit :=
  fun st =>
    match allRestroomData st with
    | None => (Normal tt, st)
    | Some data =>
        let filteredFeatures :=
          filterFeatures (currentFilters st) (GeoJSON.features data) in
        (* Update map data *)
        match restroomsSource st with
        | None => (Throw TypeError, st)
        | Some _ =>
            updateStatistics (Some filteredFeatures)
              (setData {| features := filteredFeatures |} st)
        end
    end.

(** The state the [then] callback of [loadRestroomData] leaves:
    [allRestroomData = data], [setupMapLayers(data)], [updateStatistics()]. *)
Definition loaded (data : FeatureCollection) : state :=
  snd (updateStatistics None
         {| allRestroomData := Some data;
            currentFilters := Filters.initial;
            restroomsSource := Some data;
            totalVisible := 0;
            operationalCount := 0;
            accessibleCount := 0;
            parkCount := 0 |}).

(** ** Events *)

(** A listener of [setupEventListeners]: a field of [currentFilters] is
    assigned, then [applyFilters()]. *)
Definition changeFilters (update : Filters.t -> Filters.t) : M unit :=
  fun st =>
    applyFilters (set_currentFilters (update (currentFilters st)) st).

(** [resetAllFilters()]; the values of the four inputs of the page are
    not part of the state. *)
Definition resetAllFilters : M unit :=
  fun st => applyFilters (set_currentFilters Filters.initial st).

(** What the listeners of [setupEventListeners] react to: the search
    box, the three selects, the reset button (and the R key), the Escape
    key. *)
Inductive Event : Type :=
| SearchInput (value : string)
| StatusChange (value : string)
| AccessibilityChange (value : string)
| LocationTypeChange (value : string)
| ResetAllFiltersClick
| EscapeKey.

(** A listener runs to its end or to an uncaught throw; the state it
    leaves is the state of the page. *)
Definition dispatch (st : state) (e : Event) : state :=
  match e with
  | SearchInput value =>
      snd (changeFilters (Filters.set_search (toLowerCase value)) st)
  | StatusChange value =>
      snd (changeFilters (Filters.set_status value) st)
  | AccessibilityChange value =>
      snd (changeFilters (Filters.set_accessibility value) st)
  | LocationTypeChange value =>
      snd (changeFilters (Filters.set_locationType value) st)
  | ResetAllFiltersClick => snd (resetAllFilters st)
  | EscapeKey => snd (changeFilters (Filters.set_search "") st)
  end.

Definition run (events : list Event) (st : state) : state :=
  fold_left dispatch events st.

End Part000.

(* ------------------------------------------------------------------ *)
(** * restroom-map.js: filtering and the coverage heat map *)
(* ------------------------------------------------------------------ *)

Module RestroomMap.

(** One element of [heatmapPoints]: the array [[lng, lat, intensity]]. *)
Record HeatmapPoint : Type := {
  lng : number;
  lat : number;
  intensity : number
}.

(** The object [generateCoverageHeatmap] returns: a collection with one
    dummy feature whose [properties.heatmapData] holds the points. *)
Record HeatmapCollection : Type := { heatmapPoints : list HeatmapPoint }.

(** A feature of the 'heatmap-source' source: [geometry.coordinates] and
    [properties.intensity]. *)
Record HeatFeature : Type := {
  heat_coordinates : number * number;
  heat_intensity : number
}.

(** What is written to the console, one constructor for each call site;
    elapsed times are left out. *)
Inductive LogEntry : Type :=
| LogGeneratingModerate
    (* 'Generating emergency zone analysis with moderate criteria (1km max danger zone)...' *)
| LogProcessingGrid (gridSize points : nat)
    (* `Processing ${gridSize}x${gridSize} grid (${gridSize * gridSize} points)...` *)
| LogGeneratedPoints (n : nat)
    (* `Generated ${heatmapPoints.length} heatmap points` *)
| LogToggleClicked (visible : bool)
    (* 'Toggle heatmap clicked. Current state:', isHeatmapVisible *)
| LogGenerating
    (* 'Generating emergency zone analysis...' *)
| LogCompleted
    (* `Emergency zone analysis completed in ${...}ms` *)
| LogHeatmapData (data : option HeatmapCollection)
    (* 'Heatmap data generated:', heatmapData *)
| LogLayerVisible
    (* 'Danger zone analysis layer added and visible' *)
| LogExistingVisible
    (* 'Existing danger zone analysis made visible' *)
| LogHidden
    (* 'Danger zone analysis hidden' *)
| ErrorNoHeatmapData
    (* console.error('No heatmap data available') *)
| LogAddingLayer
    (* 'Adding heatmap layer...' *)
| LogPointsCount (n : nat)
    (* 'Heatmap points count:', heatmapPoints.length *)
| LogCreatedGeoJSON (n : nat)
    (* 'Created heatmap GeoJSON with', n, 'features' *)
| LogLayerAdded.
    (* 'Emergency zone analysis layer added successfully' *)

(** The variables of [initializeMap] ([None] in [heatmapData] is null or
    undefined), the two sources and the heat layer of the map, the toggle
    button and the legend of the page, the callbacks [setTimeout] holds,
    and the console. *)
Record state : Type := {
  allRestroomData : option FeatureCollection;
  currentFilters : Filters.t;
  isHeatmapVisible : bool;
  heatmapData : option HeatmapCollection;
  restroomsSource : option FeatureCollection;
  heatmapSource : option (list HeatFeature);
  heatmapLayer : bool;
  buttonText : string;
  buttonDisabled : bool;
  legendHidden : bool;
  timers : nat;
  console : list LogEntry
}.

Definition set_currentFilters (v : Filters.t) (st : state) : state :=
  {| allRestroomData := allRestroomData st; currentFilters := v;
     isHeatmapVisible := isHeatmapVisible st; heatmapData := heatmapData st;
     restroomsSource := restroomsSource st; heatmapSource := heatmapSource st;
     heatmapLayer := heatmapLayer st; buttonText := buttonText st;
     buttonDisabled := buttonDisabled st; legendHidden := legendHidden st;
     timers := timers st; console := console st |}.

Definition set_isHeatmapVisible (v : bool) (st : state) : state :=
  {| allRestroomData := allRestroomData st;
     currentFilters := currentFilters st;
     isHeatmapVisible := v; heatmapData := heatmapData st;
     restroomsSource := restroomsSource st; heatmapSource := heatmapSource st;
     heatmapLayer := heatmapLayer st; buttonText := buttonText st;
     buttonDisabled := buttonDisabled st; legendHidden := legendHidden st;
     timers := timers st; console := console st |}.

Definition set_heatmapData (v : option HeatmapCollection) (st : state)
  : state :=
  {| allRestroomData := allRestroomData st;
     currentFilters := currentFilters st;
     isHeatmapVisible := isHeatmapVisible st; heatmapData := v;
     restroomsSource := restroomsSource st; heatmapSource := heatmapSource st;
     heatmapLayer := heatmapLayer st; buttonText := buttonText st;
     buttonDisabled := buttonDisabled st; legendHidden := legendHidden st;
     timers := timers st; console := console st |}.

Definition set_restroomsSource (v : option FeatureCollection) (st : state)
  : state :=
  {| allRestroomData := allRestroomData st;
     currentFilters := currentFilters st;
     isHeatmapVisible := isHeatmapVisible st; heatmapData := heatmapData st;
     restroomsSource := v; heatmapSource := heatmapSource st;
     heatmapLayer := heatmapLayer st; buttonText := buttonText st;
     buttonDisabled := buttonDisabled st; legendHidden := legendHidden st;
     timers := timers st; console := console st |}.

Definition set_heatmap (source : option (list HeatFeature)) (layer : bool)
  (st : state) : state :=
  {| allRestroomData := allRestroomData st;
     currentFilters := currentFilters st;
     isHeatmapVisible := isHeatmapVisible st; heatmapData := heatmapData st;
     restroomsSource := restroomsSource st; heatmapSource := source;
     heatmapLayer := layer; buttonText := buttonText st;
     buttonDisabled := buttonDisabled st; legendHidden := legendHidden st;
     timers := timers st; console := console st |}.

Definition set_buttonText (v : string) (st : state) : state :=
  {| allRestroomData := allRestroomData st;
     currentFilters := currentFilters st;
     isHeatmapVisible := isHeatmapVisible st; heatmapData := heatmapData st;
     restroomsSource := restroomsSource st; heatmapSource := heatmapSource st;
     heatmapLayer := heatmapLayer st; buttonText := v;
     buttonDisabled := buttonDisabled st; legendHidden := legendHidden st;
     timers := timers st; console := console st |}.

Definition set_buttonDisabled (v : bool) (st : state) : state :=
  {| allRestroomData := allRestroomData st;
     currentFilters := currentFilters st;
     isHeatmapVisible := isHeatmapVisible st; heatmapData := heatmapData st;
     restroomsSource := restroomsSource st; heatmapSource := heatmapSource st;
     heatmapLayer := heatmapLayer st; buttonText := buttonText st;
     buttonDisabled := v; legendHidden := legendHidden st;
     timers := timers st; console := console st |}.

Definition set_legendHidden (v : bool) (st : state) : state :=
  {| allRestroomData := allRestroomData st;
     currentFilters := currentFilters st;
     isHeatmapVisible := isHeatmapVisible st; heatmapData := heatmapData st;
     restroomsSource := restroomsSource st; heatmapSource := heatmapSource st;
     heatmapLayer := heatmapLayer st; buttonText := buttonText st;
     buttonDisabled := buttonDisabled st; legendHidden := v;
     timers := timers st; console := console st |}.

Definition set_timers (v : nat) (st : state) : state :=
  {| allRestroomData := allRestroomData st;
     currentFilters := currentFilters st;
     isHeatmapVisible := isHeatmapVisible st; heatmapData := heatmapData st;
     restroomsSource := restroomsSource st; heatmapSource := heatmapSource st;
     heatmapLayer := heatmapLayer st; buttonText := buttonText st;
     buttonDisabled := buttonDisabled st; legendHidden := legendHidden st;
     timers := v; console := console st |}.

Definition set_console (v : list LogEntry) (st : state) : state :=
  {| allRestroomData := allRestroomData st;
     currentFilters := currentFilters st;
     isHeatmapVisible := isHeatmapVisible st; heatmapData := heatmapData st;
     restroomsSource := restroomsSource st; heatmapSource := heatmapSource st;
     heatmapLayer := heatmapLayer st; buttonText := buttonText st;
     buttonDisabled := buttonDisabled st; legendHidden := legendHidden st;
     timers := timers st; console := v |}.

(** ** Statements that read and write the state, and may throw *)

Definition M (A : Type) : Type := state -> Completion A * state.

Definition ret {A : Type} (a : A) : M A := fun st => (Normal a, st).

Definition bind {A B : Type} (m : M A) (k : A -> M B) : M B :=
  fun st =>
    match m st with
    | (Normal a, st') => k a st'
    | (Throw e, st') => (Throw e, st')
    end.

Declare Scope js_scope.
Delimit Scope js_scope with js.
Notation "x <- m ;; k" := (bind m (fun x => k))
  (at level 61, m at next level, right associativity) : js_scope.
Notation "m ;; k" := (bind m (fun _ => k))
  (at level 61, right associativity) : js_scope.
Local Open Scope js_scope.

Definition gets {A : Type} (read : state -> A) : M A :=
  fun st => (Normal (read st), st).

Definition modify (write : state -> state) : M unit :=
  fun st => (Normal tt, write st).

Definition lift {A : Type} (c : Completion A) : M A := fun st => (c, st).

(** The state with more entries on the console. *)
Definition logged (entries : list LogEntry) (st : state) : state :=
  set_console (console st ++ entries)%list st.

(** [console.log(...)] and [console.error(...)] *)
Definition log (entry : LogEntry) : M unit := modify (logged [entry]).

(** ** FILTER APPLICATION *)

(** [applyFilters()] *)
Definition applyFilters : M unit :=
  data <- gets allRestroomData ;;
  match data with
  | None => ret tt
  | Some data =>
      filters <- gets currentFilters ;;
      let filteredFeatures := filterFeatures filters (features data) in
      (* Update map data *)
      source <- gets restroomsSource ;;
      match source with
      | None => lift (Throw TypeError)
      | Some _ =>
          modify (set_restroomsSource
                    (Some {| features := filteredFeatures |}))
      end
  end.

(** ** HEAT MAP FUNCTIONS *)

Record Bounds : Type := {
  north : number;
  south : number;
  east : number;
  west : number
}.

Local Open Scope R_scope.

Definition nycBounds : Bounds :=
  {| north := Num 40.925;
     south := Num 40.470;
     east := Num (- 73.680);
     west := Num (- 74.280) |}.

Definition gridSize : nat := 100.

Definition maxDistance : number := Num 1000.

(** [calculateFastDistance(lat1, lng1, lat2, lng2)]; the subtractions
    convert their operands to numbers. *)
Definition calculateFastDistance (lat1 lng1 lat2 lng2 : JSValue) : number :=
  let dLat := mul (sub (ToNumber lat2) (ToNumber lat1)) (Num 111000) in
  let dLng := mul (sub (ToNumber lng2) (ToNumber lng1)) (Num 85000) in
  Math_sqrt (add (mul dLat dLat) (mul dLng dLng)).


(** [const [rLng, rLat] = coords]: undefined and null are not iterable;
    an array gives its first two elements, undefined where it has none. *)
Definition destructurePair (coords : Coordinates)
  : Completion (JSValue * JSValue) :=
  match coords with
  | CoordsUndefined | CoordsNull => Throw TypeError
  | CoordsArray elements =>
      Normal (nth 0 elements Undefined, nth 1 elements Undefined)
  end.

(** Body of the loop over [restroomCoords], on the variable
    [minDistance]. *)
Definition scanStep (lat lng : number) (coords : Coordinates)
  (minDistance : number) : Completion number :=
  match destructurePair coords with
  | Throw e => Throw e
  | Normal (rLng, rLat) =>
      let distance :=
        calculateFastDistance (Number lat) (Number lng) rLat rLng in
      Normal (if lessThan distance minDistance
              then distance else minDistance)
  end.

(** The scan for the nearest restroom of one grid point:
    [let minDistance = Infinity; for (const coords of restroomCoords) ...]. *)
Definition nearestDistance (lat lng : number)
  (restroomCoords : list Coordinates) : Completion number :=
  for_of restroomCoords (scanStep lat lng) Infinity.

(** The intensity of a grid point from the distance of its nearest
    restroom. *)
Definition intensityOf (minDistance : number) : number :=
  let intensity := Math_min (div minDistance maxDistance) (Num 1) in
  Math_pow_0_6 intensity.

(** The two nested loops over the grid, for given bounds and grid size. *)
Definition gridLoops (bounds : Bounds) (gridSize : nat)
  (restroomCoords : list Coordinates) : Completion (list HeatmapPoint) :=
  let latStep := div (sub (north bounds) (south bounds)) (of_nat gridSize) in
  let lngStep := div (sub (east bounds) (west bounds)) (of_nat gridSize) in
  for_of (seq 0 gridSize)
    (fun i heatmapPoints =>
       for_of (seq 0 gridSize)
         (fun j heatmapPoints =>
            let lat := add (south bounds) (mul (of_nat i) latStep) in
            let lng := add (west bounds) (mul (of_nat j) lngStep) in
            match nearestDistance lat lng restroomCoords with
            | Throw e => Throw e
            | Normal minDistance =>
                Normal (heatmapPoints
                          ++ [{| lng := lng; lat := lat;
                                 intensity := intensityOf minDistance |}])%list
            end)
         heatmapPoints)
    [].

(** [generateCoverageHeatmap()]; [None] is the undefined of the bare
    [return]. *)
Definition generateCoverageHeatmap : M (option HeatmapCollection) :=
  data <- gets allRestroomData ;;
  match data with
  | None => ret None
  | Some data =>
      log LogGeneratingModerate ;;
      (* Pre-extract restroom coordinates for faster processing *)
      let restroomCoords :=
        map (fun restroom => coordinates (geometry restroom))
          (features data) in
      log (LogProcessingGrid gridSize (gridSize * gridSize)) ;;
      heatmapPoints <- lift (gridLoops nycBounds gridSize restroomCoords) ;;
      log (LogGeneratedPoints (List.length heatmapPoints)) ;;
      ret (Some {| heatmapPoints := heatmapPoints |})
  end.

(** [removeHeatmapLayer()] *)
Definition removeHeatmapLayer : M unit :=
  modify (set_heatmap None false).

(** [addHeatmapLayer()] *)
Definition addHeatmapLayer : M unit :=
  data <- gets heatmapData ;;
  match data with
  | None => log ErrorNoHeatmapData
  | Some data =>
      log LogAddingLayer ;;
      (* Remove existing layer if it exists *)
      modify (set_heatmap None false) ;;
      let heatmapPoints := heatmapPoints data in
      log (LogPointsCount (List.length heatmapPoints)) ;;
      (* Create GeoJSON from heatmap points *)
      let heatmapGeoJSON :=
        map (fun point =>
               {| heat_coordinates := (lng point, lat point);
                  heat_intensity := intensity point |})
          heatmapPoints in
      log (LogCreatedGeoJSON (List.length heatmapGeoJSON)) ;;
      modify (set_heatmap (Some heatmapGeoJSON) true) ;;
      log LogLayerAdded
  end.

(** The callback [toggleHeatmap] gives to [setTimeout]. *)
Definition generateCallback : M unit :=
  log LogGenerating ;;
  data <- generateCoverageHeatmap ;;
  modify (set_heatmapData data) ;;
  log LogCompleted ;;
  log (LogHeatmapData data) ;;
  addHeatmapLayer ;;
  modify (set_isHeatmapVisible true) ;;
  modify (set_buttonText "Hide Danger Zone Analysis") ;;
  modify (set_buttonDisabled false) ;;
  modify (set_legendHidden false) ;;
  log LogLayerVisible.

(** [toggleHeatmap()] *)
Definition toggleHeatmap : M unit :=
  visible <- gets isHeatmapVisible ;;
  log (LogToggleClicked visible) ;;
  if negb visible then
    (* Generate and show heatmap *)
    data <- gets heatmapData ;;
    match data with
    | None =>
        modify (set_buttonText "Generating Danger Zone Analysis...") ;;
        modify (set_buttonDisabled true) ;;
        modify (fun st => set_timers (S (timers st)) st)
    | Some _ =>
        addHeatmapLayer ;;
        modify (set_isHeatmapVisible true) ;;
        modify (set_buttonText "Hide Danger Zone Analysis") ;;
        modify (set_legendHidden false) ;;
        log LogExistingVisible
    end
  else
    (* Hide heatmap *)
    removeHeatmapLayer ;;
    modify (set_isHeatmapVisible false) ;;
    modify (set_buttonText "Show Danger Zone Analysis") ;;
    modify (set_legendHidden true) ;;
    log LogHidden.

(** [resetAllFilters()]; the values of the four inputs of the page are
    not part of the state. *)
Definition resetAllFilters : M unit :=
  modify (set_currentFilters Filters.initial) ;;
  applyFilters.

(** ** Events *)

(** What the listeners of [setupEventListeners] and the timer of
    [toggleHeatmap] react to, within one run of [initializeMap]: the
    search box, the three selects, the reset button (and the R key), the
    Escape key, the toggle button, and a pending timer that fires. *)
Inductive Event : Type :=
| SearchInput (value : string)
| StatusChange (value : string)
| AccessibilityChange (value : string)
| LocationTypeChange (value : string)
| ResetAllFiltersClick
| EscapeKey
| ToggleHeatmapClick
| TimerFires.

Definition changeFilters (update : Filters.t -> Filters.t) : M unit :=
  modify (fun st => set_currentFilters (update (currentFilters st)) st) ;;
  applyFilters.

(** A listener runs to its end or to an uncaught throw; the state it
    leaves is the state of the page. A disabled button gets no click, and
    a timer fires only when one is pending. *)
Definition dispatch (st : state) (e : Event) : state :=
  match e with
  | SearchInput value =>
      snd (changeFilters (Filters.set_search (toLowerCase value)) st)
  | StatusChange value =>
      snd (changeFilters (Filters.set_status value) st)
  | AccessibilityChange value =>
      snd (changeFilters (Filters.set_accessibility value) st)
  | LocationTypeChange value =>
      snd (changeFilters (Filters.set_locationType value) st)
  | ResetAllFiltersClick => snd (resetAllFilters st)
  | EscapeKey => snd (changeFilters (Filters.set_search "") st)
  | ToggleHeatmapClick =>
      if buttonDisabled st then st else snd (toggleHeatmap st)
  | TimerFires =>
      match timers st with
      | O => st
      | S pending => snd (generateCallback (set_timers pending st))
      end
  end.

Definition run (events : list Event) (st : state) : state :=
  fold_left dispatch events st.

(** A run of [generateCoverageHeatmap] past its guard leaves one
    [LogGeneratingModerate] on the console. *)
Definition isComputation (entry : LogEntry) : bool :=
  match entry with
  | LogGeneratingModerate => true
  | _ => false
  end.

Definition computations (st : state) : nat :=
  List.length (filter isComputation (console st)).

(** The state the [then] callback of [loadRestroomData] leaves:
    [allRestroomData = data] and [setupMapLayers(data)]; the heat map is
    neither computed nor shown, the button is enabled, no timer is
    pending. The console holds the entries of the heat map functions
    only. *)
Definition loaded (data : FeatureCollection) : state :=
  {| allRestroomData := Some data;
     currentFilters := Filters.initial;
     isHeatmapVisible := false;
     heatmapData := None;
     restroomsSource := Some data;
     heatmapSource := None;
     heatmapLayer := false;
     buttonText := "Show Danger Zone Analysis";
     buttonDisabled := false;
     legendHidden := true;
     timers := 0;
     console := [] |}.

(** The state before the data has arrived. *)
Definition initial : state :=
  {| allRestroomData := None;
     currentFilters := Filters.initial;
     isHeatmapVisible := false;
     heatmapData := None;
     restroomsSource := None;
     heatmapSource := None;
     heatmapLayer := false;
     buttonText := "Show Danger Zone Analysis";
     buttonDisabled := false;
     legendHidden := true;
     timers := 0;
     console := [] |}.

End RestroomMap.

(* ------------------------------------------------------------------ *)
(** * Map layers and popups (identical in both revisions) *)
(* ------------------------------------------------------------------ *)

Module MapLayers.

Local Open Scope string_scope.

(** The test [['==', ['get', property], literal]] of a style
    expression. *)
Record Test : Type := {
  property : string;
  literal : string
}.

(** The style expression [['case', test, value, ..., fallback]]. *)
Record CaseExpression (A : Type) : Type := {
  branches : list (Test * A);
  fallback : A
}.

(** [['get', key]] on the properties of a feature: null when the feature
    has no such property. *)
Definition get (props : Props.t) (key : string) : option string :=
  if key =? "facility_name" then Props.facility_name props
  else if key =? "operator" then Props.operator props
  else if key =? "location_type" then Props.location_type props
  else if key =? "status" then Props.status props
  else if key =? "accessibility" then Props.accessibility props
  else None.

Definition holds (test : Test) (props : Props.t) : bool :=
  negb (strictNotEqual (get props (property test)) (literal test)).

(** The value of a case expression: that of the first test that holds,
    the fallback when none does. *)
Fixpoint firstMatch {A : Type} (branches : list (Test * A)) (fallback : A)
  (props : Props.t) : A :=
  match branches with
  | [] => fallback
  | (test, value) :: rest =>
      if holds test props then value else firstMatch rest fallback props
  end.

Definition evaluate {A : Type} (e : CaseExpression A) (props : Props.t) : A :=
  firstMatch (branches e) (fallback e) props.

(** ['circle-color'] of the layer 'restroom-points'. *)
Definition circleColor : CaseExpression string :=
  {| branches :=
       [({| property := "status"; literal := "Operational" |}, "#22c55e");
        ({| property := "status"; literal := "Not Operational" |},
         "#ef4444");
        ({| property := "status"; literal := "Closed for Construction" |},
         "#f59e0b")];
     fallback := "#6b7280" |}.

(** [getStatusColor(status)], the colour of the status in a popup. *)
Definition getStatusColor (status : option string) : string :=
  match status with
  | Some s =>
      if s =? "Operational" then "#22c55e"
      else if s =? "Not Operational" then "#ef4444"
      else if s =? "Closed for Construction" then "#f59e0b"
      else "#6b7280"
  | None => "#6b7280"
  end.

(** The loop of the click listener on 'restroom-points', on the
    longitude of the clicked feature:
    [while (Math.abs(e.lngLat.lng - coordinates[0]) > 180)
       coordinates[0] += e.lngLat.lng > coordinates[0] ? 360 : -360].
    [None] when the loop has not ended within [fuel] iterations. On the
    reals of [JSNumber] a step of 360 always moves the longitude; a
    double of very large magnitude absorbs it. *)
Fixpoint wrapLongitude (fuel : nat) (clickLng lng0 : number)
  : option number :=
  if lessThan (Num 180) (Math_abs (sub clickLng lng0)) then
    match fuel with
    | O => None
    | S fuel' =>
        wrapLongitude fuel' clickLng
          (add lng0 (if lessThan lng0 clickLng then Num 360 else Num (-360)))
    end
  else Some lng0.

End MapLayers.

(* ------------------------------------------------------------------ *)
(** * restroom-map.js: TOKEN MANAGEMENT *)
(* ------------------------------------------------------------------ *)

Module Token.

Local Open Scope string_scope.

(** [localStorage]: keys and their values, latest first. *)
Definition Storage : Type := list (string * string).

Fixpoint getItem (key : string) (storage : Storage) : option string :=
  match storage with
  | [] => None
  | (k, v) :: rest => if k =? key then Some v else getItem key rest
  end.

Definition removeItem (key : string) (storage : Storage) : Storage :=
  filter (fun entry => negb (fst entry =? key)) storage.

Definition setItem (key value : string) (storage : Storage) : Storage :=
  (key, value) :: removeItem key storage.

Definition STORAGE_KEY : string := "mapbox_access_token".

(** White space, among the characters of a byte: tab, line feed,
    vertical tab, form feed, carriage return, space. *)
Definition isWhiteSpace (c : ascii) : bool :=
  let n := nat_of_ascii c in
  ((9 <=? n)%nat && (n <=? 13)%nat) || (n =? 32)%nat.

Fixpoint trimStart (s : string) : string :=
  match s with
  | EmptyString => EmptyString
  | String c rest => if isWhiteSpace c then trimStart rest else s
  end.

Fixpoint reverse (s : string) : string :=
  match s with
  | EmptyString => EmptyString
  | String c rest => reverse rest ++ String c EmptyString
  end.

(** [s.trim()] *)
Definition trim (s : string) : string :=
  reverse (trimStart (reverse (trimStart s))).

(** The two alerts of the submit listener. *)
Inductive Alert : Type :=
| AlertEnterToken      (* asks for a token *)
| AlertInvalidToken.   (* asks for a token that starts with "pk." *)

(** The page around the map: the local storage, the two sections, the
    token input, the alerts shown so far and the tokens [initializeMap]
    was called with (latest first). *)
Record page : Type := {
  localStorage : Storage;
  tokenSectionHidden : bool;
  mapSectionHidden : bool;
  mapboxToken : string;
  alerts : list Alert;
  initialized : list string
}.

(** A value is typed into the token input. *)
Definition typeToken (value : string) (p : page) : page :=
  {| localStorage := localStorage p;
     tokenSectionHidden := tokenSectionHidden p;
     mapSectionHidden := mapSectionHidden p;
     mapboxToken := value;
     alerts := alerts p;
     initialized := initialized p |}.

Definition alert (a : Alert) (p : page) : page :=
  {| localStorage := localStorage p;
     tokenSectionHidden := tokenSectionHidden p;
     mapSectionHidden := mapSectionHidden p;
     mapboxToken := mapboxToken p;
     alerts := (alerts p ++ [a])%list;
     initialized := initialized p |}.

(** The two sections change place and [initializeMap(token)] runs. *)
Definition showMap (token : string) (storage : Storage) (p : page) : page :=
  {| localStorage := storage;
     tokenSectionHidden := true;
     mapSectionHidden := false;
     mapboxToken := mapboxToken p;
     alerts := alerts p;
     initialized := token :: initialized p |}.

(** The click listener [setupTokenInput] puts on the submit button. *)
Definition submitToken (p : page) : page :=
  let token := trim (mapboxToken p) in
  if token =? "" then alert AlertEnterToken p
  else if negb (String.prefix "pk." token) then alert AlertInvalidToken p
  else
    (* Store token and initialize map *)
    showMap token (setItem "mapbox_access_token" token (localStorage p)) p.

(** [restroomMapApp()] on a page as the document delivers it (both
    sections to be set, nothing typed): a stored token that is not empty
    shows the map, otherwise the token section is shown. *)
Definition restroomMapApp (storage : Storage) : page :=
  let fresh :=
    {| localStorage := storage;
       tokenSectionHidden := false;
       mapSectionHidden := true;
       mapboxToken := "";
       alerts := [];
       initialized := [] |} in
  match getItem STORAGE_KEY storage with
  | Some userToken =>
      if userToken =? "" then fresh else showMap userToken storage fresh
  | None => fresh
  end.

(** What the user does on the token section. *)
Inductive Event : Type :=
| Type_ (value : string)
| SubmitClick.

Definition dispatch (p : page) (e : Event) : page :=
  match e with
  | Type_ value => typeToken value p
  | SubmitClick => submitToken p
  end.

Definition run (events : list Event) (p : page) : page :=
  fold_left dispatch events p.

End Token.

(* ------------------------------------------------------------------ *)
(** * restroom-map.js: the page and its runs of initializeMap *)
(* ------------------------------------------------------------------ *)

Module Page.

Local Open Scope string_scope.

(** What every run of [initializeMap] reaches through
    [document.getElementById] and shares with the other runs of the page:
    the toggle button and the legend; and the console. *)
Record Dom : Type := {
  toggleText : string;
  toggleDisabled : bool;
  legendIsHidden : bool;
  output : list RestroomMap.LogEntry
}.

Definition domOf (st : RestroomMap.state) : Dom :=
  {| toggleText := RestroomMap.buttonText st;
     toggleDisabled := RestroomMap.buttonDisabled st;
     legendIsHidden := RestroomMap.legendHidden st;
     output := RestroomMap.console st |}.

(** The variables and the map of a run, on the page as it is now. *)
Definition withDom (d : Dom) (st : RestroomMap.state) : RestroomMap.state :=
  {| RestroomMap.allRestroomData := RestroomMap.allRestroomData st;
     RestroomMap.currentFilters := RestroomMap.currentFilters st;
     RestroomMap.isHeatmapVisible := RestroomMap.isHeatmapVisible st;
     RestroomMap.heatmapData := RestroomMap.heatmapData st;
     RestroomMap.restroomsSource := RestroomMap.restroomsSource st;
     RestroomMap.heatmapSource := RestroomMap.heatmapSource st;
     RestroomMap.heatmapLayer := RestroomMap.heatmapLayer st;
     RestroomMap.buttonText := toggleText d;
     RestroomMap.buttonDisabled := toggleDisabled d;
     RestroomMap.legendHidden := legendIsHidden d;
     RestroomMap.timers := RestroomMap.timers st;
     RestroomMap.console := output d |}.

(** One call of [initializeMap]: its map is loading; or 'load' has fired
    ([loadRestroomData] is fetching, [addTokenControls] has run); or the
    data has arrived, [setupEventListeners] has put its listeners on the
    page, and its variables, its map and its timers are those of a
    [RestroomMap.state] (whose button, legend and console are read from
    the page when a listener runs). *)
Inductive Run : Type :=
| Loading
| Fetching
| Listening (variables : RestroomMap.state).

(** The process: whether the document has an element of class
    'controls', the token part of the page, the listeners on the submit
    button and on the first 'resetToken' button (the one
    [document.getElementById] finds), the shared elements, the runs of
    [initializeMap], oldest first, and the runs whose listeners are on
    the page, in the order they were put. *)
Record state : Type := {
  controls : bool;
  token : Token.page;
  submitListeners : nat;
  resetTokenListeners : nat;
  dom : Dom;
  runs : list Run;
  attached : list nat
}.

(** [restroomMapApp()]: with a stored token [initializeMap] runs at once,
    otherwise [setupTokenInput] puts its listener on the submit button. *)
Definition restroomMapApp (controls : bool) (storage : Token.Storage)
  : state :=
  let page := Token.restroomMapApp storage in
  {| controls := controls;
     token := page;
     submitListeners :=
       match Token.initialized page with [] => 1 | _ :: _ => 0 end;
     resetTokenListeners := 0;
     dom := {| toggleText := "Show Danger Zone Analysis";
               toggleDisabled := false;
               legendIsHidden := true;
               output := [] |};
     runs := map (fun _ => Loading) (Token.initialized page);
     attached := [] |}.

Definition set_token (page : Token.page) (s : state) : state :=
  {| controls := controls s;
     token := page;
     submitListeners := submitListeners s;
     resetTokenListeners := resetTokenListeners s;
     dom := dom s;
     runs := runs s;
     attached := attached s |}.

Definition set_submitListeners (n : nat) (s : state) : state :=
  {| controls := controls s;
     token := token s;
     submitListeners := n;
     resetTokenListeners := resetTokenListeners s;
     dom := dom s;
     runs := runs s;
     attached := attached s |}.

Definition set_resetTokenListeners (n : nat) (s : state) : state :=
  {| controls := controls s;
     token := token s;
     submitListeners := submitListeners s;
     resetTokenListeners := n;
     dom := dom s;
     runs := runs s;
     attached := attached s |}.

Definition set_runs (d : Dom) (rs : list Run) (s : state) : state :=
  {| controls := controls s;
     token := token s;
     submitListeners := submitListeners s;
     resetTokenListeners := resetTokenListeners s;
     dom := d;
     runs := rs;
     attached := attached s |}.

Definition set_attached (order : list nat) (s : state) : state :=
  {| controls := controls s;
     token := token s;
     submitListeners := submitListeners s;
     resetTokenListeners := resetTokenListeners s;
     dom := dom s;
     runs := runs s;
     attached := order |}.

(** Run [k] becomes [r]. *)
Definition update (k : nat) (r : Run) (rs : list Run) : list Run :=
  (firstn k rs ++ r :: skipn (S k) rs)%list.

(** The click listener of [setupTokenInput]: a run is added when it
    reaches [initializeMap(token)]. *)
Definition submitListener (s : state) : state :=
  let page := Token.submitToken (token s) in
  let calls :=
    List.length (Token.initialized page)
    - List.length (Token.initialized (token s)) in
  set_runs (dom s) (runs s ++ repeat Loading calls)%list (set_token page s).

(** The click listener [addTokenControls] puts on 'resetToken', by the
    answer to its [confirm]: the token is removed, the token section
    comes back with its input cleared, and [setupTokenInput()] runs
    again. *)
Definition changeTokenListener (confirmed : bool) (s : state) : state :=
  if confirmed then
    set_submitListeners (S (submitListeners s))
      (set_token
         {| Token.localStorage :=
              Token.removeItem "mapbox_access_token"
                (Token.localStorage (token s));
            Token.tokenSectionHidden := false;
            Token.mapSectionHidden := true;
            Token.mapboxToken := "";
            Token.alerts := Token.alerts (token s);
            Token.initialized := Token.initialized (token s) |} s)
  else s.

(** [addTokenControls()]: with an element of class 'controls' and a
    stored token, one more button and one more listener on the first
    'resetToken'. *)
Definition addTokenControls (s : state) : state :=
  let stored :=
    match Token.getItem "mapbox_access_token"
            (Token.localStorage (token s)) with
    | Some value => negb (value =? "")
    | None => false
    end in
  if controls s && stored
  then set_resetTokenListeners (S (resetTokenListeners s)) s
  else s.

(** The listener a run has put on the page for an event of its
    controls. *)
Definition listener (e : RestroomMap.Event) : RestroomMap.M unit :=
  match e with
  | RestroomMap.SearchInput value =>
      RestroomMap.changeFilters (Filters.set_search (toLowerCase value))
  | RestroomMap.StatusChange value =>
      RestroomMap.changeFilters (Filters.set_status value)
  | RestroomMap.AccessibilityChange value =>
      RestroomMap.changeFilters (Filters.set_accessibility value)
  | RestroomMap.LocationTypeChange value =>
      RestroomMap.changeFilters (Filters.set_locationType value)
  | RestroomMap.ResetAllFiltersClick => RestroomMap.resetAllFilters
  | RestroomMap.EscapeKey =>
      RestroomMap.changeFilters (Filters.set_search "")
  | RestroomMap.ToggleHeatmapClick => RestroomMap.toggleHeatmap
  | RestroomMap.TimerFires => RestroomMap.ret tt
  end.

(** Whether the page hands the event to the listeners: a disabled button
    gets no click, and a timer is no event of the controls. *)
Definition reaches (e : RestroomMap.Event) (d : Dom) : bool :=
  match e with
  | RestroomMap.ToggleHeatmapClick => negb (toggleDisabled d)
  | RestroomMap.TimerFires => false
  | _ => true
  end.

(** An event of the page runs the listener of every run that has put
    one, in the order they were put. *)
Fixpoint deliver (handler : RestroomMap.M unit) (order : list nat)
  (d : Dom) (rs : list Run) : Dom * list Run :=
  match order with
  | [] => (d, rs)
  | k :: rest =>
      match nth_error rs k with
      | Some (Listening st) =>
          let st' := snd (handler (withDom d st)) in
          deliver handler rest (domOf st') (update k (Listening st') rs)
      | _ => deliver handler rest d rs
      end
  end.

(** What happens on the page: the user types into the token input,
    clicks the submit button or the first 'resetToken' button (and
    answers its [confirm]); the map of run [k] fires 'load'; the answer
    to the fetch of run [k] arrives; the user acts on a control of the
    map; a timer of run [k] fires. *)
Inductive Event : Type :=
| TypeToken (value : string)
| SubmitClick
| ChangeTokenClick (confirmed : bool)
| MapLoaded (k : nat)
| DataArrived (k : nat) (data : FeatureCollection)
| Control (e : RestroomMap.Event)
| TimerFired (k : nat).

(** A click runs every listener of the button; 'load' and the answer to
    the fetch come once for each run, in this order; a timer fires when
    one is pending. *)
Definition dispatch (s : state) (e : Event) : state :=
  match e with
  | TypeToken value => set_token (Token.typeToken value (token s)) s
  | SubmitClick => Nat.iter (submitListeners s) submitListener s
  | ChangeTokenClick confirmed =>
      Nat.iter (resetTokenListeners s) (changeTokenListener confirmed) s
  | MapLoaded k =>
      match nth_error (runs s) k with
      | Some Loading =>
          addTokenControls (set_runs (dom s) (update k Fetching (runs s)) s)
      | _ => s
      end
  | DataArrived k data =>
      match nth_error (runs s) k with
      | Some Fetching =>
          set_attached (attached s ++ [k])%list
            (set_runs (dom s)
               (update k (Listening (RestroomMap.loaded data)) (runs s)) s)
      | _ => s
      end
  | Control e =>
      if reaches e (dom s) then
        let (d, rs) := deliver (listener e) (attached s) (dom s) (runs s) in
        set_runs d rs s
      else s
  | TimerFired k =>
      match nth_error (runs s) k with
      | Some (Listening st) =>
          let st' :=
            RestroomMap.dispatch (withDom (dom s) st) RestroomMap.TimerFires in
          set_runs (domOf st') (update k (Listening st') (runs s)) s
      | _ => s
      end
  end.

Definition run (events : list Event) (s : state) : state :=
  fold_left dispatch events s.

(** The runs of [generateCoverageHeatmap] past its guard that the console
    of the page shows. *)
Definition computations (s : state) : nat :=
  List.length (filter RestroomMap.isComputation (output (dom s))).

(** The page as run [k] sees it. *)
Definition view (k : nat) (s : state) : option RestroomMap.state :=
  match nth_error (runs s) k with
  | Some (Listening st) => Some (withDom (dom s) st)
  | _ => None
  end.

End Page.

(* ------------------------------------------------------------------ *)
(** * Vocabulary of the specification *)
(* ------------------------------------------------------------------ *)

(** [shown] is exactly the elements of [records] that satisfy [P], each as
    often as it occurs and in the order of [records]. *)
Inductive StableSelection {A : Type} (P : A -> Prop)
  : list A -> list A -> Prop :=
| selection_nil : StableSelection P [] []
| selection_keep (x : A) (records shown : list A) :
    P x -> StableSelection P records shown ->
    StableSelection P (x :: records) (x :: shown)
| selection_drop (x : A) (records shown : list A) :
    ~ P x -> StableSelection P records shown ->
    StableSelection P (x :: records) shown.

(** [n] is the number of elements of [records] that satisfy [P]. *)
Inductive Counts {A : Type} (P : A -> Prop) : list A -> nat -> Prop :=
| counts_nil : Counts P [] 0
| counts_in (x : A) (records : list A) (n : nat) :
    P x -> Counts P records n -> Counts P (x :: records) (S n)
| counts_out (x : A) (records : list A) (n : nat) :
    ~ P x -> Counts P records n -> Counts P (x :: records) n.

(** A missing field is treated as the empty string. *)
Definition orEmpty (field : option string) : string :=
  match field with
  | Some s => s
  | None => ""
  end.

(** Search predicate of the Filter Engine: name, operator and location
    type, separated by single spaces and lower-cased, contain the search
    text when that text is not empty. *)
Definition SearchPredicate (q : Filters.t) (record : Feature) : Prop :=
  Filters.search q <> "" ->
  Substring (Filters.search q)
    (toLowerCase (orEmpty (Props.facility_name (properties record))
                    ++ " " ++ orEmpty (Props.operator (properties record))
                    ++ " "
                    ++ orEmpty (Props.location_type (properties record)))).

(** Facet predicate: the filter is the sentinel, or it is the value of
    the record. *)
Definition FacetPredicate (filter : string) (value : option string) : Prop :=
  filter = "all" \/ value = Some filter.

Definition Satisfies (q : Filters.t) (record : Feature) : Prop :=
  SearchPredicate q record
  /\ FacetPredicate (Filters.status q) (Props.status (properties record))
  /\ FacetPredicate (Filters.accessibility q)
       (Props.accessibility (properties record))
  /\ FacetPredicate (Filters.locationType q)
       (Props.location_type (properties record)).

(** [q'] tightens one facet of [q]: a facet filter leaves the sentinel
    for some value, or the search text is replaced by one that contains
    it. *)
Inductive Tightens (q : Filters.t) : Filters.t -> Prop :=
| tighten_status (value : string) :
    Filters.status q = "all" -> Tightens q (Filters.set_status value q)
| tighten_accessibility (value : string) :
    Filters.accessibility q = "all" ->
    Tightens q (Filters.set_accessibility value q)
| tighten_locationType (value : string) :
    Filters.locationType q = "all" ->
    Tightens q (Filters.set_locationType value q)
| tighten_search (text : string) :
    Substring (Filters.search q) text ->
    Tightens q (Filters.set_search text q).

(** ** Coverage grid *)

Definition isArray (coords : Coordinates) : Prop :=
  match coords with
  | CoordsArray _ => True
  | CoordsUndefined | CoordsNull => False
  end.

(** The record has a coordinates array (of any content). *)
Definition HasCoordinateArray (record : Feature) : Prop :=
  isArray (coordinates (geometry record)).

(** The record has finite coordinates: an array that starts with a finite
    longitude and a finite latitude. *)
Definition HasFiniteCoordinates (record : Feature) : Prop :=
  exists (x y : R) (rest : list JSValue),
    coordinates (geometry record)
    = CoordsArray (Number (Num x) :: Number (Num y) :: rest).

(** The fast planar distance, in meters, between the grid point
    ([lat], [lng]) and the point of longitude [x] and latitude [y]. *)
Definition planarDistance (lat lng x y : R) : R :=
  sqrt (((y - lat) * 111000) * ((y - lat) * 111000)
        + ((x - lng) * 85000) * ((x - lng) * 85000))%R.

(** The distance of a record that counts in the scan: its coordinates are
    an array whose first two elements convert to finite numbers. *)
Definition validDistance (lat lng : R) (coords : Coordinates) : option R :=
  match coords with
  | CoordsArray elements =>
      match ToNumber (nth 0 elements Undefined),
            ToNumber (nth 1 elements Undefined) with
      | Num x, Num y => Some (planarDistance lat lng x y)
      | _, _ => None
      end
  | CoordsUndefined | CoordsNull => None
  end.

Definition validDistances (lat lng : R) (restroomCoords : list Coordinates)
  : list R :=
  flat_map (fun coords => match validDistance lat lng coords with
                          | Some d => [d]
                          | None => []
                          end) restroomCoords.

(** [m] is the minimum of the distances [ds]: Infinity when there is
    none. *)
Definition MinimumOf (ds : list R) (m : number) : Prop :=
  match ds with
  | [] => m = Infinity
  | _ :: _ => exists d, m = Num d /\ In d ds
                        /\ forall d', In d' ds -> (d <= d')%R
  end.

(** The running minimum: [d] replaces [m] when it is less. *)
Definition keepSmaller (m : number) (d : R) : number :=
  if lessThan (Num d) m then Num d else m.

(** A finite number between 0 and 1. *)
Definition UnitInterval (x : number) : Prop :=
  exists r, x = Num r /\ (0 <= r <= 1)%R.

(** Latitude of row [i] and longitude of column [j] of the grid. *)
Definition gridLat (bounds : RestroomMap.Bounds) (gridSize i : nat)
  : number :=
  add (RestroomMap.south bounds)
    (mul (of_nat i)
       (div (sub (RestroomMap.north bounds) (RestroomMap.south bounds))
          (of_nat gridSize))).

Definition gridLng (bounds : RestroomMap.Bounds) (gridSize j : nat)
  : number :=
  add (RestroomMap.west bounds)
    (mul (of_nat j)
       (div (sub (RestroomMap.east bounds) (RestroomMap.west bounds))
          (of_nat gridSize))).

(** The point the loops push for row [i] and column [j]. *)
Definition cellOf (bounds : RestroomMap.Bounds) (gridSize : nat)
  (restroomCoords : list Coordinates) (i j : nat) : RestroomMap.HeatmapPoint :=
  let lat := gridLat bounds gridSize i in
  let lng := gridLng bounds gridSize j in
  {| RestroomMap.lng := lng;
     RestroomMap.lat := lat;
     RestroomMap.intensity :=
       RestroomMap.intensityOf
         match RestroomMap.nearestDistance lat lng restroomCoords with
         | Normal minDistance => minDistance
         | Throw _ => NaN
         end |}.

(** [restroomCoords] of a store. *)
Definition restroomCoordsOf (data : FeatureCollection) : list Coordinates :=
  map (fun restroom => coordinates (geometry restroom)) (features data).

(** ** Cache of the coverage grid *)

(** A state in which the heat map has neither been computed nor
    requested. *)
Definition Fresh (st : RestroomMap.state) : Prop :=
  RestroomMap.heatmapData st = None
  /\ RestroomMap.isHeatmapVisible st = false
  /\ RestroomMap.buttonDisabled st = false
  /\ RestroomMap.timers st = 0
  /\ RestroomMap.computations st = 0.

(** The four phases of the cache: idle, computation scheduled (button
    disabled, one timer pending), computation aborted by a throw (button
    left disabled), grid cached. *)
Definition CacheInvariant (st : RestroomMap.state) : Prop :=
  match RestroomMap.heatmapData st with
  | None =>
      (RestroomMap.timers st = 0
       /\ RestroomMap.buttonDisabled st = false
       /\ RestroomMap.computations st = 0)
      \/ (RestroomMap.timers st = 1
          /\ RestroomMap.buttonDisabled st = true
          /\ RestroomMap.computations st = 0)
      \/ (RestroomMap.timers st = 0
          /\ RestroomMap.buttonDisabled st = true
          /\ RestroomMap.computations st = 1)
  | Some _ =>
      RestroomMap.timers st = 0 /\ RestroomMap.computations st = 1
  end.

(** An event of one run of [initializeMap], as an event of the page
    whose only run it is. *)
Definition asPageEvent (e : RestroomMap.Event) : Page.Event :=
  match e with
  | RestroomMap.TimerFires => Page.TimerFired 0
  | _ => Page.Control e
  end.

(** ** Queries of one facet *)

Definition onlySearch (text : string) : Filters.t :=
  Filters.set_search text Filters.initial.

Definition onlyStatus (value : string) : Filters.t :=
  Filters.set_status value Filters.initial.

Definition onlyAccessibility (value : string) : Filters.t :=
  Filters.set_accessibility value Filters.initial.

Definition onlyLocationType (value : string) : Filters.t :=
  Filters.set_locationType value Filters.initial.

(** ** Statistics panel *)

(** The map shows the store filtered by the current filters, and the
    four counters of the panel count what the map shows. *)
Definition PanelAgrees (data : FeatureCollection) (st : Part000.state)
  : Prop :=
  Part000.allRestroomData st = Some data
  /\ exists shown,
       shown = filterFeatures (Part000.currentFilters st) (features data)
       /\ Part000.restroomsSource st = Some {| features := shown |}
       /\ Part000.totalVisible st = List.length shown
       /\ Counts (fun f => Props.status (properties f) = Some "Operational")
            shown (Part000.operationalCount st)
       /\ Counts (fun f => Props.accessibility (properties f)
                           = Some "Fully Accessible")
            shown (Part000.accessibleCount st)
       /\ Counts (fun f => Props.location_type (properties f) = Some "Park")
            shown (Part000.parkCount st).

(** ** Comparing distances and intensities *)

(** The distance [m'] is no farther than [m]; Infinity is the farthest. *)
Definition NoFarther (m' m : number) : Prop :=
  match m', m with
  | Num a, Num b => (a <= b)%R
  | Num _, Infinity => True
  | Infinity, Infinity => True
  | _, _ => False
  end.

(** Not a negative number and not -Infinity. *)
Definition NeverNegative (x : number) : Prop :=
  match x with
  | NegInfinity => False
  | Num d => (0 <= d)%R
  | NaN | Infinity => True
  end.

(** A latitude and a longitude of the globe, in degrees. *)
Definition Geographic (lat lng : R) : Prop :=
  (Rabs lat <= 90)%R /\ (Rabs lng <= 180)%R.

(** A longitude as a map hands it out, however many copies of the world
    it has been dragged across: at most a million degrees in magnitude,
    a range in which a double keeps steps of 360 apart. *)
Definition MapLongitude (x : R) : Prop := (Rabs x <= 1000000)%R.

(** Two finite numbers, the first at most the second. *)
Definition AtMost (x y : number) : Prop :=
  exists a b, x = Num a /\ y = Num b /\ (a <= b)%R.

(** The feature [addHeatmapLayer] makes of a grid point. *)
Definition heatFeatureOf (point : RestroomMap.HeatmapPoint)
  : RestroomMap.HeatFeature :=
  {| RestroomMap.heat_coordinates :=
       (RestroomMap.lng point, RestroomMap.lat point);
     RestroomMap.heat_intensity := RestroomMap.intensity point |}.

(** ** What the map shows of the heat map *)

(** While the heat map is flagged visible, the grid of the store is
    cached, the map has the heat layer, its source holds the feature of
    each cached point, in order, and the legend is shown; while it is
    not, the map has neither the layer nor the source. *)
Definition HeatDisplay (data : FeatureCollection) (st : RestroomMap.state)
  : Prop :=
  RestroomMap.allRestroomData st = Some data
  /\ (forall grid,
        RestroomMap.heatmapData st = Some grid ->
        RestroomMap.gridLoops RestroomMap.nycBounds RestroomMap.gridSize
          (restroomCoordsOf data)
        = Normal (RestroomMap.heatmapPoints grid))
  /\ if RestroomMap.isHeatmapVisible st
     then exists grid,
            RestroomMap.heatmapData st = Some grid
            /\ RestroomMap.heatmapSource st
               = Some (map heatFeatureOf (RestroomMap.heatmapPoints grid))
            /\ RestroomMap.heatmapLayer st = true
            /\ RestroomMap.legendHidden st = false
     else RestroomMap.heatmapSource st = None
          /\ RestroomMap.heatmapLayer st = false.

(** The page after a computation that threw: nothing cached, nothing
    shown, no timer left, and the button disabled on its waiting text. *)
Definition Stuck (st : RestroomMap.state) : Prop :=
  RestroomMap.heatmapData st = None
  /\ RestroomMap.isHeatmapVisible st = false
  /\ RestroomMap.heatmapSource st = None
  /\ RestroomMap.heatmapLayer st = false
  /\ RestroomMap.timers st = 0
  /\ RestroomMap.buttonDisabled st = true
  /\ RestroomMap.buttonText st = "Generating Danger Zone Analysis...".

(** ** Token management *)

(** Every token the map was initialised with starts with "pk."; when
    there is one, the latest is the stored token and the map section is
    shown; when there is none, no token is stored and the token section
    is shown. *)
Definition TokenKept (p : Token.page) : Prop :=
  Forall (fun token => String.prefix "pk." token = true)
    (Token.initialized p)
  /\ match Token.initialized p with
     | [] =>
         Token.getItem Token.STORAGE_KEY (Token.localStorage p) = None
         /\ Token.tokenSectionHidden p = false
         /\ Token.mapSectionHidden p = true
     | token :: _ =>
         Token.getItem Token.STORAGE_KEY (Token.localStorage p) = Some token
         /\ Token.tokenSectionHidden p = true
         /\ Token.mapSectionHidden p = false
     end.

(** ** The two revisions side by side *)

(** The event of [restroom-map.js] that an event of the revision with
    the statistics panel corresponds to. *)
Definition asRestroomMapEvent (e : Part000.Event) : RestroomMap.Event :=
  match e with
  | Part000.SearchInput value => RestroomMap.SearchInput value
  | Part000.StatusChange value => RestroomMap.StatusChange value
  | Part000.AccessibilityChange value => RestroomMap.AccessibilityChange value
  | Part000.LocationTypeChange value => RestroomMap.LocationTypeChange value
  | Part000.ResetAllFiltersClick => RestroomMap.ResetAllFiltersClick
  | Part000.EscapeKey => RestroomMap.EscapeKey
  end.

(** The filters a listener leaves. *)
Definition nextFilters (e : Part000.Event) (q : Filters.t) : Filters.t :=
  match e with
  | Part000.SearchInput value => Filters.set_search (toLowerCase value) q
  | Part000.StatusChange value => Filters.set_status value q
  | Part000.AccessibilityChange value => Filters.set_accessibility value q
  | Part000.LocationTypeChange value => Filters.set_locationType value q
  | Part000.ResetAllFiltersClick => Filters.initial
  | Part000.EscapeKey => Filters.set_search "" q
  end.

(* ------------------------------------------------------------------ *)
(** * Sample data *)
(* ------------------------------------------------------------------ *)

Module Sample.

Local Open Scope R_scope.

Definition at_ (lng lat : R) : Geometry :=
  {| coordinates := CoordsArray [Number (Num lng); Number (Num lat)] |}.

Definition centralPark : Feature :=
  {| geometry := at_ (- 73.97) 40.78;
     properties :=
       {| Props.facility_name := Some "Central Park";
          Props.operator := None;
          Props.location_type := Some "Park";
          Props.status := Some "Operational";
          Props.accessibility := Some "Fully Accessible" |} |}.

Definition mainLibrary : Feature :=
  {| geometry := at_ (- 73.98) 40.75;
     properties :=
       {| Props.facility_name := Some "Main Branch";
          Props.operator := Some "NYPL";
          Props.location_type := Some "Library";
          Props.status := Some "Not Operational";
          Props.accessibility := None |} |}.

(** A record whose coordinates are null. *)
Definition unlocated : Feature :=
  {| geometry := {| coordinates := CoordsNull |};
     properties := properties centralPark |}.

(** A record whose latitude is missing from the array. *)
Definition halfLocated : Feature :=
  {| geometry := {| coordinates := CoordsArray [Number (Num (- 73.97))] |};
     properties := properties centralPark |}.

Definition twoRecords : FeatureCollection :=
  {| features := [centralPark; mainLibrary] |}.

Definition operationalOnly : Filters.t :=
  Filters.set_status "Operational" Filters.initial.

End Sample.

(* ------------------------------------------------------------------ *)
(** * Strings *)
(* ------------------------------------------------------------------ *)

Lemma append_associative (a b c : string) : (a ++ b) ++ c = a ++ b ++ c.
Proof. induction a as [|x a IH]; simpl; congruence. Qed.

Lemma prefix_spec (s t : string) :
  String.prefix s t = true <-> exists rest, t = s ++ rest.
Proof.
  revert t; induction s as [|c s IH]; intros t; simpl.
  - split; [intros _; now exists t | intros _; now destruct t].
  - destruct t as [|d t].
    + split; [discriminate | intros [rest H]; discriminate].
    + simpl. destruct (ascii_dec c d) as [->|Hcd].
      * rewrite IH. split; intros [rest H]; exists rest.
        -- now subst.
        -- now inversion H.
      * split; [discriminate | intros [rest H]; congruence].
Qed.

Lemma includes_spec (text search : string) :
  includes text search = true <-> Substring search text.
Proof.
  induction text as [|c text IH]; cbn [includes].
  - destruct (String.prefix search "") eqn:Hp.
    + split; [intros _ | reflexivity].
      apply prefix_spec in Hp as [rest H]. now exists "", rest.
    + split; [discriminate | intros (before & after & H)].
      destruct before; [| discriminate]. simpl in H.
      assert (String.prefix search "" = true) as Hp'
        by (apply prefix_spec; now exists after).
      congruence.
  - destruct (String.prefix search (String c text)) eqn:Hp.
    + split; [intros _ | reflexivity].
      apply prefix_spec in Hp as [rest H]. now exists "", rest.
    + rewrite IH. split.
      * intros (before & after & H). exists (String c before), after.
        simpl. now f_equal.
      * intros (before & after & H). destruct before as [|d before].
        -- simpl in H.
           assert (String.prefix search (String c text) = true) as Hp'
             by (apply prefix_spec; now exists after).
           congruence.
        -- inversion H. now exists before, after.
Qed.

Lemma Substring_trans (a b c : string) :
  Substring a b -> Substring b c -> Substring a c.
Proof.
  intros (p & s & Hb) (p' & s' & Hc). exists (p' ++ p), (s ++ s').
  rewrite Hc, Hb. now rewrite !append_associative.
Qed.

Lemma strictNotEqual_false (value : option string) (s : string) :
  strictNotEqual value s = false <-> value = Some s.
Proof.
  destruct value as [v|]; simpl.
  - rewrite negb_false_iff, String.eqb_eq. split; congruence.
  - split; discriminate.
Qed.

(* ------------------------------------------------------------------ *)
(** * Filter Engine *)
(* ------------------------------------------------------------------ *)

Lemma facet_passes (filter : string) (value : option string) :
  negb (filter =? "all") && strictNotEqual value filter = false
  <-> FacetPredicate filter value.
Proof.
  unfold FacetPredicate.
  rewrite andb_false_iff, negb_false_iff, String.eqb_eq,
    strictNotEqual_false. tauto.
Qed.

Lemma join_three (a b c : option string) :
  join " " [a; b; c] = orEmpty a ++ " " ++ orEmpty b ++ " " ++ orEmpty c.
Proof. reflexivity. Qed.

(** The callback answers [true] exactly on the records that satisfy the
    four predicates. *)
Lemma featureMatches_spec (q : Filters.t) (record : Feature) :
  featureMatches q record = true <-> Satisfies q record.
Proof.
  unfold featureMatches, Satisfies, SearchPredicate.
  cbv zeta. rewrite join_three.
  set (text := toLowerCase _).
  pose proof (facet_passes (Filters.status q)
                (Props.status (properties record))) as Hs.
  pose proof (facet_passes (Filters.accessibility q)
                (Props.accessibility (properties record))) as Ha.
  pose proof (facet_passes (Filters.locationType q)
                (Props.location_type (properties record))) as Hl.
  pose proof (includes_spec text (Filters.search q)) as Hi.
  destruct (String.eqb_spec (Filters.search q) "") as [He|He];
    destruct (negb (Filters.status q =? "all") && _);
    destruct (negb (Filters.accessibility q =? "all") && _);
    destruct (negb (Filters.locationType q =? "all") && _);
    destruct (includes text (Filters.search q)); cbn;
    intuition (try discriminate; try congruence).
Qed.

Lemma filter_selection {A : Type} (p : A -> bool) (P : A -> Prop)
  (records : list A) :
  (forall x, p x = true <-> P x) ->
  StableSelection P records (filter p records).
Proof.
  intros Hp. induction records as [|x records IH]; simpl.
  - constructor.
  - destruct (p x) eqn:Hx.
    + apply selection_keep; [now apply Hp | exact IH].
    + apply selection_drop; [| exact IH].
      intros HP. apply Hp in HP. congruence.
Qed.

(** A stable selection is determined by the records and the predicate. *)
Lemma StableSelection_unique {A : Type} (P : A -> Prop)
  (records shown shown' : list A) :
  StableSelection P records shown -> StableSelection P records shown' ->
  shown = shown'.
Proof.
  intros H; revert shown'.
  induction H; intros shown' H'; inversion H'; subst;
    try reflexivity; try contradiction.
  - f_equal; auto.
  - auto.
Qed.

Lemma filterFeatures_selection (q : Filters.t) (records : list Feature) :
  StableSelection (Satisfies q) records (filterFeatures q records).
Proof. apply filter_selection, featureMatches_spec. Qed.

(** C1. In both revisions, once the store is loaded and the 'restrooms'
    source exists, [applyFilters] completes and hands the map exactly the
    records of the store that satisfy the four predicates (search,
    status, accessibility, location type), in the order of the store. *)
Theorem C1_applyFilters_selects (st : RestroomMap.state)
  (st0 : Part000.state) (data : FeatureCollection) (q : Filters.t) :
  RestroomMap.allRestroomData st = Some data ->
  RestroomMap.currentFilters st = q ->
  RestroomMap.restroomsSource st <> None ->
  Part000.allRestroomData st0 = Some data ->
  Part000.currentFilters st0 = q ->
  Part000.restroomsSource st0 <> None ->
  exists shown,
    StableSelection (Satisfies q) (features data) shown
    /\ RestroomMap.applyFilters st
       = (Normal tt,
          RestroomMap.set_restroomsSource (Some {| features := shown |}) st)
    /\ exists st0',
         Part000.applyFilters st0 = (Normal tt, st0')
         /\ Part000.restroomsSource st0' = Some {| features := shown |}.
Proof.
  intros Hdata Hq Hsrc Hdata0 Hq0 Hsrc0.
  exists (filterFeatures q (features data)).
  split; [apply filterFeatures_selection |]. split.
  - unfold RestroomMap.applyFilters, RestroomMap.bind, RestroomMap.gets.
    rewrite Hdata, Hq.
    destruct (RestroomMap.restroomsSource st); [reflexivity | contradiction].
  - unfold Part000.applyFilters. rewrite Hdata0, Hq0.
    destruct (Part000.restroomsSource st0); [| contradiction].
    eexists. split; reflexivity.
Qed.

Lemma C1_witness :
  exists shown,
    StableSelection (Satisfies Sample.operationalOnly)
      (features Sample.twoRecords) shown
    /\ RestroomMap.applyFilters
         (RestroomMap.set_currentFilters Sample.operationalOnly
            (RestroomMap.loaded Sample.twoRecords))
       = (Normal tt,
          RestroomMap.set_restroomsSource (Some {| features := shown |})
            (RestroomMap.set_currentFilters Sample.operationalOnly
               (RestroomMap.loaded Sample.twoRecords)))
    /\ exists st0',
         Part000.applyFilters
           (Part000.set_currentFilters Sample.operationalOnly
              (Part000.loaded Sample.twoRecords))
         = (Normal tt, st0')
         /\ Part000.restroomsSource st0' = Some {| features := shown |}.
Proof.
  apply (@C1_applyFilters_selects
           (RestroomMap.set_currentFilters Sample.operationalOnly
              (RestroomMap.loaded Sample.twoRecords))
           (Part000.set_currentFilters Sample.operationalOnly
              (Part000.loaded Sample.twoRecords))
           Sample.twoRecords Sample.operationalOnly);
    try reflexivity; discriminate.
Defined.

(** Scenario A and B of the specification, evaluated. *)
Example scenario_A :
  filterFeatures Sample.operationalOnly [Sample.centralPark]
  = [Sample.centralPark].
Proof. reflexivity. Qed.

Example scenario_B :
  filterFeatures (Filters.set_search "library" Sample.operationalOnly)
    [Sample.centralPark]
  = [].
Proof. reflexivity. Qed.

Example search_is_case_insensitive :
  filterFeatures (Filters.set_search "branch nypl lib" Filters.initial)
    (features Sample.twoRecords)
  = [Sample.mainLibrary].
Proof. reflexivity. Qed.

Lemma filter_length_le {A : Type} (p p' : A -> bool) (records : list A) :
  (forall x, p' x = true -> p x = true) ->
  List.length (filter p' records) <= List.length (filter p records).
Proof.
  intros Himp. induction records as [|x records IH]; simpl; [lia |].
  destruct (p' x) eqn:H'.
  - rewrite (Himp x H'). simpl. lia.
  - destruct (p x); simpl; lia.
Qed.

Lemma Tightens_Satisfies (q q' : Filters.t) (record : Feature) :
  Tightens q q' -> Satisfies q' record -> Satisfies q record.
Proof.
  unfold Satisfies, SearchPredicate, FacetPredicate.
  intros [value Hall|value Hall|value Hall|text Hsub]; simpl;
    intros (Hs & Hst & Ha & Hl); repeat split; auto.
  intros Hne. apply Substring_trans with text; [exact Hsub |].
  apply Hs. intros ->. destruct Hsub as (before & after & H).
  destruct before; [| discriminate]. simpl in H.
  destruct (Filters.search q); [contradiction | discriminate].
Qed.

(** C4. Monotonicity: when one facet of the query is tightened (a facet
    filter moves from "all" to a value, or the search text is replaced by
    a text that contains it), the filter returns at most as many records
    as before. *)
Theorem C4_filter_monotone (records : list Feature) (q q' : Filters.t) :
  Tightens q q' ->
  List.length (filterFeatures q' records)
  <= List.length (filterFeatures q records).
Proof.
  intros Ht. apply filter_length_le. intros record H.
  apply featureMatches_spec. apply featureMatches_spec in H.
  now apply Tightens_Satisfies with q'.
Qed.

Lemma C4_witness :
  List.length (filterFeatures (Filters.set_search "park" Filters.initial)
                 (features Sample.twoRecords))
  <= List.length (filterFeatures Filters.initial
                    (features Sample.twoRecords)).
Proof.
  apply (@C4_filter_monotone (features Sample.twoRecords) Filters.initial
           (Filters.set_search "park" Filters.initial)).
  apply tighten_search. exists "", "park". reflexivity.
Defined.

(* ------------------------------------------------------------------ *)
(** * Statistics Aggregator *)
(* ------------------------------------------------------------------ *)

Lemma filter_counts {A : Type} (p : A -> bool) (P : A -> Prop)
  (records : list A) :
  (forall x, p x = true <-> P x) ->
  Counts P records (List.length (filter p records)).
Proof.
  intros Hp. induction records as [|x records IH]; simpl.
  - constructor.
  - destruct (p x) eqn:Hx; simpl.
    + apply counts_in; [now apply Hp | exact IH].
    + apply counts_out; [| exact IH].
      intros HP. apply Hp in HP. congruence.
Qed.

Lemma strictEqual_spec (value : option string) (literal : string) :
  Part000.strictEqual value literal = true <-> value = Some literal.
Proof.
  unfold Part000.strictEqual.
  now rewrite negb_true_iff, strictNotEqual_false.
Qed.

(** C7. For every record list, [updateStatistics] completes and writes
    the number of records, of records whose status is "Operational", of
    records whose accessibility is "Fully Accessible", and of records
    whose location type is "Park". *)
Theorem C7_updateStatistics_counts (st : Part000.state)
  (records : list Feature) :
  exists st',
    Part000.updateStatistics (Some records) st = (Normal tt, st')
    /\ Part000.totalVisible st' = List.length records
    /\ Counts (fun f => Props.status (properties f) = Some "Operational")
         records (Part000.operationalCount st')
    /\ Counts (fun f => Props.accessibility (properties f)
                        = Some "Fully Accessible")
         records (Part000.accessibleCount st')
    /\ Counts (fun f => Props.location_type (properties f) = Some "Park")
         records (Part000.parkCount st').
Proof.
  eexists. split; [reflexivity |]. simpl.
  repeat split; apply filter_counts; intros f; apply strictEqual_spec.
Qed.

(** Scenario A: the statistics of the single record. *)
Example scenario_A_statistics :
  let st' := snd (Part000.updateStatistics (Some [Sample.centralPark])
                    (Part000.loaded Sample.twoRecords)) in
  (Part000.totalVisible st', Part000.operationalCount st',
   Part000.accessibleCount st', Part000.parkCount st') = (1, 1, 1, 1)%nat.
Proof. reflexivity. Qed.

(** Without an argument the counters are those of the whole store. *)
Lemma updateStatistics_default (st : Part000.state)
  (data : FeatureCollection) :
  Part000.allRestroomData st = Some data ->
  Part000.updateStatistics None st
  = Part000.updateStatistics (Some (features data)) st.
Proof. intros H. unfold Part000.updateStatistics. now rewrite H. Qed.

(* ------------------------------------------------------------------ *)
(** * Before the store is populated *)
(* ------------------------------------------------------------------ *)

Lemma applyFilters_not_loaded (st : RestroomMap.state) :
  RestroomMap.allRestroomData st = None ->
  RestroomMap.applyFilters st = (Normal tt, st).
Proof.
  intros H. unfold RestroomMap.applyFilters, RestroomMap.bind,
    RestroomMap.gets.
  now rewrite H.
Qed.

Lemma generateCoverageHeatmap_not_loaded (st : RestroomMap.state) :
  RestroomMap.allRestroomData st = None ->
  RestroomMap.generateCoverageHeatmap st = (Normal None, st).
Proof.
  intros H. unfold RestroomMap.generateCoverageHeatmap, RestroomMap.bind,
    RestroomMap.gets.
  now rewrite H.
Qed.

(** C10. While [allRestroomData] is still null, [applyFilters] and
    [generateCoverageHeatmap] return at once: the first returns nothing
    and the second undefined, and the state (variables, map, page and
    console) is left as it was. *)
Theorem C10_noop_before_load (st : RestroomMap.state) :
  RestroomMap.allRestroomData st = None ->
  RestroomMap.applyFilters st = (Normal tt, st)
  /\ RestroomMap.generateCoverageHeatmap st = (Normal None, st).
Proof.
  intros H. split.
  - now apply applyFilters_not_loaded.
  - now apply generateCoverageHeatmap_not_loaded.
Qed.

Lemma C10_witness :
  RestroomMap.applyFilters RestroomMap.initial
  = (Normal tt, RestroomMap.initial)
  /\ RestroomMap.generateCoverageHeatmap RestroomMap.initial
     = (Normal None, RestroomMap.initial).
Proof. apply (@C10_noop_before_load RestroomMap.initial). reflexivity. Defined.

(** The revision with the statistics panel has the same guard. *)
Lemma Part000_applyFilters_noop (st : Part000.state) :
  Part000.allRestroomData st = None ->
  Part000.applyFilters st = (Normal tt, st).
Proof. intros H. unfold Part000.applyFilters. now rewrite H. Qed.

(* ------------------------------------------------------------------ *)
(** * Numbers *)
(* ------------------------------------------------------------------ *)

Section Numbers.

Local Open Scope R_scope.

Lemma Rsign_Gt (r : R) : 0 < r -> Rsign r = Gt.
Proof.
  intros H. unfold Rsign.
  destruct (total_order_T r 0) as [[H'|H']|H']; try lra. reflexivity.
Qed.

Lemma Rsign_Eq : Rsign 0 = Eq.
Proof.
  unfold Rsign.
  destruct (total_order_T 0 0) as [[H'|H']|H']; try lra. reflexivity.
Qed.

Lemma Rsign_not_Lt (r : R) : 0 <= r -> Rsign r <> Lt.
Proof.
  intros H. unfold Rsign.
  destruct (total_order_T r 0) as [[H'|H']|H']; try lra; discriminate.
Qed.

Lemma Rsign_cases (r : R) :
  (Rsign r = Lt /\ r < 0) \/ (Rsign r = Eq /\ r = 0)
  \/ (Rsign r = Gt /\ 0 < r).
Proof.
  unfold Rsign. destruct (total_order_T r 0) as [[H|H]|H]; auto.
Qed.

Lemma lessThan_Infinity (m : number) : lessThan Infinity m = false.
Proof. now destruct m. Qed.

Lemma Math_sqrt_range (x : number) :
  Math_sqrt x = NaN \/ Math_sqrt x = Infinity
  \/ exists d, Math_sqrt x = Num d /\ 0 <= d.
Proof.
  destruct x as [| | |r]; simpl; auto.
  destruct (Rsign r); auto; right; right; eexists; split;
    try reflexivity; apply sqrt_pos.
Qed.

Lemma Rpower_one (a : R) : Rpower 1 a = 1.
Proof. unfold Rpower. now rewrite ln_1, Rmult_0_r, exp_0. Qed.

Lemma Rpower_unit (r : R) : 0 < r <= 1 -> 0 <= Rpower r 0.6 <= 1.
Proof.
  intros Hr. split.
  - unfold Rpower. left. apply exp_pos.
  - rewrite <- (Rpower_one 0.6). apply Rle_Rpower_l; lra.
Qed.

End Numbers.

(* ------------------------------------------------------------------ *)
(** * Loops *)
(* ------------------------------------------------------------------ *)

(** A loop whose body appends to its variable appends the pieces in the
    order of the iteration. *)
Lemma for_of_append {A B : Type}
  (body : A -> list B -> Completion (list B)) (piece : A -> list B)
  (xs : list A) :
  (forall x acc, In x xs -> body x acc = Normal (acc ++ piece x)%list) ->
  forall acc, for_of xs body acc = Normal (acc ++ flat_map piece xs)%list.
Proof.
  induction xs as [|x xs IH]; intros Hbody acc; simpl.
  - now rewrite app_nil_r.
  - rewrite Hbody by now left.
    rewrite IH by (intros; apply Hbody; now right).
    now rewrite app_assoc.
Qed.

(** What holds of the variable before the loop and is kept by the body
    holds after the loop. *)
Lemma for_of_invariant {A B : Type} (P : B -> Prop)
  (body : A -> B -> Completion B) (xs : list A) :
  (forall x acc acc', P acc -> body x acc = Normal acc' -> P acc') ->
  forall acc result,
    P acc -> for_of xs body acc = Normal result -> P result.
Proof.
  intros Hbody. induction xs as [|x xs IH]; intros acc result HP; simpl.
  - intros H. now inversion H; subst.
  - destruct (body x acc) as [acc'|e] eqn:Hx; [| discriminate].
    apply IH. now apply Hbody with x acc.
Qed.

Lemma flat_map_rows_length {A : Type} (row : nat -> list A)
  (width : nat) (rows : list nat) :
  (forall i, List.length (row i) = width) ->
  List.length (flat_map row rows) = (List.length rows * width)%nat.
Proof.
  intros Hrow. induction rows as [|i rows IH]; simpl; [reflexivity |].
  now rewrite length_app, Hrow, IH.
Qed.

(** Row-major position of the element of row [i] and column [j]. *)
Lemma nth_error_grid {A : Type} (cell : nat -> nat -> A)
  (width height i j : nat) :
  (i < height)%nat -> (j < width)%nat ->
  nth_error
    (flat_map (fun i => map (cell i) (seq 0 width)) (seq 0 height))
    (i * width + j)
  = Some (cell i j).
Proof.
  intros Hi Hj.
  enough (forall start,
             nth_error
               (flat_map (fun i => map (cell i) (seq 0 width))
                  (seq start height))
               (i * width + j)
             = Some (cell (start + i)%nat j)) as H by exact (H 0%nat).
  revert i Hi. induction height as [|height IH]; intros i Hi start; [lia |].
  simpl. destruct i as [|i].
  - replace (0 * width + j)%nat with j by lia.
    rewrite nth_error_app1 by (now rewrite length_map, length_seq).
    rewrite nth_error_map, nth_error_seq.
    destruct (Nat.ltb_spec j width); [| lia].
    replace (start + 0)%nat with start by lia. reflexivity.
  - rewrite nth_error_app2 by (rewrite length_map, length_seq; simpl; lia).
    rewrite length_map, length_seq.
    replace (S i * width + j - width)%nat with (i * width + j)%nat
      by (simpl; lia).
    rewrite IH by lia. f_equal. f_equal. lia.
Qed.

(* ------------------------------------------------------------------ *)
(** * Distance Model and nearest-restroom scan *)
(* ------------------------------------------------------------------ *)

Section Scan.

Local Open Scope R_scope.

Variables lat lng : R.

Lemma distance_valid (rLng rLat : JSValue) (x y : R) :
  ToNumber rLng = Num x -> ToNumber rLat = Num y ->
  RestroomMap.calculateFastDistance (Number (Num lat)) (Number (Num lng))
    rLat rLng
  = Num (planarDistance lat lng x y).
Proof.
  intros Hx Hy. unfold RestroomMap.calculateFastDistance, planarDistance.
  rewrite Hx, Hy. simpl.
  set (r := (y + - lat) * 111000 * ((y + - lat) * 111000)
            + (x + - lng) * 85000 * ((x + - lng) * 85000)).
  assert (0 <= r) as Hr
    by (unfold r; apply Rplus_le_le_0_compat; apply Rle_0_sqr).
  pose proof (Rsign_not_Lt Hr) as Hs.
  destruct (Rsign r); [reflexivity | contradiction | reflexivity].
Qed.

Lemma distance_invalid (rLng rLat : JSValue) :
  isFinite (ToNumber rLng) && isFinite (ToNumber rLat) = false ->
  let distance :=
    RestroomMap.calculateFastDistance (Number (Num lat)) (Number (Num lng))
      rLat rLng in
  distance = NaN \/ distance = Infinity.
Proof.
  assert (Rsign 111000 = Gt) as H1 by (apply Rsign_Gt; lra).
  assert (Rsign 85000 = Gt) as H2 by (apply Rsign_Gt; lra).
  unfold RestroomMap.calculateFastDistance.
  destruct (ToNumber rLng), (ToNumber rLat); simpl;
    rewrite ?H1, ?H2; simpl; auto; discriminate.
Qed.

(** An invalid record leaves [minDistance] as it is. *)
Lemma scanStep_invalid (elements : list JSValue) (minDistance : number) :
  validDistance lat lng (CoordsArray elements) = None ->
  RestroomMap.scanStep (Num lat) (Num lng) (CoordsArray elements) minDistance
  = Normal minDistance.
Proof.
  intros Hv. unfold RestroomMap.scanStep. simpl.
  destruct (@distance_invalid (nth 0 elements Undefined)
              (nth 1 elements Undefined)) as [H|H].
  - simpl in Hv.
    destruct (ToNumber (nth 0 elements Undefined)),
      (ToNumber (nth 1 elements Undefined)); try reflexivity; discriminate.
  - now rewrite H.
  - rewrite H. now rewrite lessThan_Infinity.
Qed.

(** A valid record enters the running minimum with its planar distance. *)
Lemma scanStep_valid (elements : list JSValue) (minDistance : number)
  (d : R) :
  validDistance lat lng (CoordsArray elements) = Some d ->
  RestroomMap.scanStep (Num lat) (Num lng) (CoordsArray elements) minDistance
  = Normal (keepSmaller minDistance d).
Proof.
  intros Hv. unfold RestroomMap.scanStep. simpl. simpl in Hv.
  destruct (ToNumber (nth 0 elements Undefined)) as [| | |x] eqn:Hx;
    try discriminate.
  destruct (ToNumber (nth 1 elements Undefined)) as [| | |y] eqn:Hy;
    try discriminate.
  rewrite (distance_valid _ _ Hx Hy). now inversion Hv.
Qed.

(** With coordinate arrays only, the scan does not throw, and it is the
    running minimum of the distances of the valid records alone. *)
Lemma scan_valid_only (restroomCoords : list Coordinates) :
  Forall isArray restroomCoords ->
  forall minDistance,
    for_of restroomCoords (RestroomMap.scanStep (Num lat) (Num lng))
      minDistance
    = Normal (fold_left keepSmaller (validDistances lat lng restroomCoords)
                minDistance).
Proof.
  induction 1 as [|coords rest Harr _ IH]; intros minDistance;
    [reflexivity |].
  destruct coords as [| |elements]; try contradiction.
  cbn [for_of validDistances flat_map].
  destruct (validDistance lat lng (CoordsArray elements)) as [d|] eqn:Hv.
  - rewrite (scanStep_valid _ _ Hv). apply IH.
  - rewrite (scanStep_invalid _ _ Hv). apply IH.
Qed.

End Scan.

(** The running minimum from Infinity or from a finite bound: it is the
    bound or one of the distances, and it is below all of them. *)
Lemma fold_keepSmaller (ds : list R) :
  forall acc : number,
    (acc = Infinity \/ exists a, acc = Num a) ->
    let m := fold_left keepSmaller ds acc in
    (m = acc \/ exists d, In d ds /\ m = Num d)
    /\ (forall d, In d ds -> exists r, m = Num r /\ (r <= d)%R)
    /\ (forall a, acc = Num a -> exists r, m = Num r /\ (r <= a)%R).
Proof.
  induction ds as [|d ds IH]; intros acc Hacc; simpl.
  - split; [now left |]. split; [intros d [] |].
    intros a ->. exists a. split; [reflexivity | lra].
  - assert (exists b, keepSmaller acc d = Num b /\ (b <= d)%R
                      /\ (keepSmaller acc d = acc \/ b = d)
                      /\ forall a, acc = Num a -> (b <= a)%R)
      as (b & Hb & Hbd & Hsel & Hba).
    { unfold keepSmaller. destruct Hacc as [->|[a ->]].
      - exists d. simpl. repeat split; auto; try lra. discriminate.
      - simpl. destruct (Rlt_dec d a).
        + exists d. repeat split; auto; try lra.
          intros a' H; inversion H; subst; lra.
        + exists a. repeat split; auto; try lra.
          intros a' H; inversion H; subst; lra. }
    destruct (IH (keepSmaller acc d)) as (Hm & Hle & Hacc').
    { right. now exists b. }
    destruct (Hacc' b Hb) as (r & Hr & Hrb).
    split; [| split].
    + destruct Hm as [Hm|(d' & Hin & Hm)].
      * destruct Hsel as [Hsel| ->].
        -- left. congruence.
        -- right. exists d. split; [now left | congruence].
      * right. exists d'. split; [now right | exact Hm].
    + intros d' [<-|Hin]; [| now apply Hle].
      exists r. split; [exact Hr | lra].
    + intros a Ha. exists r. split; [exact Hr |].
      specialize (Hba a Ha). lra.
Qed.

Lemma fold_keepSmaller_minimum (ds : list R) :
  MinimumOf ds (fold_left keepSmaller ds Infinity).
Proof.
  destruct (@fold_keepSmaller ds Infinity) as (Hm & Hle & _); [now left |].
  destruct ds as [|d0 ds]; [reflexivity |].
  unfold MinimumOf.
  destruct (Hle d0 (or_introl eq_refl)) as (r & Hr & _).
  exists r. split; [exact Hr |]. split.
  - destruct Hm as [Hm|(d & Hin & Hm)]; [congruence |].
    rewrite Hm in Hr. inversion Hr; subst. exact Hin.
  - intros d' Hin. destruct (Hle d' Hin) as (r' & Hr' & Hle').
    rewrite Hr in Hr'. inversion Hr'; subst. exact Hle'.
Qed.

(** The scan of a grid point with finite coordinates, over coordinate
    arrays: the minimum of the planar distance over the valid records. *)
Lemma nearestDistance_minimum (lat lng : R)
  (restroomCoords : list Coordinates) :
  Forall isArray restroomCoords ->
  exists m,
    RestroomMap.nearestDistance (Num lat) (Num lng) restroomCoords = Normal m
    /\ MinimumOf (validDistances lat lng restroomCoords) m.
Proof.
  intros Harr. eexists. split.
  - unfold RestroomMap.nearestDistance. now apply scan_valid_only.
  - apply fold_keepSmaller_minimum.
Qed.

(** Whatever the grid point, the scan does not throw over coordinate
    arrays. *)
Lemma nearestDistance_total (lat lng : number)
  (restroomCoords : list Coordinates) :
  Forall isArray restroomCoords ->
  exists m, RestroomMap.nearestDistance lat lng restroomCoords = Normal m.
Proof.
  unfold RestroomMap.nearestDistance. intros H. generalize Infinity.
  induction H as [|coords rest Harr _ IH]; intros acc; simpl.
  - now exists acc.
  - destruct coords as [| |elements]; try contradiction. apply IH.
Qed.

(** The scan throws at the first record whose coordinates are undefined
    or null. *)
Lemma nearestDistance_throws (lat lng : number)
  (restroomCoords : list Coordinates) :
  ~ Forall isArray restroomCoords ->
  RestroomMap.nearestDistance lat lng restroomCoords = Throw TypeError.
Proof.
  unfold RestroomMap.nearestDistance. generalize Infinity.
  induction restroomCoords as [|coords rest IH]; intros acc Hbad.
  - exfalso. apply Hbad. constructor.
  - destruct coords as [| |elements]; try reflexivity.
    simpl. apply IH. intros Hrest. apply Hbad. now constructor.
Qed.

(** Whatever the records and the grid point, a scan that completes ends
    on Infinity or on a finite distance that is not negative. *)
Lemma nearestDistance_range (lat lng : number)
  (restroomCoords : list Coordinates) (m : number) :
  RestroomMap.nearestDistance lat lng restroomCoords = Normal m ->
  m = Infinity \/ exists d, m = Num d /\ (0 <= d)%R.
Proof.
  unfold RestroomMap.nearestDistance. intros Hscan.
  apply (@for_of_invariant _ _
           (fun m => m = Infinity \/ exists d, m = Num d /\ (0 <= d)%R)
           (RestroomMap.scanStep lat lng) restroomCoords)
    with (acc := Infinity); [| now left | exact Hscan].
  intros coords acc acc' Hacc. unfold RestroomMap.scanStep.
  destruct (RestroomMap.destructurePair coords) as [[rLng rLat]|e];
    [| discriminate].
  intros H. injection H as <-.
  destruct (lessThan _ acc) eqn:Hlt; [| exact Hacc].
  unfold RestroomMap.calculateFastDistance in *.
  match goal with
  | |- context [Math_sqrt ?x] =>
      destruct (Math_sqrt_range x) as [Hs|[Hs|Hs]]
  end.
  - rewrite Hs in Hlt. discriminate.
  - now left.
  - now right.
Qed.

(* ------------------------------------------------------------------ *)
(** * Coverage Grid Sampler *)
(* ------------------------------------------------------------------ *)

Section Intensity.

Local Open Scope R_scope.

Lemma div_maxDistance_Infinity :
  div Infinity RestroomMap.maxDistance = Infinity.
Proof.
  unfold RestroomMap.maxDistance. cbn [div].
  rewrite Rsign_Gt by lra. reflexivity.
Qed.

Lemma div_maxDistance_Num (d : R) :
  div (Num d) RestroomMap.maxDistance = Num (d / 1000).
Proof.
  unfold RestroomMap.maxDistance. cbn [div].
  rewrite Rsign_Gt by lra. reflexivity.
Qed.

Lemma Math_pow_0_6_unit (r : R) :
  0 <= r <= 1 -> UnitInterval (Math_pow_0_6 (Num r)).
Proof.
  intros Hr. cbn [Math_pow_0_6].
  destruct (Rsign_cases r) as [[-> H]|[[-> H]|[-> H]]].
  - lra.
  - exists 0. split; [reflexivity | lra].
  - eexists. split; [reflexivity |]. apply Rpower_unit. lra.
Qed.

(** Saturation: without a restroom the intensity is 1. *)
Lemma intensityOf_Infinity : RestroomMap.intensityOf Infinity = Num 1.
Proof.
  unfold RestroomMap.intensityOf. rewrite div_maxDistance_Infinity.
  cbn [Math_min lessThan Math_pow_0_6].
  rewrite Rsign_Gt by lra. now rewrite Rpower_one.
Qed.

Lemma intensityOf_Num (d : R) :
  0 <= d ->
  RestroomMap.intensityOf (Num d)
  = Math_pow_0_6 (Num (if Rlt_dec 1 (d / 1000) then 1 else d / 1000)).
Proof.
  intros Hd. unfold RestroomMap.intensityOf. rewrite div_maxDistance_Num.
  cbn [Math_min lessThan]. now destruct (Rlt_dec 1 (d / 1000)).
Qed.

(** Boundedness of the intensity, for the three kinds of distance the
    scan can end on: zero, finite, and Infinity. *)
Lemma intensityOf_unit (m : number) :
  (m = Infinity \/ exists d, m = Num d /\ 0 <= d) ->
  UnitInterval (RestroomMap.intensityOf m).
Proof.
  intros [->|(d & -> & Hd)].
  - rewrite intensityOf_Infinity. exists 1. split; [reflexivity | lra].
  - rewrite intensityOf_Num by exact Hd. apply Math_pow_0_6_unit.
    destruct (Rlt_dec 1 (d / 1000)); lra.
Qed.

(** Saturation: at the cutoff and beyond, the intensity is 1. *)
Lemma intensityOf_saturates (d : R) :
  1000 <= d -> RestroomMap.intensityOf (Num d) = Num 1.
Proof.
  intros Hd. rewrite intensityOf_Num by lra.
  assert ((if Rlt_dec 1 (d / 1000) then 1 else d / 1000) = 1) as ->
    by (destruct (Rlt_dec 1 (d / 1000)); lra).
  cbn [Math_pow_0_6]. rewrite Rsign_Gt by lra. now rewrite Rpower_one.
Qed.

Lemma intensityOf_zero : RestroomMap.intensityOf (Num 0) = Num 0.
Proof.
  rewrite intensityOf_Num by lra.
  assert ((if Rlt_dec 1 (0 / 1000) then 1 else 0 / 1000) = 0) as ->
    by (destruct (Rlt_dec 1 (0 / 1000)); lra).
  cbn [Math_pow_0_6]. now rewrite Rsign_Eq.
Qed.

End Intensity.

Lemma flat_map_singleton {A B : Type} (f : A -> B) (xs : list A) :
  flat_map (fun x => [f x]) xs = map f xs.
Proof. induction xs as [|x xs IH]; simpl; congruence. Qed.

(** Over coordinate arrays the loops complete, row after row and column
    after column. *)
Lemma gridLoops_normal (bounds : RestroomMap.Bounds) (gridSize : nat)
  (restroomCoords : list Coordinates) :
  Forall isArray restroomCoords ->
  RestroomMap.gridLoops bounds gridSize restroomCoords
  = Normal (flat_map
              (fun i => map (cellOf bounds gridSize restroomCoords i)
                          (seq 0 gridSize))
              (seq 0 gridSize)).
Proof.
  intros Harr. unfold RestroomMap.gridLoops.
  rewrite for_of_append
    with (piece := fun i => map (cellOf bounds gridSize restroomCoords i)
                              (seq 0 gridSize)); [reflexivity |].
  intros i acc _.
  rewrite for_of_append
    with (piece := fun j => [cellOf bounds gridSize restroomCoords i j]).
  - now rewrite flat_map_singleton.
  - intros j acc' _. unfold cellOf, gridLat, gridLng.
    destruct (nearestDistance_total
                (add (RestroomMap.south bounds)
                   (mul (of_nat i)
                      (div (sub (RestroomMap.north bounds)
                              (RestroomMap.south bounds))
                         (of_nat gridSize))))
                (add (RestroomMap.west bounds)
                   (mul (of_nat j)
                      (div (sub (RestroomMap.east bounds)
                              (RestroomMap.west bounds))
                         (of_nat gridSize))))
                Harr) as [m Hm].
    now rewrite Hm.
Qed.

(** A record without a coordinates array makes the loops throw in their
    first iteration. *)
Lemma gridLoops_throws (bounds : RestroomMap.Bounds) (gridSize : nat)
  (restroomCoords : list Coordinates) :
  ~ Forall isArray restroomCoords -> (0 < gridSize)%nat ->
  RestroomMap.gridLoops bounds gridSize restroomCoords = Throw TypeError.
Proof.
  intros Hbad Hpos. unfold RestroomMap.gridLoops.
  destruct gridSize as [|n]; [lia |].
  cbn [seq for_of]. now rewrite nearestDistance_throws.
Qed.

Lemma gridLat_finite (north south east west : R) (gridSize i : nat) :
  (0 < gridSize)%nat ->
  gridLat {| RestroomMap.north := Num north; RestroomMap.south := Num south;
             RestroomMap.east := Num east; RestroomMap.west := Num west |}
    gridSize i
  = Num (south + INR i * ((north - south) / INR gridSize))%R.
Proof.
  intros Hpos. unfold gridLat, of_nat. cbn [RestroomMap.north
    RestroomMap.south sub neg add div].
  rewrite Rsign_Gt by now apply lt_0_INR. reflexivity.
Qed.

Lemma gridLng_finite (north south east west : R) (gridSize j : nat) :
  (0 < gridSize)%nat ->
  gridLng {| RestroomMap.north := Num north; RestroomMap.south := Num south;
             RestroomMap.east := Num east; RestroomMap.west := Num west |}
    gridSize j
  = Num (west + INR j * ((east - west) / INR gridSize))%R.
Proof.
  intros Hpos. unfold gridLng, of_nat. cbn [RestroomMap.east
    RestroomMap.west sub neg add div].
  rewrite Rsign_Gt by now apply lt_0_INR. reflexivity.
Qed.

Arguments RestroomMap.gridLoops : simpl never.

Lemma logged_logged (a b : list RestroomMap.LogEntry)
  (st : RestroomMap.state) :
  RestroomMap.logged b (RestroomMap.logged a st)
  = RestroomMap.logged (a ++ b) st.
Proof.
  destruct st. unfold RestroomMap.logged, RestroomMap.set_console. simpl.
  now rewrite app_assoc.
Qed.

(** [generateCoverageHeatmap] on a loaded store: two entries on the
    console, the loops, and a third entry when they complete. *)
Lemma generateCoverageHeatmap_loaded (st : RestroomMap.state)
  (data : FeatureCollection) :
  RestroomMap.allRestroomData st = Some data ->
  RestroomMap.generateCoverageHeatmap st
  = match RestroomMap.gridLoops RestroomMap.nycBounds RestroomMap.gridSize
            (restroomCoordsOf data) with
    | Normal cells =>
        (Normal (Some {| RestroomMap.heatmapPoints := cells |}),
         RestroomMap.logged
           [RestroomMap.LogGeneratingModerate;
            RestroomMap.LogProcessingGrid RestroomMap.gridSize
              (RestroomMap.gridSize * RestroomMap.gridSize);
            RestroomMap.LogGeneratedPoints (List.length cells)] st)
    | Throw e =>
        (Throw e,
         RestroomMap.logged
           [RestroomMap.LogGeneratingModerate;
            RestroomMap.LogProcessingGrid RestroomMap.gridSize
              (RestroomMap.gridSize * RestroomMap.gridSize)] st)
    end.
Proof.
  intros Hdata.
  cbv beta iota zeta delta [RestroomMap.generateCoverageHeatmap
    RestroomMap.bind RestroomMap.gets RestroomMap.log RestroomMap.modify
    RestroomMap.lift RestroomMap.ret].
  rewrite Hdata. fold (restroomCoordsOf data).
  destruct (RestroomMap.gridLoops _ _ _) as [cells|e];
    now rewrite !logged_logged.
Qed.

Lemma arrays_of_store (data : FeatureCollection) :
  Forall HasCoordinateArray (features data) ->
  Forall isArray (restroomCoordsOf data).
Proof.
  unfold restroomCoordsOf. intros H. apply Forall_map.
  exact H.
Qed.

Lemma finite_has_array (record : Feature) :
  HasFiniteCoordinates record -> HasCoordinateArray record.
Proof.
  intros (x & y & rest & H). unfold HasCoordinateArray. now rewrite H.
Qed.

Lemma grid_length (bounds : RestroomMap.Bounds) (gridSize : nat)
  (restroomCoords : list Coordinates) :
  List.length
    (flat_map (fun i => map (cellOf bounds gridSize restroomCoords i)
                          (seq 0 gridSize))
       (seq 0 gridSize))
  = (gridSize * gridSize)%nat.
Proof.
  rewrite flat_map_rows_length with (width := gridSize).
  - now rewrite length_seq.
  - intros i. now rewrite length_map, length_seq.
Qed.

(** The claim as stated fails on a store with a record whose
    coordinates are null: the scan of the first cell throws, and the
    sampler produces no cell at all. *)
Lemma C3_counterexample :
  fst (RestroomMap.generateCoverageHeatmap
         (RestroomMap.loaded {| features := [Sample.unlocated] |}))
  = Throw TypeError
  /\ ~ exists cells,
        RestroomMap.gridLoops RestroomMap.nycBounds RestroomMap.gridSize
          (restroomCoordsOf {| features := [Sample.unlocated] |})
        = Normal cells
        /\ List.length cells
           = (RestroomMap.gridSize * RestroomMap.gridSize)%nat.
Proof.
  assert (RestroomMap.gridLoops RestroomMap.nycBounds RestroomMap.gridSize
            (restroomCoordsOf {| features := [Sample.unlocated] |})
          = Throw TypeError) as Hloops.
  { apply gridLoops_throws; [| unfold RestroomMap.gridSize; lia].
    intros H. inversion H as [|? ? Hnull _]. exact Hnull. }
  split.
  - rewrite generateCoverageHeatmap_loaded
      with (data := {| features := [Sample.unlocated] |}) by reflexivity.
    now rewrite Hloops.
  - intros (cells & Hcells & _). rewrite Hloops in Hcells. discriminate.
Qed.

(** C3, amended. For bounds north, south, east, west and grid size N, over records
    that all carry a coordinates array, the loops of the sampler complete
    with exactly N * N cells; the cell of row i and column j is at
    position i * N + j (rows first, columns within a row), at latitude
    south + i * ((north - south) / N) and longitude
    west + j * ((east - west) / N). *)
Theorem C3_grid_layout (bounds : RestroomMap.Bounds) (N : nat)
  (restroomCoords : list Coordinates) :
  Forall isArray restroomCoords ->
  exists cells,
    RestroomMap.gridLoops bounds N restroomCoords = Normal cells
    /\ List.length cells = (N * N)%nat
    /\ forall i j, (i < N)%nat -> (j < N)%nat ->
         exists cell,
           nth_error cells (i * N + j) = Some cell
           /\ RestroomMap.lat cell
              = add (RestroomMap.south bounds)
                  (mul (of_nat i)
                     (div (sub (RestroomMap.north bounds)
                             (RestroomMap.south bounds)) (of_nat N)))
           /\ RestroomMap.lng cell
              = add (RestroomMap.west bounds)
                  (mul (of_nat j)
                     (div (sub (RestroomMap.east bounds)
                             (RestroomMap.west bounds)) (of_nat N))).
Proof.
  intros Harr. eexists. split; [now apply gridLoops_normal |].
  split; [apply grid_length |].
  intros i j Hi Hj. exists (cellOf bounds N restroomCoords i j).
  split; [now apply nth_error_grid |]. split; reflexivity.
Qed.

(** With finite bounds the location of a cell is the real number the
    specification writes. *)
Lemma cell_location_real (north south east west : R) (N i j : nat)
  (restroomCoords : list Coordinates) :
  (i < N)%nat -> (j < N)%nat ->
  let bounds :=
    {| RestroomMap.north := Num north; RestroomMap.south := Num south;
       RestroomMap.east := Num east; RestroomMap.west := Num west |} in
  RestroomMap.lat (cellOf bounds N restroomCoords i j)
  = Num (south + INR i * (north - south) / INR N)%R
  /\ RestroomMap.lng (cellOf bounds N restroomCoords i j)
     = Num (west + INR j * (east - west) / INR N)%R.
Proof.
  intros Hi Hj bounds. unfold cellOf. cbn [RestroomMap.lat RestroomMap.lng].
  unfold bounds. rewrite gridLat_finite, gridLng_finite by lia.
  assert (INR N <> 0)%R by (apply not_0_INR; lia).
  split; f_equal; field; assumption.
Qed.

(** The loops of [generateCoverageHeatmap] are those of [C3_grid_layout]
    at the bounds of New York and a grid of 100 by 100. *)
Lemma generateCoverageHeatmap_grid (st : RestroomMap.state)
  (data : FeatureCollection) :
  RestroomMap.allRestroomData st = Some data ->
  Forall HasCoordinateArray (features data) ->
  fst (RestroomMap.generateCoverageHeatmap st)
  = Normal
      (Some {| RestroomMap.heatmapPoints :=
                 flat_map
                   (fun i =>
                      map (cellOf RestroomMap.nycBounds RestroomMap.gridSize
                             (restroomCoordsOf data) i)
                        (seq 0 RestroomMap.gridSize))
                   (seq 0 RestroomMap.gridSize) |}).
Proof.
  intros Hdata Harr. rewrite (generateCoverageHeatmap_loaded _ Hdata).
  now rewrite gridLoops_normal by now apply arrays_of_store.
Qed.

(** Whatever the records, the bounds and the grid size, every cell the
    loops produce has an intensity between 0 and 1. *)
Lemma gridLoops_intensity_unit (bounds : RestroomMap.Bounds) (N : nat)
  (restroomCoords : list Coordinates)
  (cells : list RestroomMap.HeatmapPoint) :
  RestroomMap.gridLoops bounds N restroomCoords = Normal cells ->
  Forall (fun cell => UnitInterval (RestroomMap.intensity cell)) cells.
Proof.
  unfold RestroomMap.gridLoops.
  apply for_of_invariant
    with (P := Forall (fun cell => UnitInterval (RestroomMap.intensity cell)));
    [| constructor].
  intros i acc acc' Hacc.
  apply for_of_invariant
    with (P := Forall (fun cell => UnitInterval (RestroomMap.intensity cell)));
    [| exact Hacc].
  intros j pts pts' Hpts.
  destruct (RestroomMap.nearestDistance _ _ _) as [m|e] eqn:Hm;
    [| discriminate].
  intros H. injection H as <-.
  apply Forall_app. split; [exact Hpts |].
  constructor; [| constructor]. cbn [RestroomMap.intensity].
  apply intensityOf_unit. exact (nearestDistance_range _ _ _ Hm).
Qed.

(** C5. Coverage boundedness: over records with finite coordinates,
    [generateCoverageHeatmap] completes, and the intensity of every cell
    of its grid is a number between 0 and 1. *)
Theorem C5_intensity_bounded (st : RestroomMap.state)
  (data : FeatureCollection) :
  RestroomMap.allRestroomData st = Some data ->
  Forall HasFiniteCoordinates (features data) ->
  exists cells st',
    RestroomMap.generateCoverageHeatmap st
    = (Normal (Some {| RestroomMap.heatmapPoints := cells |}), st')
    /\ Forall (fun cell => UnitInterval (RestroomMap.intensity cell)) cells.
Proof.
  intros Hdata Hfinite.
  assert (Forall isArray (restroomCoordsOf data)) as Harr.
  { apply arrays_of_store. revert Hfinite. apply Forall_impl.
    exact finite_has_array. }
  rewrite (generateCoverageHeatmap_loaded _ Hdata).
  pose proof (gridLoops_normal RestroomMap.nycBounds RestroomMap.gridSize
                Harr) as Hloops.
  rewrite Hloops. eexists. eexists. split; [reflexivity |].
  exact (gridLoops_intensity_unit _ _ _ Hloops).
Qed.

(** C6. With a store of zero records [generateCoverageHeatmap] completes
    and returns the full grid of 100 * 100 cells, every one of intensity
    1. *)
Theorem C6_empty_store_saturated (st : RestroomMap.state) :
  RestroomMap.allRestroomData st = Some {| features := [] |} ->
  exists cells st',
    RestroomMap.generateCoverageHeatmap st
    = (Normal (Some {| RestroomMap.heatmapPoints := cells |}), st')
    /\ List.length cells = (100 * 100)%nat
    /\ Forall (fun cell => RestroomMap.intensity cell = Num 1) cells.
Proof.
  intros Hdata. rewrite (generateCoverageHeatmap_loaded _ Hdata).
  rewrite gridLoops_normal by constructor.
  eexists. eexists. split; [reflexivity |].
  split; [apply grid_length |].
  apply Forall_flat_map. apply Forall_forall. intros i _.
  apply Forall_map. apply Forall_forall. intros j _.
  apply intensityOf_Infinity.
Qed.

(** Scenario C of the specification: two records at the same place, the
    coordinates of one replaced by null. The scan reaches the null and
    [generateCoverageHeatmap] throws. *)
Lemma C2_counterexample :
  fst (RestroomMap.generateCoverageHeatmap
         (RestroomMap.loaded
            {| features := [Sample.centralPark; Sample.unlocated] |}))
  = Throw TypeError.
Proof.
  rewrite generateCoverageHeatmap_loaded
    with (data := {| features := [Sample.centralPark; Sample.unlocated] |})
    by reflexivity.
  rewrite gridLoops_throws; [reflexivity | | unfold RestroomMap.gridSize; lia].
  intros H. inversion H as [|? ? _ H']. inversion H' as [|? ? Hnull _].
  exact Hnull.
Qed.

(** C2, amended. Over records that all carry a coordinates array,
    [generateCoverageHeatmap] completes, and for every cell of the grid
    the scan ends on the minimum of the fast planar distance over the
    valid records alone (those whose longitude and latitude convert to
    finite numbers): a record with a NaN, infinite or absent component
    never enters the minimum, and the minimum is Infinity when no record
    is valid. *)
Theorem C2_scan_ignores_invalid (st : RestroomMap.state)
  (data : FeatureCollection) :
  RestroomMap.allRestroomData st = Some data ->
  Forall HasCoordinateArray (features data) ->
  exists cells st',
    RestroomMap.generateCoverageHeatmap st
    = (Normal (Some {| RestroomMap.heatmapPoints := cells |}), st')
    /\ forall i j,
         (i < RestroomMap.gridSize)%nat -> (j < RestroomMap.gridSize)%nat ->
         exists cell (lat lng : R) (minDistance : number),
           nth_error cells (i * RestroomMap.gridSize + j) = Some cell
           /\ RestroomMap.lat cell = Num lat
           /\ RestroomMap.lng cell = Num lng
           /\ RestroomMap.nearestDistance (Num lat) (Num lng)
                (restroomCoordsOf data) = Normal minDistance
           /\ MinimumOf (validDistances lat lng (restroomCoordsOf data))
                minDistance
           /\ RestroomMap.intensity cell
              = RestroomMap.intensityOf minDistance.
Proof.
  intros Hdata Harr. apply arrays_of_store in Harr.
  rewrite (generateCoverageHeatmap_loaded _ Hdata).
  rewrite gridLoops_normal by exact Harr.
  eexists. eexists. split; [reflexivity |].
  intros i j Hi Hj.
  assert (0 < RestroomMap.gridSize)%nat as Hpos by lia.
  pose proof (gridLat_finite 40.925 40.470 (- 73.680) (- 74.280) i Hpos)
    as Hlat.
  pose proof (gridLng_finite 40.925 40.470 (- 73.680) (- 74.280) j Hpos)
    as Hlng.
  fold RestroomMap.nycBounds in Hlat, Hlng.
  destruct (nearestDistance_minimum
              (40.470 + INR i * ((40.925 - 40.470) / INR RestroomMap.gridSize))
              (- 74.280
               + INR j * ((- 73.680 - - 74.280) / INR RestroomMap.gridSize))
              Harr) as (m & Hm & Hmin).
  exists (cellOf RestroomMap.nycBounds RestroomMap.gridSize
            (restroomCoordsOf data) i j).
  do 2 eexists. exists m.
  split; [now apply nth_error_grid |].
  unfold cellOf. cbn [RestroomMap.lat RestroomMap.lng RestroomMap.intensity].
  rewrite Hlat, Hlng, Hm. repeat split; assumption.
Qed.

Lemma C2_witness :
  exists cells st',
    RestroomMap.generateCoverageHeatmap
      (RestroomMap.loaded
         {| features := [Sample.centralPark; Sample.halfLocated] |})
    = (Normal (Some {| RestroomMap.heatmapPoints := cells |}), st')
    /\ forall i j,
         (i < RestroomMap.gridSize)%nat -> (j < RestroomMap.gridSize)%nat ->
         exists cell (lat lng : R) (minDistance : number),
           nth_error cells (i * RestroomMap.gridSize + j) = Some cell
           /\ RestroomMap.lat cell = Num lat
           /\ RestroomMap.lng cell = Num lng
           /\ RestroomMap.nearestDistance (Num lat) (Num lng)
                (restroomCoordsOf
                   {| features := [Sample.centralPark; Sample.halfLocated] |})
              = Normal minDistance
           /\ MinimumOf
                (validDistances lat lng
                   (restroomCoordsOf
                      {| features :=
                           [Sample.centralPark; Sample.halfLocated] |}))
                minDistance
           /\ RestroomMap.intensity cell
              = RestroomMap.intensityOf minDistance.
Proof.
  apply (@C2_scan_ignores_invalid
           (RestroomMap.loaded
              {| features := [Sample.centralPark; Sample.halfLocated] |})
           {| features := [Sample.centralPark; Sample.halfLocated] |}).
  - reflexivity.
  - repeat constructor.
Defined.

(** The record with a missing latitude is not among the valid
    distances: only Central Park counts. *)
Example halfLocated_is_ignored (lat lng : R) :
  validDistances lat lng
    (restroomCoordsOf
       {| features := [Sample.centralPark; Sample.halfLocated] |})
  = [planarDistance lat lng (- 73.97) 40.78].
Proof. reflexivity. Qed.

(** A null component converts to 0 and counts as a finite coordinate. *)
Example null_components_count_as_zero (lat lng : R) :
  validDistance lat lng (CoordsArray [Null; Null])
  = Some (planarDistance lat lng 0 0).
Proof. reflexivity. Qed.

(** Scenario D of the specification: a single restroom at the south-west
    corner; the scan at the corner ends on a smaller distance than the
    scan one degree north and east of it. *)
Example scenario_D :
  let restroomCoords := [CoordsArray [Number (Num 0); Number (Num 0)]] in
  RestroomMap.nearestDistance (Num 0) (Num 0) restroomCoords
  = Normal (Num (planarDistance 0 0 0 0))
  /\ RestroomMap.nearestDistance (Num 1) (Num 1) restroomCoords
     = Normal (Num (planarDistance 1 1 0 0))
  /\ (planarDistance 0 0 0 0 < planarDistance 1 1 0 0)%R.
Proof.
  cbv zeta. unfold RestroomMap.nearestDistance.
  rewrite !scan_valid_only by (repeat constructor).
  split; [reflexivity |]. split; [reflexivity |].
  unfold planarDistance. apply sqrt_lt_1_alt. lra.
Qed.

Lemma C3_witness :
  exists cells,
    RestroomMap.gridLoops
      {| RestroomMap.north := Num 2; RestroomMap.south := Num 0;
         RestroomMap.east := Num 2; RestroomMap.west := Num 0 |}
      2 [CoordsArray [Number (Num 0); Number (Num 0)]]
    = Normal cells
    /\ List.length cells = (2 * 2)%nat
    /\ forall i j, (i < 2)%nat -> (j < 2)%nat ->
         exists cell,
           nth_error cells (i * 2 + j) = Some cell
           /\ RestroomMap.lat cell
              = add (Num 0)
                  (mul (of_nat i) (div (sub (Num 2) (Num 0)) (of_nat 2)))
           /\ RestroomMap.lng cell
              = add (Num 0)
                  (mul (of_nat j) (div (sub (Num 2) (Num 0)) (of_nat 2))).
Proof.
  apply (@C3_grid_layout
           {| RestroomMap.north := Num 2; RestroomMap.south := Num 0;
              RestroomMap.east := Num 2; RestroomMap.west := Num 0 |}
           2 [CoordsArray [Number (Num 0); Number (Num 0)]]).
  repeat constructor.
Defined.

Lemma C5_witness :
  exists cells st',
    RestroomMap.generateCoverageHeatmap
      (RestroomMap.loaded Sample.twoRecords)
    = (Normal (Some {| RestroomMap.heatmapPoints := cells |}), st')
    /\ Forall (fun cell => UnitInterval (RestroomMap.intensity cell)) cells.
Proof.
  apply (@C5_intensity_bounded (RestroomMap.loaded Sample.twoRecords)
           Sample.twoRecords).
  - reflexivity.
  - repeat constructor; eexists; eexists; eexists; reflexivity.
Defined.

Lemma C6_witness :
  exists cells st',
    RestroomMap.generateCoverageHeatmap
      (RestroomMap.loaded {| features := [] |})
    = (Normal (Some {| RestroomMap.heatmapPoints := cells |}), st')
    /\ List.length cells = (100 * 100)%nat
    /\ Forall (fun cell => RestroomMap.intensity cell = Num 1) cells.
Proof.
  apply (@C6_empty_store_saturated (RestroomMap.loaded {| features := [] |})).
  reflexivity.
Defined.

(* ------------------------------------------------------------------ *)
(** * The grid and the query state *)
(* ------------------------------------------------------------------ *)

(** C8. [generateCoverageHeatmap] reads the store and nothing else of the
    state: two states with the same store, whatever their filters, their
    search text and the subset the map shows, give the same grid (or the
    same throw). *)
Theorem C8_grid_ignores_query (st1 st2 : RestroomMap.state) :
  RestroomMap.allRestroomData st1 = RestroomMap.allRestroomData st2 ->
  fst (RestroomMap.generateCoverageHeatmap st1)
  = fst (RestroomMap.generateCoverageHeatmap st2).
Proof.
  intros Hstore.
  destruct (RestroomMap.allRestroomData st2) as [data|] eqn:H2.
  - rewrite (generateCoverageHeatmap_loaded _ Hstore),
      (generateCoverageHeatmap_loaded _ H2).
    now destruct (RestroomMap.gridLoops _ _ _).
  - now rewrite (generateCoverageHeatmap_not_loaded _ Hstore),
      (generateCoverageHeatmap_not_loaded _ H2).
Qed.

Lemma C8_witness :
  fst (RestroomMap.generateCoverageHeatmap
         (RestroomMap.loaded Sample.twoRecords))
  = fst (RestroomMap.generateCoverageHeatmap
           (RestroomMap.dispatch (RestroomMap.loaded Sample.twoRecords)
              (RestroomMap.StatusChange "Operational"))).
Proof.
  apply (@C8_grid_ignores_query (RestroomMap.loaded Sample.twoRecords)
           (RestroomMap.dispatch (RestroomMap.loaded Sample.twoRecords)
              (RestroomMap.StatusChange "Operational"))).
  reflexivity.
Defined.

(** In that second state the map shows the filtered subset only. *)
Example filtered_subset_on_the_map :
  RestroomMap.restroomsSource
    (RestroomMap.dispatch (RestroomMap.loaded Sample.twoRecords)
       (RestroomMap.StatusChange "Operational"))
  = Some {| features := [Sample.centralPark] |}.
Proof. reflexivity. Qed.

(* ------------------------------------------------------------------ *)
(** * Cache of the coverage grid *)
(* ------------------------------------------------------------------ *)

(** Unfolds a handler down to the fields of the state. *)
Ltac handler_fields :=
  cbv beta iota zeta delta
    [RestroomMap.toggleHeatmap RestroomMap.generateCallback
     RestroomMap.addHeatmapLayer RestroomMap.removeHeatmapLayer
     RestroomMap.applyFilters RestroomMap.changeFilters
     RestroomMap.resetAllFilters
     RestroomMap.bind RestroomMap.gets RestroomMap.log RestroomMap.modify
     RestroomMap.lift RestroomMap.ret RestroomMap.logged
     RestroomMap.computations
     RestroomMap.set_console RestroomMap.set_timers
     RestroomMap.set_legendHidden RestroomMap.set_buttonDisabled
     RestroomMap.set_buttonText RestroomMap.set_heatmap
     RestroomMap.set_restroomsSource RestroomMap.set_heatmapData
     RestroomMap.set_isHeatmapVisible RestroomMap.set_currentFilters
     RestroomMap.allRestroomData RestroomMap.currentFilters
     RestroomMap.isHeatmapVisible RestroomMap.heatmapData
     RestroomMap.restroomsSource RestroomMap.heatmapSource
     RestroomMap.heatmapLayer RestroomMap.buttonText
     RestroomMap.buttonDisabled RestroomMap.legendHidden
     RestroomMap.timers RestroomMap.console negb fst snd].

(** The filter listeners leave the heat map alone. *)
Lemma changeFilters_frame (update : Filters.t -> Filters.t)
  (st : RestroomMap.state) :
  let st' := snd (RestroomMap.changeFilters update st) in
  RestroomMap.allRestroomData st' = RestroomMap.allRestroomData st
  /\ RestroomMap.heatmapData st' = RestroomMap.heatmapData st
  /\ RestroomMap.timers st' = RestroomMap.timers st
  /\ RestroomMap.buttonDisabled st' = RestroomMap.buttonDisabled st
  /\ RestroomMap.console st' = RestroomMap.console st.
Proof.
  destruct st as [store filters visible cache source hsource hlayer text
                    disabled hidden pending out].
  handler_fields. destruct store as [data|]; [| now repeat split].
  destruct source; now repeat split.
Qed.

Lemma toggleHeatmap_fields (st : RestroomMap.state) :
  let st' := snd (RestroomMap.toggleHeatmap st) in
  RestroomMap.allRestroomData st' = RestroomMap.allRestroomData st
  /\ RestroomMap.heatmapData st' = RestroomMap.heatmapData st
  /\ RestroomMap.computations st' = RestroomMap.computations st
  /\ (RestroomMap.isHeatmapVisible st = false ->
      RestroomMap.heatmapData st = None ->
      RestroomMap.timers st' = S (RestroomMap.timers st)
      /\ RestroomMap.buttonDisabled st' = true
      /\ RestroomMap.isHeatmapVisible st' = false)
  /\ (RestroomMap.isHeatmapVisible st = true
      \/ RestroomMap.heatmapData st <> None ->
      RestroomMap.timers st' = RestroomMap.timers st
      /\ RestroomMap.buttonDisabled st' = RestroomMap.buttonDisabled st).
Proof.
  destruct st as [store filters visible cache source hsource hlayer text
                    disabled hidden pending out].
  handler_fields.
  destruct visible, cache as [grid|]; handler_fields;
    rewrite ?filter_app, ?length_app; cbn [filter RestroomMap.isComputation
      List.length]; repeat split; try reflexivity; try lia;
    intuition (try discriminate; try congruence).
Qed.

(** The callback of the timer, by what the store holds and how the loops
    end. *)
Lemma generateCallback_fields (st : RestroomMap.state) :
  let st' := snd (RestroomMap.generateCallback st) in
  RestroomMap.allRestroomData st' = RestroomMap.allRestroomData st
  /\ RestroomMap.timers st' = RestroomMap.timers st
  /\ match RestroomMap.allRestroomData st with
     | None =>
         RestroomMap.heatmapData st' = None
         /\ RestroomMap.buttonDisabled st' = false
         /\ RestroomMap.computations st' = RestroomMap.computations st
     | Some data =>
         match RestroomMap.gridLoops RestroomMap.nycBounds
                 RestroomMap.gridSize (restroomCoordsOf data) with
         | Normal cells =>
             RestroomMap.heatmapData st'
             = Some {| RestroomMap.heatmapPoints := cells |}
             /\ RestroomMap.buttonDisabled st' = false
             /\ RestroomMap.computations st'
                = S (RestroomMap.computations st)
         | Throw _ =>
             RestroomMap.heatmapData st' = RestroomMap.heatmapData st
             /\ RestroomMap.buttonDisabled st'
                = RestroomMap.buttonDisabled st
             /\ RestroomMap.computations st'
                = S (RestroomMap.computations st)
         end
     end.
Proof.
  destruct st as [store filters visible cache source hsource hlayer text
                    disabled hidden pending out].
  cbv beta iota zeta delta [RestroomMap.generateCallback RestroomMap.bind
    RestroomMap.log RestroomMap.modify].
  destruct store as [data|]; cbn [RestroomMap.allRestroomData].
  - rewrite generateCoverageHeatmap_loaded with (data := data)
      by reflexivity.
    destruct (RestroomMap.gridLoops _ _ _) as [cells|e]; handler_fields;
      rewrite ?filter_app, ?length_app;
      cbn [filter RestroomMap.isComputation List.length];
      repeat split; lia.
  - rewrite generateCoverageHeatmap_not_loaded by reflexivity.
    handler_fields. rewrite ?filter_app, ?length_app;
      cbn [filter RestroomMap.isComputation List.length].
    repeat split; lia.
Qed.

Lemma resetAllFilters_changeFilters (st : RestroomMap.state) :
  RestroomMap.resetAllFilters st
  = RestroomMap.changeFilters (fun _ => Filters.initial) st.
Proof. reflexivity. Qed.

(** Every filter listener is a [changeFilters] and leaves the heat map
    as it is. *)
Ltac filter_event st :=
  rewrite ?resetAllFilters_changeFilters;
  match goal with
  | |- context [RestroomMap.changeFilters ?update st] =>
      destruct (changeFilters_frame update st)
        as (Hstore' & Hcache' & Htimers' & Hdisabled' & Hconsole')
  end.

Lemma dispatch_store (st : RestroomMap.state) (e : RestroomMap.Event) :
  RestroomMap.allRestroomData (RestroomMap.dispatch st e)
  = RestroomMap.allRestroomData st.
Proof.
  destruct e; cbn [RestroomMap.dispatch];
    try (filter_event st; exact Hstore').
  - destruct (RestroomMap.buttonDisabled st); [reflexivity |].
    apply toggleHeatmap_fields.
  - destruct (RestroomMap.timers st) as [|pending]; [reflexivity |].
    now destruct (generateCallback_fields (RestroomMap.set_timers pending st))
      as (-> & _).
Qed.

Lemma dispatch_invariant (st : RestroomMap.state) (e : RestroomMap.Event) :
  CacheInvariant st -> CacheInvariant (RestroomMap.dispatch st e).
Proof.
  intros Hinv.
  destruct e; cbn [RestroomMap.dispatch];
    try (filter_event st; unfold CacheInvariant, RestroomMap.computations in *;
         rewrite Hcache', Htimers', Hdisabled', Hconsole'; exact Hinv).
  - (* the toggle button *)
    destruct (RestroomMap.buttonDisabled st) eqn:Hdisabled; [exact Hinv |].
    destruct (toggleHeatmap_fields st) as (_ & Hcache & Hcount & Hnew & Hold).
    unfold CacheInvariant in *. rewrite Hcache, Hcount.
    destruct (RestroomMap.heatmapData st) as [grid|] eqn:Hdata.
    + destruct Hold as [-> _]; [right; discriminate | exact Hinv].
    + destruct Hinv as [(Ht & _ & Hc)|[(_ & Hd & _)|(_ & Hd & _)]];
        try congruence.
      destruct (RestroomMap.isHeatmapVisible st) eqn:Hvisible.
      * destruct Hold as [-> ->]; [now left |]. left. now repeat split.
      * destruct (Hnew eq_refl eq_refl) as (-> & -> & _).
        right. left. rewrite Ht. now repeat split.
  - (* the timer *)
    destruct (RestroomMap.timers st) as [|pending] eqn:Htimers;
      [exact Hinv |].
    pose proof (generateCallback_fields (RestroomMap.set_timers pending st))
      as (_ & Ht & Hcases).
    cbn [RestroomMap.set_timers RestroomMap.allRestroomData
           RestroomMap.timers RestroomMap.heatmapData
           RestroomMap.buttonDisabled] in Ht, Hcases.
    change (RestroomMap.computations (RestroomMap.set_timers pending st))
      with (RestroomMap.computations st) in Hcases.
    unfold CacheInvariant in *.
    destruct (RestroomMap.heatmapData st) as [grid|] eqn:Hdata;
      [destruct Hinv; congruence |].
    destruct Hinv as [(Ht0 & _)|[(Ht1 & Hd & Hc)|(Ht0 & _)]];
      try congruence.
    assert (pending = 0) as -> by congruence.
    destruct (RestroomMap.allRestroomData st) as [data|].
    + destruct (RestroomMap.gridLoops _ _ _) as [cells|err];
        destruct Hcases as (-> & Hd' & Hc').
      * split; [exact Ht | congruence].
      * right. right. repeat split; congruence.
    + destruct Hcases as (-> & Hd' & Hc').
      left. repeat split; congruence.
Qed.

(** Once a grid is cached no listener and no timer replaces it or runs
    the computation again. *)
Lemma dispatch_keeps_cache (st : RestroomMap.state) (e : RestroomMap.Event)
  (grid : RestroomMap.HeatmapCollection) :
  CacheInvariant st ->
  RestroomMap.heatmapData st = Some grid ->
  RestroomMap.heatmapData (RestroomMap.dispatch st e) = Some grid
  /\ RestroomMap.computations (RestroomMap.dispatch st e)
     = RestroomMap.computations st.
Proof.
  intros Hinv Hdata. unfold CacheInvariant in Hinv. rewrite Hdata in Hinv.
  destruct Hinv as [Htimers _].
  destruct e; cbn [RestroomMap.dispatch];
    try (filter_event st; unfold RestroomMap.computations;
         rewrite Hcache', Hconsole'; now split).
  - destruct (RestroomMap.buttonDisabled st); [now split |].
    destruct (toggleHeatmap_fields st) as (_ & -> & -> & _). now split.
  - rewrite Htimers. now split.
Qed.

Lemma run_cons (e : RestroomMap.Event) (events : list RestroomMap.Event)
  (st : RestroomMap.state) :
  RestroomMap.run (e :: events) st
  = RestroomMap.run events (RestroomMap.dispatch st e).
Proof. reflexivity. Qed.

Lemma run_app (events more : list RestroomMap.Event)
  (st : RestroomMap.state) :
  RestroomMap.run (events ++ more) st
  = RestroomMap.run more (RestroomMap.run events st).
Proof. apply fold_left_app. Qed.

Lemma run_invariant (events : list RestroomMap.Event)
  (st : RestroomMap.state) :
  CacheInvariant st -> CacheInvariant (RestroomMap.run events st).
Proof.
  revert st. induction events as [|e events IH]; intros st Hinv;
    [exact Hinv |].
  rewrite run_cons. apply IH. now apply dispatch_invariant.
Qed.

Lemma run_keeps_cache (events : list RestroomMap.Event)
  (st : RestroomMap.state) (grid : RestroomMap.HeatmapCollection) :
  CacheInvariant st ->
  RestroomMap.heatmapData st = Some grid ->
  RestroomMap.heatmapData (RestroomMap.run events st) = Some grid
  /\ RestroomMap.computations (RestroomMap.run events st)
     = RestroomMap.computations st.
Proof.
  revert st. induction events as [|e events IH]; intros st Hinv Hdata;
    [now split |].
  rewrite run_cons.
  destruct (@dispatch_keeps_cache st e grid Hinv Hdata) as [Hdata' Hcount].
  destruct (IH _ (@dispatch_invariant st e Hinv) Hdata') as [-> ->].
  now split.
Qed.

Lemma Fresh_invariant (st : RestroomMap.state) :
  Fresh st -> CacheInvariant st.
Proof.
  intros (Hdata & _ & Hdisabled & Htimers & Hcount).
  unfold CacheInvariant. rewrite Hdata. left. now repeat split.
Qed.

Lemma invariant_at_most_once (st : RestroomMap.state) :
  CacheInvariant st -> RestroomMap.computations st <= 1.
Proof.
  unfold CacheInvariant.
  destruct (RestroomMap.heatmapData st); intuition lia.
Qed.

(** The first click on the toggle and the timer it sets: the grid of the
    store is computed and cached. *)
Lemma first_toggle_caches (st : RestroomMap.state) (data : FeatureCollection)
  (cells : list RestroomMap.HeatmapPoint) :
  Fresh st ->
  RestroomMap.allRestroomData st = Some data ->
  RestroomMap.gridLoops RestroomMap.nycBounds RestroomMap.gridSize
    (restroomCoordsOf data) = Normal cells ->
  let st' :=
    RestroomMap.run [RestroomMap.ToggleHeatmapClick; RestroomMap.TimerFires]
      st in
  RestroomMap.heatmapData st' = Some {| RestroomMap.heatmapPoints := cells |}
  /\ RestroomMap.computations st' = 1.
Proof.
  intros (Hdata & Hvisible & Hdisabled & Htimers & Hcount) Hstore Hloops.
  cbn [RestroomMap.run fold_left RestroomMap.dispatch]. rewrite Hdisabled.
  destruct (toggleHeatmap_fields st) as (Hstore1 & _ & Hcount1 & Hnew & _).
  destruct (Hnew Hvisible Hdata) as (Htimers1 & _).
  rewrite Htimers1, Htimers.
  pose proof (generateCallback_fields
                (RestroomMap.set_timers 0
                   (snd (RestroomMap.toggleHeatmap st))))
    as (_ & _ & Hcases).
  cbn [RestroomMap.set_timers RestroomMap.allRestroomData] in Hcases.
  change (RestroomMap.computations
            (RestroomMap.set_timers 0 (snd (RestroomMap.toggleHeatmap st))))
    with (RestroomMap.computations (snd (RestroomMap.toggleHeatmap st)))
    in Hcases.
  rewrite Hstore1, Hstore, Hloops in Hcases.
  destruct Hcases as (-> & _ & ->). split; [reflexivity | lia].
Qed.

(** The callback of the timer on a store whose loops throw: the console
    alone has changed. *)
Lemma generateCallback_throws (st : RestroomMap.state)
  (data : FeatureCollection) (e : Error) :
  RestroomMap.allRestroomData st = Some data ->
  RestroomMap.gridLoops RestroomMap.nycBounds RestroomMap.gridSize
    (restroomCoordsOf data) = Throw e ->
  snd (RestroomMap.generateCallback st)
  = RestroomMap.logged
      [RestroomMap.LogGenerating; RestroomMap.LogGeneratingModerate;
       RestroomMap.LogProcessingGrid RestroomMap.gridSize
         (RestroomMap.gridSize * RestroomMap.gridSize)] st.
Proof.
  intros Hdata Hloops.
  cbv beta iota zeta delta [RestroomMap.generateCallback RestroomMap.bind
    RestroomMap.log RestroomMap.modify].
  rewrite generateCoverageHeatmap_loaded with (data := data)
    by (destruct st; exact Hdata).
  rewrite Hloops. cbn [snd]. apply logged_logged.
Qed.

(** The callback of the timer on a store whose loops complete: the grid
    is cached and shown, and the button is enabled again. *)
Lemma generateCallback_caches (st : RestroomMap.state)
  (data : FeatureCollection) (cells : list RestroomMap.HeatmapPoint) :
  RestroomMap.allRestroomData st = Some data ->
  RestroomMap.gridLoops RestroomMap.nycBounds RestroomMap.gridSize
    (restroomCoordsOf data) = Normal cells ->
  snd (RestroomMap.generateCallback st)
  = {| RestroomMap.allRestroomData := RestroomMap.allRestroomData st;
       RestroomMap.currentFilters := RestroomMap.currentFilters st;
       RestroomMap.isHeatmapVisible := true;
       RestroomMap.heatmapData :=
         Some {| RestroomMap.heatmapPoints := cells |};
       RestroomMap.restroomsSource := RestroomMap.restroomsSource st;
       RestroomMap.heatmapSource := Some (map heatFeatureOf cells);
       RestroomMap.heatmapLayer := true;
       RestroomMap.buttonText := "Hide Danger Zone Analysis";
       RestroomMap.buttonDisabled := false;
       RestroomMap.legendHidden := false;
       RestroomMap.timers := RestroomMap.timers st;
       RestroomMap.console :=
         RestroomMap.console st
         ++ [RestroomMap.LogGenerating; RestroomMap.LogGeneratingModerate;
             RestroomMap.LogProcessingGrid RestroomMap.gridSize
               (RestroomMap.gridSize * RestroomMap.gridSize);
             RestroomMap.LogGeneratedPoints (List.length cells);
             RestroomMap.LogCompleted;
             RestroomMap.LogHeatmapData
               (Some {| RestroomMap.heatmapPoints := cells |});
             RestroomMap.LogAddingLayer;
             RestroomMap.LogPointsCount (List.length cells);
             RestroomMap.LogCreatedGeoJSON
               (List.length (map heatFeatureOf cells));
             RestroomMap.LogLayerAdded; RestroomMap.LogLayerVisible] |}.
Proof.
  intros Hdata Hloops.
  cbv beta iota zeta delta [RestroomMap.generateCallback RestroomMap.bind
    RestroomMap.log RestroomMap.modify].
  rewrite generateCoverageHeatmap_loaded with (data := data)
    by (destruct st; exact Hdata).
  rewrite Hloops. destruct st. handler_fields.
  rewrite <- !app_assoc. reflexivity.
Qed.

(** What the first click and its timer leave on the map. *)
Lemma first_toggle_shows (st : RestroomMap.state) (data : FeatureCollection)
  (cells : list RestroomMap.HeatmapPoint) :
  Fresh st ->
  RestroomMap.allRestroomData st = Some data ->
  RestroomMap.gridLoops RestroomMap.nycBounds RestroomMap.gridSize
    (restroomCoordsOf data) = Normal cells ->
  let st' :=
    RestroomMap.run [RestroomMap.ToggleHeatmapClick; RestroomMap.TimerFires]
      st in
  RestroomMap.isHeatmapVisible st' = true
  /\ RestroomMap.heatmapSource st' = Some (map heatFeatureOf cells)
  /\ RestroomMap.heatmapLayer st' = true.
Proof.
  intros (Hdata & Hvisible & Hdisabled & Htimers & Hcount) Hstore Hloops.
  cbn [RestroomMap.run fold_left RestroomMap.dispatch]. rewrite Hdisabled.
  destruct (toggleHeatmap_fields st) as (Hstore1 & _ & _ & Hnew & _).
  destruct (Hnew Hvisible Hdata) as (Htimers1 & _).
  rewrite Htimers1, Htimers.
  rewrite generateCallback_caches with (data := data) (cells := cells);
    [now repeat split | | exact Hloops].
  cbn [RestroomMap.set_timers RestroomMap.allRestroomData].
  now rewrite Hstore1.
Qed.

(** A click on the toggle while a grid is cached: the flag flips, and
    the heat layer and its source leave the map or come back from the
    cache. *)
Lemma toggle_shows_or_hides (st : RestroomMap.state)
  (grid : RestroomMap.HeatmapCollection) :
  RestroomMap.heatmapData st = Some grid ->
  let st' := snd (RestroomMap.toggleHeatmap st) in
  RestroomMap.isHeatmapVisible st' = negb (RestroomMap.isHeatmapVisible st)
  /\ if RestroomMap.isHeatmapVisible st
     then RestroomMap.heatmapSource st' = None
          /\ RestroomMap.heatmapLayer st' = false
     else RestroomMap.heatmapSource st'
          = Some (map heatFeatureOf (RestroomMap.heatmapPoints grid))
          /\ RestroomMap.heatmapLayer st' = true.
Proof.
  destruct st as [store filters visible cache source hsource hlayer text
                    disabled hidden pending out].
  cbn [RestroomMap.heatmapData RestroomMap.isHeatmapVisible]. intros ->.
  destruct visible; handler_fields; now repeat split.
Qed.

(** While a grid is cached the toggle button is enabled. *)
Lemma dispatch_button (st : RestroomMap.state) (e : RestroomMap.Event) :
  CacheInvariant st ->
  (RestroomMap.heatmapData st <> None ->
   RestroomMap.buttonDisabled st = false) ->
  RestroomMap.heatmapData (RestroomMap.dispatch st e) <> None ->
  RestroomMap.buttonDisabled (RestroomMap.dispatch st e) = false.
Proof.
  intros Hinv Hfree.
  destruct e; cbn [RestroomMap.dispatch];
    try (filter_event st; rewrite Hcache', Hdisabled'; exact Hfree).
  - destruct (RestroomMap.buttonDisabled st) eqn:Hdisabled;
      [rewrite Hdisabled; exact Hfree |].
    destruct (toggleHeatmap_fields st) as (_ & Hcache & _ & _ & Hold).
    rewrite Hcache. intros Hsome.
    destruct Hold as [_ ->]; [now right | exact Hdisabled].
  - destruct (RestroomMap.timers st) as [|pending] eqn:Htimers;
      [exact Hfree |].
    pose proof (generateCallback_fields (RestroomMap.set_timers pending st))
      as (_ & _ & Hcases).
    cbn [RestroomMap.set_timers RestroomMap.allRestroomData
           RestroomMap.heatmapData RestroomMap.buttonDisabled] in Hcases.
    unfold CacheInvariant in Hinv.
    destruct (RestroomMap.heatmapData st) as [grid|] eqn:Hdata;
      [destruct Hinv; congruence |].
    destruct (RestroomMap.allRestroomData st) as [data|].
    + destruct (RestroomMap.gridLoops _ _ _) as [cells|err];
        destruct Hcases as (Hcache & Hd' & _); intros Hsome.
      * exact Hd'.
      * congruence.
    + destruct Hcases as (_ & Hd' & _). intros _. exact Hd'.
Qed.

Lemma run_button (events : list RestroomMap.Event) (st : RestroomMap.state) :
  CacheInvariant st ->
  (RestroomMap.heatmapData st <> None ->
   RestroomMap.buttonDisabled st = false) ->
  RestroomMap.heatmapData (RestroomMap.run events st) <> None ->
  RestroomMap.buttonDisabled (RestroomMap.run events st) = false.
Proof.
  revert st. induction events as [|e events IH]; intros st Hinv Hfree;
    [exact Hfree |].
  rewrite run_cons. apply IH.
  - now apply dispatch_invariant.
  - now apply dispatch_button.
Qed.

(** C9, amended. On a page where [initializeMap] has run once, from a
    state in which the heat map was never requested and along every
    sequence of events: the computation of the grid runs at most once;
    when every record of the store carries a coordinates array, the first
    click on the toggle, with the timer it sets, computes the grid of the
    store, caches it and shows it; and once a grid is cached, every later
    event (a click on the toggle, a filter change, a timer) leaves the
    cached grid as it is and runs no computation: a click on the toggle
    only flips the display, taking the heat layer and its source off the
    map when they are shown and putting them back from the cache when
    they are not. *)
Theorem C9_grid_computed_once (st0 : RestroomMap.state)
  (events more : list RestroomMap.Event) :
  Fresh st0 ->
  RestroomMap.computations (RestroomMap.run events st0) <= 1
  /\ (forall data,
        RestroomMap.allRestroomData st0 = Some data ->
        Forall HasCoordinateArray (features data) ->
        exists cells,
          let st1 :=
            RestroomMap.run
              [RestroomMap.ToggleHeatmapClick; RestroomMap.TimerFires] st0 in
          RestroomMap.gridLoops RestroomMap.nycBounds RestroomMap.gridSize
            (restroomCoordsOf data) = Normal cells
          /\ RestroomMap.heatmapData st1
             = Some {| RestroomMap.heatmapPoints := cells |}
          /\ RestroomMap.computations st1 = 1
          /\ RestroomMap.isHeatmapVisible st1 = true
          /\ RestroomMap.heatmapSource st1 = Some (map heatFeatureOf cells)
          /\ RestroomMap.heatmapLayer st1 = true)
  /\ (forall grid,
        RestroomMap.heatmapData (RestroomMap.run events st0) = Some grid ->
        let st := RestroomMap.run (events ++ more) st0 in
        let st' := RestroomMap.dispatch st RestroomMap.ToggleHeatmapClick in
        RestroomMap.heatmapData st = Some grid
        /\ RestroomMap.computations st
           = RestroomMap.computations (RestroomMap.run events st0)
        /\ RestroomMap.heatmapData st' = Some grid
        /\ RestroomMap.computations st' = RestroomMap.computations st
        /\ RestroomMap.isHeatmapVisible st'
           = negb (RestroomMap.isHeatmapVisible st)
        /\ if RestroomMap.isHeatmapVisible st
           then RestroomMap.heatmapSource st' = None
                /\ RestroomMap.heatmapLayer st' = false
           else RestroomMap.heatmapSource st'
                = Some (map heatFeatureOf (RestroomMap.heatmapPoints grid))
                /\ RestroomMap.heatmapLayer st' = true).
Proof.
  intros Hfresh.
  pose proof (@Fresh_invariant st0 Hfresh) as Hinv0.
  pose proof (@run_invariant events st0 Hinv0) as Hinv.
  split; [now apply invariant_at_most_once |]. split.
  - intros data Hstore Harr.
    pose proof (gridLoops_normal RestroomMap.nycBounds RestroomMap.gridSize
                  (@arrays_of_store data Harr)) as Hloops.
    eexists. cbv zeta. split; [exact Hloops |].
    destruct (@first_toggle_caches st0 data _ Hfresh Hstore Hloops)
      as (Hcache & Hcount).
    destruct (@first_toggle_shows st0 data _ Hfresh Hstore Hloops)
      as (Hvisible & Hsource & Hlayer).
    now repeat split.
  - intros grid Hdata. cbv zeta.
    pose proof (@run_invariant (events ++ more) st0 Hinv0) as Hinv'.
    assert (RestroomMap.heatmapData (RestroomMap.run (events ++ more) st0)
            = Some grid
            /\ RestroomMap.computations
                 (RestroomMap.run (events ++ more) st0)
               = RestroomMap.computations (RestroomMap.run events st0))
      as (Hkept & Hcount).
    { rewrite run_app. now apply run_keeps_cache. }
    assert (RestroomMap.buttonDisabled (RestroomMap.run (events ++ more) st0)
            = false) as Henabled.
    { apply run_button; [exact Hinv0 | | congruence].
      intros _. apply Hfresh. }
    destruct (@dispatch_keeps_cache _ RestroomMap.ToggleHeatmapClick grid
                Hinv' Hkept) as (Hkept' & Hcount').
    split; [exact Hkept |]. split; [exact Hcount |].
    split; [exact Hkept' |]. split; [exact Hcount' |].
    cbn [RestroomMap.dispatch]. rewrite Henabled.
    now apply toggle_shows_or_hides.
Qed.

Lemma C9_witness :
  let st0 := RestroomMap.loaded Sample.twoRecords in
  let events := [RestroomMap.ToggleHeatmapClick; RestroomMap.TimerFires] in
  let more := [RestroomMap.ToggleHeatmapClick; RestroomMap.SearchInput "Park";
               RestroomMap.ToggleHeatmapClick; RestroomMap.TimerFires;
               RestroomMap.ToggleHeatmapClick] in
  let st := RestroomMap.run (events ++ more) st0 in
  let st' := RestroomMap.dispatch st RestroomMap.ToggleHeatmapClick in
  RestroomMap.computations (RestroomMap.run events st0) <= 1
  /\ exists grid,
       RestroomMap.heatmapData (RestroomMap.run events st0) = Some grid
       /\ RestroomMap.computations (RestroomMap.run events st0) = 1
       /\ RestroomMap.heatmapSource (RestroomMap.run events st0)
          = Some (map heatFeatureOf (RestroomMap.heatmapPoints grid))
       /\ RestroomMap.heatmapData st = Some grid
       /\ RestroomMap.computations st
          = RestroomMap.computations (RestroomMap.run events st0)
       /\ RestroomMap.heatmapData st' = Some grid
       /\ RestroomMap.computations st' = RestroomMap.computations st
       /\ RestroomMap.isHeatmapVisible st'
          = negb (RestroomMap.isHeatmapVisible st)
       /\ if RestroomMap.isHeatmapVisible st
          then RestroomMap.heatmapSource st' = None
               /\ RestroomMap.heatmapLayer st' = false
          else RestroomMap.heatmapSource st'
               = Some (map heatFeatureOf (RestroomMap.heatmapPoints grid))
               /\ RestroomMap.heatmapLayer st' = true.
Proof.
  intros st0 events more st st'.
  assert (Fresh st0) as Hfresh by (repeat split; reflexivity).
  destruct (@C9_grid_computed_once st0 events more Hfresh)
    as (Honce & Hfirst & Hkept).
  destruct (Hfirst Sample.twoRecords eq_refl)
    as (cells & _ & Hcache & Hcount & _ & Hsource & _).
  { repeat constructor. }
  split; [exact Honce |].
  exists {| RestroomMap.heatmapPoints := cells |}.
  split; [exact Hcache |]. split; [exact Hcount |].
  split; [exact Hsource |].
  apply Hkept. exact Hcache.
Defined.

(** Unfolds the listeners of the page down to the fields of the page and
    of its runs; the token listeners and the callback of a timer are
    left as they are. *)
Ltac page_fields term :=
  eval cbv beta iota zeta delta
    [Page.dispatch Page.deliver Page.listener Page.reaches Page.update
     Page.set_runs Page.set_attached Page.set_token
     Page.set_submitListeners Page.set_resetTokenListeners
     Page.addTokenControls Page.submitListener Page.changeTokenListener
     Page.withDom Page.domOf
     Page.controls Page.token Page.submitListeners
     Page.resetTokenListeners Page.dom Page.runs Page.attached
     Page.toggleText Page.toggleDisabled Page.legendIsHidden Page.output
     Token.localStorage Token.tokenSectionHidden Token.mapSectionHidden
     Token.mapboxToken Token.alerts Token.initialized Token.typeToken
     RestroomMap.dispatch RestroomMap.loaded
     RestroomMap.toggleHeatmap RestroomMap.addHeatmapLayer
     RestroomMap.removeHeatmapLayer
     RestroomMap.bind RestroomMap.gets RestroomMap.log RestroomMap.modify
     RestroomMap.lift RestroomMap.ret RestroomMap.logged
     RestroomMap.set_console RestroomMap.set_timers
     RestroomMap.set_legendHidden RestroomMap.set_buttonDisabled
     RestroomMap.set_buttonText RestroomMap.set_heatmap
     RestroomMap.set_heatmapData RestroomMap.set_isHeatmapVisible
     RestroomMap.allRestroomData RestroomMap.currentFilters
     RestroomMap.isHeatmapVisible RestroomMap.heatmapData
     RestroomMap.restroomsSource RestroomMap.heatmapSource
     RestroomMap.heatmapLayer RestroomMap.buttonText
     RestroomMap.buttonDisabled RestroomMap.legendHidden
     RestroomMap.timers RestroomMap.console RestroomMap.heatmapPoints
     nth_error firstn skipn app repeat Nat.iter nat_rect List.length
     Nat.sub andb negb]
    in term.

(** Evaluates the calls of the token functions in a term. *)
Ltac token_values term :=
  lazymatch term with
  | context C [Token.getItem ?k ?storage] =>
      let v := eval cbv in (Token.getItem k storage) in
      let term' := context C [v] in token_values term'
  | context C [Token.removeItem ?k ?storage] =>
      let v := eval cbv in (Token.removeItem k storage) in
      let term' := context C [v] in token_values term'
  | context C [Token.submitToken ?p] =>
      let v := eval cbv in (Token.submitToken p) in
      let term' := context C [v] in token_values term'
  | context C [String.eqb ?a ?b] =>
      let v := eval cbv in (String.eqb a b) in
      let term' := context C [v] in token_values term'
  | _ => term
  end.

(** The fields of a run, once the callback of its timer has been
    rewritten to the state it leaves. *)
Ltac run_fields :=
  cbv beta iota zeta delta
    [RestroomMap.allRestroomData RestroomMap.currentFilters
     RestroomMap.isHeatmapVisible RestroomMap.heatmapData
     RestroomMap.restroomsSource RestroomMap.heatmapSource
     RestroomMap.heatmapLayer RestroomMap.buttonText
     RestroomMap.buttonDisabled RestroomMap.legendHidden
     RestroomMap.timers RestroomMap.console app].

(** Evaluates the innermost pending event of the page. *)
Ltac page_event :=
  match goal with
  | |- context [Page.dispatch (Page.Build_state ?c ?t ?n ?m ?d ?rs ?a) ?e] =>
      let s := constr:(Page.Build_state c t n m d rs a) in
      let r := page_fields (Page.dispatch s e) in
      let r := eval cbn [fst snd] in r in
      let r := page_fields r in
      let r := token_values r in
      let r := page_fields r in
      let r := token_values r in
      let r := page_fields r in
      change (Page.dispatch s e) with r
  end.

(** The claim as stated fails twice. In one process, started with a
    stored token: the data loads, the heat map is requested and computed;
    the user changes the token and submits another; [initializeMap] runs
    again, with a cache of its own that is empty; the data loads, the
    heat map is requested, and the grid is computed a second time. And
    on a store with a record whose coordinates are null, the first
    click on the toggle and its timer cache nothing. *)
Lemma C9_counterexample :
  let storage := [("mapbox_access_token", "pk.first")] in
  let data := Sample.twoRecords in
  let s :=
    Page.run
      [Page.MapLoaded 0; Page.DataArrived 0 data;
       Page.Control RestroomMap.ToggleHeatmapClick; Page.TimerFired 0;
       Page.ChangeTokenClick true; Page.TypeToken "pk.second";
       Page.SubmitClick;
       Page.MapLoaded 1; Page.DataArrived 1 data;
       Page.Control RestroomMap.ToggleHeatmapClick; Page.TimerFired 1]
      (Page.restroomMapApp true storage) in
  (Token.initialized (Page.token s) = ["pk.second"; "pk.first"]
   /\ Page.computations s = 2)
  /\ RestroomMap.heatmapData
       (RestroomMap.run
          [RestroomMap.ToggleHeatmapClick; RestroomMap.TimerFires]
          (RestroomMap.loaded
             {| features := [Sample.centralPark; Sample.unlocated] |}))
     = None.
Proof.
  intros storage data s. split.
  - assert (Forall isArray (restroomCoordsOf data)) as Harr
      by (repeat constructor).
    pose proof (gridLoops_normal RestroomMap.nycBounds RestroomMap.gridSize
                  Harr) as Hloops.
    set (cells := flat_map _ _) in Hloops.
    unfold s, Page.run. cbn [fold_left].
    let r := eval cbv in (Page.restroomMapApp true storage) in
    change (Page.restroomMapApp true storage) with r.
    (* the first run: 'load', the data, the click, the timer *)
    do 4 page_event.
    rewrite generateCallback_caches with (data := data) (cells := cells);
      [| reflexivity | exact Hloops].
    run_fields.
    (* Change Token, the second token, the second run *)
    do 7 page_event.
    rewrite generateCallback_caches with (data := data) (cells := cells);
      [| reflexivity | exact Hloops].
    run_fields. split; reflexivity.
  - assert (RestroomMap.gridLoops RestroomMap.nycBounds RestroomMap.gridSize
              (restroomCoordsOf
                 {| features := [Sample.centralPark; Sample.unlocated] |})
            = Throw TypeError) as Hloops.
    { apply gridLoops_throws; [| unfold RestroomMap.gridSize; lia].
      intros H. inversion H as [|? ? _ H']. inversion H' as [|? ? Hnull _].
      exact Hnull. }
    cbn [RestroomMap.run fold_left RestroomMap.dispatch RestroomMap.loaded
           RestroomMap.buttonDisabled].
    match goal with
    | |- context [RestroomMap.timers ?st] =>
        change (RestroomMap.timers st) with 1%nat
    end.
    cbv iota.
    rewrite generateCallback_throws
      with (data := {| features := [Sample.centralPark; Sample.unlocated] |})
           (e := TypeError);
      [reflexivity | reflexivity | exact Hloops].
Qed.


Lemma withDom_domOf (st : RestroomMap.state) :
  Page.withDom (Page.domOf st) st = st.
Proof. now destruct st. Qed.

(** On a page with one run of [initializeMap], the events of the
    controls and the timer act on the run as [RestroomMap.dispatch]
    does. *)
Lemma one_run_dispatch (s : Page.state) (st : RestroomMap.state)
  (e : RestroomMap.Event) :
  Page.runs s = [Page.Listening st] ->
  Page.attached s = [0] ->
  exists st',
    Page.runs (Page.dispatch s (asPageEvent e)) = [Page.Listening st']
    /\ Page.attached (Page.dispatch s (asPageEvent e)) = [0]
    /\ Page.withDom (Page.dom (Page.dispatch s (asPageEvent e))) st'
       = RestroomMap.dispatch (Page.withDom (Page.dom s) st) e.
Proof.
  destruct s as [c t n m d rs order].
  cbn [Page.runs Page.attached Page.dom]. intros -> ->.
  destruct e;
    cbn [asPageEvent Page.dispatch Page.reaches Page.deliver Page.listener
           Page.runs Page.attached Page.dom nth_error Page.update firstn
           skipn app Page.set_runs RestroomMap.dispatch];
    try (eexists; split; [reflexivity |]; split; [reflexivity |];
         now rewrite withDom_domOf).
  change (RestroomMap.buttonDisabled (Page.withDom d st))
    with (Page.toggleDisabled d).
  destruct (Page.toggleDisabled d);
    cbn [negb Page.runs Page.attached Page.dom Page.deliver nth_error
           Page.update firstn skipn app Page.set_runs].
  - now exists st.
  - eexists. split; [reflexivity |]. split; [reflexivity |].
    now rewrite withDom_domOf.
Qed.

Lemma one_run_events (events : list RestroomMap.Event) :
  forall (s : Page.state) (st : RestroomMap.state),
    Page.runs s = [Page.Listening st] ->
    Page.attached s = [0] ->
    Page.view 0 (Page.run (map asPageEvent events) s)
    = Some (RestroomMap.run events (Page.withDom (Page.dom s) st)).
Proof.
  induction events as [|e events IH]; intros s st Hruns Horder.
  - cbn [map Page.run fold_left RestroomMap.run]. unfold Page.view.
    now rewrite Hruns.
  - cbn [map]. rewrite run_cons.
    change (Page.run (asPageEvent e :: map asPageEvent events) s)
      with (Page.run (map asPageEvent events)
              (Page.dispatch s (asPageEvent e))).
    destruct (@one_run_dispatch s st e Hruns Horder)
      as (st' & Hruns' & Horder' & Hview).
    rewrite (IH _ st' Hruns' Horder'). now rewrite Hview.
Qed.

(** A page that starts with a stored token runs [initializeMap] once;
    when its data has arrived, the events of the controls and the timers
    leave its run in the state [RestroomMap.run] computes from
    [RestroomMap.loaded]. *)
Lemma one_run_page (controls : bool) (storage : Token.Storage)
  (userToken : string) (data : FeatureCollection)
  (events : list RestroomMap.Event) :
  Token.getItem Token.STORAGE_KEY storage = Some userToken ->
  userToken <> "" ->
  Page.view 0
    (Page.run
       (Page.MapLoaded 0 :: Page.DataArrived 0 data
          :: map asPageEvent events)
       (Page.restroomMapApp controls storage))
  = Some (RestroomMap.run events (RestroomMap.loaded data)).
Proof.
  intros Hstored Hfilled.
  change (Page.run (Page.MapLoaded 0 :: Page.DataArrived 0 data
                      :: map asPageEvent events)
            (Page.restroomMapApp controls storage))
    with (Page.run (map asPageEvent events)
            (Page.dispatch
               (Page.dispatch (Page.restroomMapApp controls storage)
                  (Page.MapLoaded 0))
               (Page.DataArrived 0 data))).
  assert (exists n m,
             Page.dispatch
               (Page.dispatch (Page.restroomMapApp controls storage)
                  (Page.MapLoaded 0))
               (Page.DataArrived 0 data)
             = {| Page.controls := controls;
                  Page.token := Token.restroomMapApp storage;
                  Page.submitListeners := n;
                  Page.resetTokenListeners := m;
                  Page.dom := Page.domOf (RestroomMap.loaded data);
                  Page.runs := [Page.Listening (RestroomMap.loaded data)];
                  Page.attached := [0] |}) as (n & m & ->).
  { unfold Page.restroomMapApp, Token.restroomMapApp. rewrite Hstored.
    destruct (String.eqb_spec userToken "") as [Hempty|_];
      [contradiction |].
    cbn [Token.showMap Token.initialized map Page.dispatch Page.runs
           nth_error Page.update firstn skipn app Page.set_runs Page.dom].
    unfold Page.addTokenControls.
    match goal with
    | |- context [if ?stored then Page.set_resetTokenListeners _ _ else _] =>
        destruct stored
    end;
      cbn [Page.dispatch Page.set_resetTokenListeners Page.runs nth_error
             Page.update firstn skipn app Page.set_runs Page.set_attached
             Page.dom Page.attached Page.controls Page.token
             Page.submitListeners Page.resetTokenListeners];
      eexists; eexists; reflexivity. }
  rewrite one_run_events with (st := RestroomMap.loaded data)
    by reflexivity.
  cbn [Page.dom]. now rewrite withDom_domOf.
Qed.

(** Hiding the heat map takes its layer and source off the map and keeps
    the cached grid. *)
Lemma toggle_off_only_hides (st : RestroomMap.state) :
  RestroomMap.isHeatmapVisible st = true ->
  let st' := snd (RestroomMap.toggleHeatmap st) in
  RestroomMap.heatmapData st' = RestroomMap.heatmapData st
  /\ RestroomMap.isHeatmapVisible st' = false
  /\ RestroomMap.heatmapSource st' = None
  /\ RestroomMap.heatmapLayer st' = false.
Proof.
  destruct st as [store filters visible cache source hsource hlayer text
                    disabled hidden pending out].
  cbn [RestroomMap.isHeatmapVisible]. intros ->. handler_fields.
  now repeat split.
Qed.

(* ------------------------------------------------------------------ *)
(** * More on the Filter Engine *)
(* ------------------------------------------------------------------ *)

Lemma filter_twice {A : Type} (p p' : A -> bool) (xs : list A) :
  filter p (filter p' xs) = filter (fun x => p' x && p x) xs.
Proof.
  induction xs as [|x xs IH]; simpl; [reflexivity |].
  destruct (p' x); simpl; [| exact IH].
  destruct (p x); simpl; congruence.
Qed.

Lemma Satisfies_initial (record : Feature) : Satisfies Filters.initial record.
Proof.
  unfold Satisfies. split; [| repeat split; now left].
  intros H. now contradiction H.
Qed.

Lemma filterFeatures_initial (records : list Feature) :
  filterFeatures Filters.initial records = records.
Proof.
  unfold filterFeatures. induction records as [|x records IH];
    cbn [filter]; [reflexivity |].
  assert (featureMatches Filters.initial x = true) as ->
    by apply featureMatches_spec, Satisfies_initial.
  now rewrite IH.
Qed.

Lemma FacetPredicate_all (value : option string) :
  FacetPredicate "all" value.
Proof. now left. Qed.

Lemma SearchPredicate_empty (q : Filters.t) (record : Feature) :
  Filters.search q = "" -> SearchPredicate q record.
Proof. intros H Hne. now contradiction Hne. Qed.

Lemma Satisfies_onlySearch (text : string) (record : Feature) :
  Satisfies (onlySearch text) record
  <-> SearchPredicate (onlySearch text) record.
Proof.
  unfold Satisfies. cbn [onlySearch Filters.set_search Filters.initial
    Filters.status Filters.accessibility Filters.locationType].
  pose proof FacetPredicate_all. intuition.
Qed.

Lemma Satisfies_onlyStatus (value : string) (record : Feature) :
  Satisfies (onlyStatus value) record
  <-> FacetPredicate value (Props.status (properties record)).
Proof.
  unfold Satisfies. cbn [onlyStatus Filters.set_status Filters.initial
    Filters.status Filters.accessibility Filters.locationType].
  pose proof FacetPredicate_all.
  pose proof (@SearchPredicate_empty (Filters.set_status value Filters.initial)
                record eq_refl).
  intuition.
Qed.

Lemma Satisfies_onlyAccessibility (value : string) (record : Feature) :
  Satisfies (onlyAccessibility value) record
  <-> FacetPredicate value (Props.accessibility (properties record)).
Proof.
  unfold Satisfies. cbn [onlyAccessibility Filters.set_accessibility
    Filters.initial Filters.status Filters.accessibility
    Filters.locationType].
  pose proof FacetPredicate_all.
  pose proof (@SearchPredicate_empty
                (Filters.set_accessibility value Filters.initial)
                record eq_refl).
  intuition.
Qed.

Lemma Satisfies_onlyLocationType (value : string) (record : Feature) :
  Satisfies (onlyLocationType value) record
  <-> FacetPredicate value (Props.location_type (properties record)).
Proof.
  unfold Satisfies. cbn [onlyLocationType Filters.set_locationType
    Filters.initial Filters.status Filters.accessibility
    Filters.locationType].
  pose proof FacetPredicate_all.
  pose proof (@SearchPredicate_empty
                (Filters.set_locationType value Filters.initial)
                record eq_refl).
  intuition.
Qed.

(** A query is the conjunction of its four facets. *)
Lemma Satisfies_facets (q : Filters.t) (record : Feature) :
  Satisfies q record
  <-> Satisfies (onlyLocationType (Filters.locationType q)) record
      /\ Satisfies (onlyAccessibility (Filters.accessibility q)) record
      /\ Satisfies (onlyStatus (Filters.status q)) record
      /\ Satisfies (onlySearch (Filters.search q)) record.
Proof.
  rewrite Satisfies_onlyLocationType, Satisfies_onlyAccessibility,
    Satisfies_onlyStatus, Satisfies_onlySearch.
  unfold Satisfies.
  change (SearchPredicate (onlySearch (Filters.search q)) record)
    with (SearchPredicate q record).
  tauto.
Qed.

Lemma featureMatches_iff_eq (a b : bool) (P Q : Prop) :
  (a = true <-> P) -> (b = true <-> Q) -> (P <-> Q) -> a = b.
Proof. destruct a, b; intuition congruence. Qed.

(** X1. The facets of a query compose: filtering by a query is filtering
    by its location type, then by its accessibility, then by its status,
    then by its search text, each as a query of that one facet. *)
Theorem X1_facets_compose (q : Filters.t) (records : list Feature) :
  filterFeatures q records
  = filterFeatures (onlySearch (Filters.search q))
      (filterFeatures (onlyStatus (Filters.status q))
         (filterFeatures (onlyAccessibility (Filters.accessibility q))
            (filterFeatures (onlyLocationType (Filters.locationType q))
               records))).
Proof.
  unfold filterFeatures. rewrite !filter_twice. apply filter_ext.
  intros record.
  eapply featureMatches_iff_eq;
    [apply featureMatches_spec | reflexivity |].
  rewrite !andb_true_iff, !featureMatches_spec, Satisfies_facets. tauto.
Qed.

(** The order of two filters does not matter. *)
Lemma filterFeatures_commute (q q' : Filters.t) (records : list Feature) :
  filterFeatures q (filterFeatures q' records)
  = filterFeatures q' (filterFeatures q records).
Proof.
  unfold filterFeatures. rewrite !filter_twice. apply filter_ext.
  intros record. apply andb_comm.
Qed.

Lemma applyFilters_loaded (st : RestroomMap.state)
  (data : FeatureCollection) :
  RestroomMap.allRestroomData st = Some data ->
  RestroomMap.restroomsSource st <> None ->
  RestroomMap.applyFilters st
  = (Normal tt,
     RestroomMap.set_restroomsSource
       (Some {| features :=
                  filterFeatures (RestroomMap.currentFilters st)
                    (features data) |}) st).
Proof.
  intros Hdata Hsrc.
  unfold RestroomMap.applyFilters, RestroomMap.bind, RestroomMap.gets.
  rewrite Hdata.
  destruct (RestroomMap.restroomsSource st); [reflexivity | contradiction].
Qed.

(** X2. Idempotence: once the store is loaded and the 'restrooms' source
    exists, a second [applyFilters()] with the same filters leaves the
    state as the first one left it; and filtering a filtered list again
    by the same query returns it as it is. *)
Theorem X2_applyFilters_idempotent (st : RestroomMap.state)
  (data : FeatureCollection) :
  RestroomMap.allRestroomData st = Some data ->
  RestroomMap.restroomsSource st <> None ->
  RestroomMap.applyFilters (snd (RestroomMap.applyFilters st))
  = RestroomMap.applyFilters st
  /\ filterFeatures (RestroomMap.currentFilters st)
       (filterFeatures (RestroomMap.currentFilters st) (features data))
     = filterFeatures (RestroomMap.currentFilters st) (features data).
Proof.
  intros Hdata Hsrc. split.
  - rewrite (applyFilters_loaded _ Hdata Hsrc). cbn [snd].
    rewrite applyFilters_loaded with (data := data);
      [reflexivity | exact Hdata | discriminate].
  - unfold filterFeatures. rewrite filter_twice. apply filter_ext.
    intros record. apply andb_diag.
Qed.

Lemma X2_witness :
  let st := RestroomMap.set_currentFilters Sample.operationalOnly
              (RestroomMap.loaded Sample.twoRecords) in
  RestroomMap.applyFilters (snd (RestroomMap.applyFilters st))
  = RestroomMap.applyFilters st
  /\ filterFeatures (RestroomMap.currentFilters st)
       (filterFeatures (RestroomMap.currentFilters st)
          (features Sample.twoRecords))
     = filterFeatures (RestroomMap.currentFilters st)
         (features Sample.twoRecords).
Proof.
  intros st.
  apply (@X2_applyFilters_idempotent st Sample.twoRecords);
    [reflexivity | discriminate].
Defined.

(* ------------------------------------------------------------------ *)
(** * What the map shows *)
(* ------------------------------------------------------------------ *)

(** The heat map handlers leave the filters and the 'restrooms' source
    alone. *)
Lemma toggleHeatmap_frame (st : RestroomMap.state) :
  let st' := snd (RestroomMap.toggleHeatmap st) in
  RestroomMap.currentFilters st' = RestroomMap.currentFilters st
  /\ RestroomMap.restroomsSource st' = RestroomMap.restroomsSource st.
Proof.
  destruct st as [store filters visible cache source hsource hlayer text
                    disabled hidden pending out].
  handler_fields. destruct visible, cache as [grid|]; now split.
Qed.

Lemma generateCallback_frame (st : RestroomMap.state) :
  let st' := snd (RestroomMap.generateCallback st) in
  RestroomMap.currentFilters st' = RestroomMap.currentFilters st
  /\ RestroomMap.restroomsSource st' = RestroomMap.restroomsSource st.
Proof.
  destruct st as [store filters visible cache source hsource hlayer text
                    disabled hidden pending out].
  cbv beta iota zeta delta [RestroomMap.generateCallback RestroomMap.bind
    RestroomMap.log RestroomMap.modify].
  destruct store as [data|].
  - rewrite generateCoverageHeatmap_loaded with (data := data)
      by reflexivity.
    destruct (RestroomMap.gridLoops _ _ _) as [cells|e]; handler_fields;
      now split.
  - rewrite generateCoverageHeatmap_not_loaded by reflexivity.
    handler_fields. now split.
Qed.

(** A filter listener on a loaded page: the filters are updated and the
    map gets the store filtered by them. *)
Lemma changeFilters_loaded (update : Filters.t -> Filters.t)
  (st : RestroomMap.state) (data : FeatureCollection) :
  RestroomMap.allRestroomData st = Some data ->
  RestroomMap.restroomsSource st <> None ->
  let st' := snd (RestroomMap.changeFilters update st) in
  RestroomMap.allRestroomData st' = Some data
  /\ RestroomMap.currentFilters st' = update (RestroomMap.currentFilters st)
  /\ RestroomMap.restroomsSource st'
     = Some {| features :=
                 filterFeatures (update (RestroomMap.currentFilters st))
                   (features data) |}.
Proof.
  destruct st as [store filters visible cache source hsource hlayer text
                    disabled hidden pending out].
  cbn [RestroomMap.allRestroomData RestroomMap.restroomsSource
         RestroomMap.currentFilters].
  intros -> Hsrc. handler_fields.
  destruct source; [now repeat split | contradiction].
Qed.

Lemma collection_eta (data : FeatureCollection) :
  {| features := features data |} = data.
Proof. now destruct data. Qed.

Lemma dispatch_display (data : FeatureCollection) (st : RestroomMap.state)
  (e : RestroomMap.Event) :
  RestroomMap.allRestroomData st = Some data ->
  RestroomMap.restroomsSource st
  = Some {| features := filterFeatures (RestroomMap.currentFilters st)
                          (features data) |} ->
  RestroomMap.restroomsSource (RestroomMap.dispatch st e)
  = Some {| features :=
              filterFeatures
                (RestroomMap.currentFilters (RestroomMap.dispatch st e))
                (features data) |}.
Proof.
  intros Hdata Hshown.
  assert (RestroomMap.restroomsSource st <> None) as Hsrc
    by (rewrite Hshown; discriminate).
  destruct e; cbn [RestroomMap.dispatch];
    rewrite ?resetAllFilters_changeFilters;
    try match goal with
        | |- context [RestroomMap.changeFilters ?update st] =>
            destruct (@changeFilters_loaded update st data Hdata Hsrc)
              as (_ & -> & ->); reflexivity
        end.
  - destruct (RestroomMap.buttonDisabled st); [exact Hshown |].
    destruct (toggleHeatmap_frame st) as [-> ->]. exact Hshown.
  - destruct (RestroomMap.timers st) as [|pending]; [exact Hshown |].
    destruct (generateCallback_frame (RestroomMap.set_timers pending st))
      as [-> ->].
    exact Hshown.
Qed.

(** X3. Whatever the user does after the data has loaded (typing in the
    search box, changing a select, resetting, pressing Escape, toggling
    the heat map, a timer firing), the store is the one that was loaded
    and the 'restrooms' source of the map holds exactly the store
    filtered by the current filters. *)
Theorem X3_map_shows_filtered_store (data : FeatureCollection)
  (events : list RestroomMap.Event) :
  let st := RestroomMap.run events (RestroomMap.loaded data) in
  RestroomMap.allRestroomData st = Some data
  /\ RestroomMap.restroomsSource st
     = Some {| features := filterFeatures (RestroomMap.currentFilters st)
                             (features data) |}.
Proof.
  cbv zeta.
  assert (RestroomMap.allRestroomData (RestroomMap.loaded data) = Some data
          /\ RestroomMap.restroomsSource (RestroomMap.loaded data)
             = Some {| features :=
                         filterFeatures
                           (RestroomMap.currentFilters
                              (RestroomMap.loaded data))
                           (features data) |}) as Hstart.
  { split; [reflexivity |]. cbn [RestroomMap.loaded
      RestroomMap.restroomsSource RestroomMap.currentFilters].
    now rewrite filterFeatures_initial, collection_eta. }
  revert Hstart. generalize (RestroomMap.loaded data).
  induction events as [|e events IH]; intros st [Hdata Hshown];
    [now split |].
  rewrite run_cons. apply IH. split.
  - now rewrite dispatch_store.
  - now apply dispatch_display.
Qed.

(** X4. Reset: on a loaded page with its 'restrooms' source,
    [resetAllFilters] (the reset button, the R key) puts every filter
    back to "all", empties the search text, and the map shows the whole
    store again. *)
Theorem X4_reset_shows_whole_store (st : RestroomMap.state)
  (data : FeatureCollection) :
  RestroomMap.allRestroomData st = Some data ->
  RestroomMap.restroomsSource st <> None ->
  let st' := RestroomMap.dispatch st RestroomMap.ResetAllFiltersClick in
  RestroomMap.currentFilters st' = Filters.initial
  /\ RestroomMap.restroomsSource st' = Some data.
Proof.
  intros Hdata Hsrc. cbn [RestroomMap.dispatch].
  rewrite resetAllFilters_changeFilters.
  destruct (@changeFilters_loaded (fun _ => Filters.initial) st data
              Hdata Hsrc) as (_ & -> & ->).
  now rewrite filterFeatures_initial, collection_eta.
Qed.

Lemma X4_witness :
  let st := RestroomMap.dispatch (RestroomMap.loaded Sample.twoRecords)
              (RestroomMap.StatusChange "Operational") in
  let st' := RestroomMap.dispatch st RestroomMap.ResetAllFiltersClick in
  RestroomMap.currentFilters st' = Filters.initial
  /\ RestroomMap.restroomsSource st' = Some Sample.twoRecords.
Proof.
  intros st.
  apply (@X4_reset_shows_whole_store st Sample.twoRecords);
    [reflexivity | discriminate].
Defined.

(* ------------------------------------------------------------------ *)
(** * The statistics panel along the events *)
(* ------------------------------------------------------------------ *)

Lemma Counts_le {A : Type} (P : A -> Prop) (records : list A) (n : nat) :
  Counts P records n -> n <= List.length records.
Proof. induction 1; simpl; lia. Qed.

Lemma filter_no_longer {A : Type} (p : A -> bool) (xs : list A) :
  List.length (filter p xs) <= List.length xs.
Proof.
  induction xs as [|x xs IH]; simpl; [lia |]. destruct (p x); simpl; lia.
Qed.

Lemma counters_agree (data : FeatureCollection) (st : Part000.state)
  (q : Filters.t) :
  Part000.allRestroomData st = Some data ->
  Part000.restroomsSource st <> None ->
  PanelAgrees data (snd (Part000.applyFilters (Part000.set_currentFilters q st))).
Proof.
  intros Hdata Hsrc. unfold Part000.applyFilters.
  cbn [Part000.set_currentFilters Part000.allRestroomData
         Part000.currentFilters Part000.restroomsSource].
  rewrite Hdata.
  destruct (Part000.restroomsSource st); [| contradiction].
  split; [exact Hdata |].
  exists (filterFeatures q (features data)).
  cbn. repeat split; try reflexivity;
    apply filter_counts; intros record; apply strictEqual_spec.
Qed.

Lemma PanelAgrees_loaded (data : FeatureCollection) :
  PanelAgrees data (Part000.loaded data).
Proof.
  split; [reflexivity |]. exists (features data).
  cbn. rewrite filterFeatures_initial, collection_eta.
  repeat split; try reflexivity;
    apply filter_counts; intros record; apply strictEqual_spec.
Qed.

Lemma Part000_dispatch_agrees (data : FeatureCollection)
  (st : Part000.state) (e : Part000.Event) :
  PanelAgrees data st -> PanelAgrees data (Part000.dispatch st e).
Proof.
  intros (Hdata & shown & _ & Hsrc & _).
  assert (Part000.restroomsSource st <> None) as Hsome
    by (rewrite Hsrc; discriminate).
  destruct e; cbn [Part000.dispatch]; now apply counters_agree.
Qed.

(** X5. In the revision with the statistics panel: whatever the user does
    after the data has loaded, the map shows the store filtered by the
    current filters and the four counters count exactly what the map
    shows; so no counter exceeds the total shown, and the total shown
    never exceeds the size of the store. *)
Theorem X5_panel_counts_what_is_shown (data : FeatureCollection)
  (events : list Part000.Event) :
  let st := Part000.run events (Part000.loaded data) in
  PanelAgrees data st
  /\ Part000.operationalCount st <= Part000.totalVisible st
  /\ Part000.accessibleCount st <= Part000.totalVisible st
  /\ Part000.parkCount st <= Part000.totalVisible st
  /\ Part000.totalVisible st <= List.length (features data).
Proof.
  cbv zeta.
  assert (PanelAgrees data (Part000.run events (Part000.loaded data)))
    as Hagree.
  { generalize (PanelAgrees_loaded data).
    generalize (Part000.loaded data).
    induction events as [|e events IH]; intros st Hst; [exact Hst |].
    apply IH. now apply Part000_dispatch_agrees. }
  split; [exact Hagree |].
  destruct Hagree as (_ & shown & Hshown & _ & Htotal & Hop & Hacc & Hpark).
  rewrite Htotal. repeat split.
  - exact (Counts_le Hop).
  - exact (Counts_le Hacc).
  - exact (Counts_le Hpark).
  - rewrite Hshown. apply filter_no_longer.
Qed.

(* ------------------------------------------------------------------ *)
(** * Distance Model *)
(* ------------------------------------------------------------------ *)

Section Distances.

Local Open Scope R_scope.

Lemma sub_swap (x y : number) : sub x y = neg (sub y x).
Proof.
  destruct x, y; cbn; try reflexivity. f_equal. ring.
Qed.

Lemma scaleInfinity_flip (positive : bool) (s : comparison) :
  scaleInfinity (negb positive) s = neg (scaleInfinity positive s).
Proof. now destruct positive, s. Qed.

Lemma mul_neg_l (x : number) (k : R) :
  mul (neg x) (Num k) = neg (mul x (Num k)).
Proof.
  destruct x; cbn [neg mul]; try reflexivity.
  - apply (scaleInfinity_flip true).
  - apply (scaleInfinity_flip false).
  - f_equal. ring.
Qed.

Lemma mul_neg_neg (x : number) : mul (neg x) (neg x) = mul x x.
Proof. destruct x; cbn; try reflexivity. f_equal. ring. Qed.

Lemma squared_step_swap (x y : number) (k : R) :
  mul (mul (sub x y) (Num k)) (mul (sub x y) (Num k))
  = mul (mul (sub y x) (Num k)) (mul (sub y x) (Num k)).
Proof. now rewrite (sub_swap x y), mul_neg_l, mul_neg_neg. Qed.



(** X6. The fast planar distance is symmetric in its two points,
    whatever the four values are, and it is never a negative number nor
    -Infinity; between two points of the globe (beyond them the squares
    can leave the range of a double) it is a finite number; and it is 0
    from a finite point to itself. *)
Theorem X6_fast_distance_metric :
  (forall lat1 lng1 lat2 lng2 : JSValue,
      RestroomMap.calculateFastDistance lat1 lng1 lat2 lng2
      = RestroomMap.calculateFastDistance lat2 lng2 lat1 lng1)
  /\ (forall lat1 lng1 lat2 lng2 : JSValue,
        NeverNegative
          (RestroomMap.calculateFastDistance lat1 lng1 lat2 lng2))
  /\ (forall lat1 lng1 lat2 lng2 : R,
        Geographic lat1 lng1 -> Geographic lat2 lng2 ->
        exists d,
          RestroomMap.calculateFastDistance (Number (Num lat1))
            (Number (Num lng1)) (Number (Num lat2)) (Number (Num lng2))
          = Num d /\ 0 <= d)
  /\ (forall lat lng : R,
        RestroomMap.calculateFastDistance (Number (Num lat))
          (Number (Num lng)) (Number (Num lat)) (Number (Num lng))
        = Num 0).
Proof.
  split; [| split; [| split]].
  - intros lat1 lng1 lat2 lng2. unfold RestroomMap.calculateFastDistance.
    cbv zeta.
    now rewrite (squared_step_swap (ToNumber lat2) (ToNumber lat1)),
      (squared_step_swap (ToNumber lng2) (ToNumber lng1)).
  - intros lat1 lng1 lat2 lng2. unfold RestroomMap.calculateFastDistance.
    cbv zeta.
    match goal with
    | |- NeverNegative (Math_sqrt ?x) =>
        destruct (Math_sqrt_range x) as [-> | [-> | (d & -> & Hd)]]
    end; cbn [NeverNegative]; auto.
  - intros lat1 lng1 lat2 lng2 _ _.
    rewrite distance_valid with (x := lng2) (y := lat2) by reflexivity.
    eexists. split; [reflexivity |]. apply sqrt_pos.
  - intros lat lng.
    rewrite distance_valid with (x := lng) (y := lat) by reflexivity.
    unfold planarDistance. f_equal.
    replace ((lat - lat) * 111000 * ((lat - lat) * 111000)
             + (lng - lng) * 85000 * ((lng - lng) * 85000)) with 0 by ring.
    apply sqrt_0.
Qed.

Lemma X6_witness :
  exists d,
    RestroomMap.calculateFastDistance (Number (Num 40.78))
      (Number (Num (- 73.97))) (Number (Num 40.75)) (Number (Num (- 73.98)))
    = Num d /\ 0 <= d.
Proof.
  destruct X6_fast_distance_metric as (_ & _ & Hfinite & _).
  apply Hfinite; split; apply Rabs_le; lra.
Defined.




End Distances.

(* ------------------------------------------------------------------ *)
(** * More on the nearest-restroom scan *)
(* ------------------------------------------------------------------ *)

Section ScanOrder.

Local Open Scope R_scope.

Lemma validDistances_app (lat lng : R) (coords more : list Coordinates) :
  validDistances lat lng (coords ++ more)
  = (validDistances lat lng coords ++ validDistances lat lng more)%list.
Proof. unfold validDistances. apply flat_map_app. Qed.

Lemma validDistances_Permutation (lat lng : R)
  (coords coords' : list Coordinates) :
  Permutation coords coords' ->
  Permutation (validDistances lat lng coords)
    (validDistances lat lng coords').
Proof.
  unfold validDistances. induction 1; simpl.
  - constructor.
  - now apply Permutation_app_head.
  - rewrite !app_assoc. apply Permutation_app_tail, Permutation_app_comm.
  - now transitivity (flat_map
                        (fun coords => match validDistance lat lng coords with
                                       | Some d => [d]
                                       | None => []
                                       end) l').
Qed.

(** The minimum of a list of distances is that of any rearrangement. *)
Lemma MinimumOf_Permutation (ds ds' : list R) (m m' : number) :
  Permutation ds ds' -> MinimumOf ds m -> MinimumOf ds' m' -> m = m'.
Proof.
  intros Hperm Hm Hm'. destruct ds as [|d0 ds].
  - apply Permutation_nil in Hperm. subst ds'. simpl in *. congruence.
  - destruct ds' as [|d0' ds'].
    + apply Permutation_sym, Permutation_nil in Hperm. discriminate.
    + destruct Hm as (d & -> & Hin & Hle).
      destruct Hm' as (d' & -> & Hin' & Hle').
      f_equal. apply Rle_antisym.
      * apply Hle. apply Permutation_in with (d0' :: ds');
          [now apply Permutation_sym | exact Hin'].
      * apply Hle'. now apply Permutation_in with (d0 :: ds).
Qed.

Lemma isArray_Permutation (coords coords' : list Coordinates) :
  Permutation coords coords' ->
  Forall isArray coords -> Forall isArray coords'.
Proof.
  intros Hperm H. apply Forall_forall. intros c Hc.
  apply (proj1 (Forall_forall _ _) H).
  apply Permutation_in with coords'; [now apply Permutation_sym | exact Hc].
Qed.

Lemma nearestDistance_Permutation (lat lng : R)
  (coords coords' : list Coordinates) :
  Permutation coords coords' -> Forall isArray coords ->
  RestroomMap.nearestDistance (Num lat) (Num lng) coords
  = RestroomMap.nearestDistance (Num lat) (Num lng) coords'.
Proof.
  intros Hperm Harr.
  pose proof (isArray_Permutation Hperm Harr) as Harr'.
  unfold RestroomMap.nearestDistance.
  rewrite !scan_valid_only by assumption. f_equal.
  apply MinimumOf_Permutation
    with (validDistances lat lng coords) (validDistances lat lng coords');
    [now apply validDistances_Permutation | |];
    apply fold_keepSmaller_minimum.
Qed.

Lemma isArray_dec (coords : Coordinates) : {isArray coords} + {~ isArray coords}.
Proof. destruct coords; simpl; auto. Qed.

(** X8. The heat map does not depend on the order of the records: two
    stores whose features are rearrangements of one another give the
    same grid, or throw alike. *)
Theorem X8_heatmap_order_independent (st st' : RestroomMap.state)
  (data data' : FeatureCollection) :
  RestroomMap.allRestroomData st = Some data ->
  RestroomMap.allRestroomData st' = Some data' ->
  Permutation (features data) (features data') ->
  fst (RestroomMap.generateCoverageHeatmap st)
  = fst (RestroomMap.generateCoverageHeatmap st').
Proof.
  intros Hdata Hdata' Hperm.
  rewrite (generateCoverageHeatmap_loaded _ Hdata),
    (generateCoverageHeatmap_loaded _ Hdata').
  assert (Permutation (restroomCoordsOf data) (restroomCoordsOf data'))
    as Hcoords by now apply Permutation_map.
  assert (0 < RestroomMap.gridSize)%nat as Hpos
    by (unfold RestroomMap.gridSize; lia).
  destruct (Forall_dec isArray isArray_dec (restroomCoordsOf data))
    as [Harr|Hbad].
  - pose proof (isArray_Permutation Hcoords Harr) as Harr'.
    rewrite !gridLoops_normal by assumption. cbn [fst].
    do 3 f_equal. apply flat_map_ext. intros i.
    apply map_ext. intros j. unfold cellOf.
    pose proof (gridLat_finite 40.925 40.470 (- 73.680) (- 74.280) i Hpos)
      as Hlat.
    pose proof (gridLng_finite 40.925 40.470 (- 73.680) (- 74.280) j Hpos)
      as Hlng.
    fold RestroomMap.nycBounds in Hlat, Hlng. rewrite Hlat, Hlng.
    now rewrite (nearestDistance_Permutation _ _ Hcoords Harr).
  - assert (~ Forall isArray (restroomCoordsOf data')) as Hbad'.
    { intros H. apply Hbad.
      apply isArray_Permutation with (restroomCoordsOf data');
        [now apply Permutation_sym | exact H]. }
    now rewrite !gridLoops_throws by assumption.
Qed.

Lemma X8_witness :
  fst (RestroomMap.generateCoverageHeatmap
         (RestroomMap.loaded
            {| features := [Sample.centralPark; Sample.mainLibrary] |}))
  = fst (RestroomMap.generateCoverageHeatmap
           (RestroomMap.loaded
              {| features := [Sample.mainLibrary; Sample.centralPark] |})).
Proof.
  apply (@X8_heatmap_order_independent
           (RestroomMap.loaded
              {| features := [Sample.centralPark; Sample.mainLibrary] |})
           (RestroomMap.loaded
              {| features := [Sample.mainLibrary; Sample.centralPark] |})
           {| features := [Sample.centralPark; Sample.mainLibrary] |}
           {| features := [Sample.mainLibrary; Sample.centralPark] |});
    [reflexivity | reflexivity | apply perm_swap].
Defined.

Lemma clamp_monotone (d1 d2 : R) :
  0 <= d1 <= d2 ->
  let clamp d := if Rlt_dec 1 (d / 1000) then 1 else d / 1000 in
  0 <= clamp d1 <= clamp d2 /\ clamp d2 <= 1.
Proof.
  intros H. cbv beta zeta.
  destruct (Rlt_dec 1 (d1 / 1000)), (Rlt_dec 1 (d2 / 1000)); lra.
Qed.

Lemma Math_pow_0_6_monotone (r1 r2 : R) :
  0 <= r1 <= r2 ->
  AtMost (Math_pow_0_6 (Num r1)) (Math_pow_0_6 (Num r2)).
Proof.
  intros H. cbn [Math_pow_0_6].
  destruct (Rsign_cases r1) as [[-> H1]|[[-> H1]|[-> H1]]];
    destruct (Rsign_cases r2) as [[-> H2]|[[-> H2]|[-> H2]]];
    try lra; do 2 eexists; (split; [reflexivity |]);
    (split; [reflexivity |]).
  - lra.
  - left. apply exp_pos.
  - apply Rle_Rpower_l; lra.
Qed.

Lemma intensityOf_monotone (d1 d2 : R) :
  0 <= d1 <= d2 ->
  AtMost (RestroomMap.intensityOf (Num d1)) (RestroomMap.intensityOf (Num d2)).
Proof.
  intros H. rewrite !intensityOf_Num by lra.
  apply Math_pow_0_6_monotone. apply (clamp_monotone H).
Qed.

Lemma intensityOf_below_Infinity (d : R) :
  0 <= d ->
  AtMost (RestroomMap.intensityOf (Num d)) (RestroomMap.intensityOf Infinity).
Proof.
  intros H. destruct (@intensityOf_unit (Num d)) as (r & Hr & Hbound).
  { right. exists d. now split. }
  rewrite Hr, intensityOf_Infinity. exists r, 1. repeat split; lra.
Qed.

(** X9. Coverage monotonicity: the intensity does not decrease with the
    distance of the nearest restroom, up to the intensity 1 of a grid
    point without any restroom; and at 1000 meters and beyond it is 1. *)
Theorem X9_intensity_monotone (d1 d2 : R) :
  0 <= d1 <= d2 ->
  AtMost (RestroomMap.intensityOf (Num d1)) (RestroomMap.intensityOf (Num d2))
  /\ AtMost (RestroomMap.intensityOf (Num d2))
       (RestroomMap.intensityOf Infinity)
  /\ (1000 <= d1 -> RestroomMap.intensityOf (Num d1) = Num 1).
Proof.
  intros H. split; [| split].
  - now apply intensityOf_monotone.
  - apply intensityOf_below_Infinity. lra.
  - apply intensityOf_saturates.
Qed.

Lemma X9_witness :
  AtMost (RestroomMap.intensityOf (Num 1200))
    (RestroomMap.intensityOf (Num 2500))
  /\ AtMost (RestroomMap.intensityOf (Num 2500))
       (RestroomMap.intensityOf Infinity)
  /\ RestroomMap.intensityOf (Num 1200) = Num 1.
Proof.
  destruct (@X9_intensity_monotone 1200 2500) as (H1 & H2 & H3); [lra |].
  split; [exact H1 |]. split; [exact H2 |]. apply H3. lra.
Defined.

Lemma NoFarther_intensity (m' m : number) :
  (m' = Infinity \/ exists d, m' = Num d /\ 0 <= d) ->
  NoFarther m' m ->
  AtMost (RestroomMap.intensityOf m') (RestroomMap.intensityOf m).
Proof.
  intros Hrange Hle.
  destruct m' as [| | |a], m as [| | |b]; try contradiction.
  - rewrite intensityOf_Infinity. exists 1, 1. repeat split; lra.
  - destruct Hrange as [H|(d & H & Hd)]; [discriminate |].
    injection H as <-. now apply intensityOf_below_Infinity.
  - destruct Hrange as [H|(d & H & Hd)]; [discriminate |].
    injection H as <-. simpl in Hle. apply intensityOf_monotone. lra.
Qed.

End ScanOrder.

Section MoreRestrooms.

Local Open Scope R_scope.

Lemma fold_keepSmaller_shape (ds : list R) (acc : number) :
  (acc = Infinity \/ exists a, acc = Num a) ->
  fold_left keepSmaller ds acc = Infinity
  \/ exists r, fold_left keepSmaller ds acc = Num r.
Proof.
  intros Hacc. destruct (@fold_keepSmaller ds acc Hacc) as ([Hm|Hm] & _).
  - rewrite Hm. exact Hacc.
  - destruct Hm as (d & _ & Hm). right. now exists d.
Qed.

(** More records can only bring the nearest restroom closer. *)
Lemma nearestDistance_more (lat lng : R) (coords more : list Coordinates) :
  Forall isArray (coords ++ more) ->
  exists m m',
    RestroomMap.nearestDistance (Num lat) (Num lng) coords = Normal m
    /\ RestroomMap.nearestDistance (Num lat) (Num lng) (coords ++ more)
       = Normal m'
    /\ NoFarther m' m.
Proof.
  intros Harr. pose proof Harr as Hboth. apply Forall_app in Hboth.
  destruct Hboth as [Hcoords _].
  unfold RestroomMap.nearestDistance.
  rewrite !scan_valid_only by assumption.
  rewrite validDistances_app, fold_left_app.
  set (m := fold_left keepSmaller (validDistances lat lng coords) Infinity).
  do 2 eexists. split; [reflexivity |]. split; [reflexivity |].
  assert (m = Infinity \/ exists a, m = Num a) as Hm
    by (apply fold_keepSmaller_shape; now left).
  destruct (fold_keepSmaller_shape (validDistances lat lng more) Hm)
    as [Hm'|[r Hm']]; rewrite Hm'.
  - destruct (@fold_keepSmaller (validDistances lat lng more) m Hm)
      as (_ & _ & Hbelow).
    destruct Hm as [->|[a ->]]; [exact I |].
    destruct (Hbelow a eq_refl) as (r & Hr & _). congruence.
  - destruct (@fold_keepSmaller (validDistances lat lng more) m Hm)
      as (_ & _ & Hbelow).
    destruct Hm as [->|[a ->]]; [exact I |].
    destruct (Hbelow a eq_refl) as (r' & Hr' & Hle).
    rewrite Hm' in Hr'. injection Hr' as <-. exact Hle.
Qed.

Lemma Forall2_map_same {A B C : Type} (R : B -> C -> Prop)
  (f : A -> B) (g : A -> C) (xs : list A) :
  (forall x, R (f x) (g x)) -> Forall2 R (map f xs) (map g xs).
Proof. intros H. induction xs; simpl; constructor; auto. Qed.

Lemma Forall2_flat_map_same {A B C : Type} (R : B -> C -> Prop)
  (f : A -> list B) (g : A -> list C) (xs : list A) :
  (forall x, Forall2 R (f x) (g x)) ->
  Forall2 R (flat_map f xs) (flat_map g xs).
Proof.
  intros H. induction xs; simpl; [constructor |]. now apply Forall2_app.
Qed.

(** X10. More restrooms never make the coverage worse: when the features
    of a second store are those of the first followed by more records
    (all with a coordinates array), both heat maps are computed, they
    have the same cells at the same places in the same order, and no
    cell of the second has a greater intensity than in the first. *)
Theorem X10_more_restrooms_never_worse (st st' : RestroomMap.state)
  (data data' : FeatureCollection) (more : list Feature) :
  RestroomMap.allRestroomData st = Some data ->
  RestroomMap.allRestroomData st' = Some data' ->
  features data' = (features data ++ more)%list ->
  Forall HasCoordinateArray (features data') ->
  exists cells cells',
    fst (RestroomMap.generateCoverageHeatmap st)
    = Normal (Some {| RestroomMap.heatmapPoints := cells |})
    /\ fst (RestroomMap.generateCoverageHeatmap st')
       = Normal (Some {| RestroomMap.heatmapPoints := cells' |})
    /\ Forall2
         (fun cell cell' =>
            RestroomMap.lat cell' = RestroomMap.lat cell
            /\ RestroomMap.lng cell' = RestroomMap.lng cell
            /\ AtMost (RestroomMap.intensity cell')
                 (RestroomMap.intensity cell))
         cells cells'.
Proof.
  intros Hdata Hdata' Hmore Harr'.
  assert (restroomCoordsOf data'
          = (restroomCoordsOf data
               ++ map (fun restroom => coordinates (geometry restroom)) more)%list)
    as Hcoords by (unfold restroomCoordsOf; now rewrite Hmore, map_app).
  apply arrays_of_store in Harr'. rewrite Hcoords in Harr'.
  pose proof Harr' as Hboth. apply Forall_app in Hboth.
  destruct Hboth as [Harr _].
  rewrite (generateCoverageHeatmap_loaded _ Hdata),
    (generateCoverageHeatmap_loaded _ Hdata'), Hcoords.
  rewrite !gridLoops_normal by assumption.
  do 2 eexists. split; [reflexivity |]. split; [reflexivity |].
  assert (0 < RestroomMap.gridSize)%nat as Hpos
    by (unfold RestroomMap.gridSize; lia).
  apply Forall2_flat_map_same. intros i.
  apply Forall2_map_same. intros j.
  unfold cellOf.
  cbn [RestroomMap.lat RestroomMap.lng RestroomMap.intensity].
  split; [reflexivity |]. split; [reflexivity |].
  pose proof (gridLat_finite 40.925 40.470 (- 73.680) (- 74.280) i Hpos)
    as Hlat.
  pose proof (gridLng_finite 40.925 40.470 (- 73.680) (- 74.280) j Hpos)
    as Hlng.
  fold RestroomMap.nycBounds in Hlat, Hlng. rewrite Hlat, Hlng.
  destruct (nearestDistance_more
              (40.470 + INR i * ((40.925 - 40.470) / INR RestroomMap.gridSize))
              (- 74.280
               + INR j * ((- 73.680 - - 74.280) / INR RestroomMap.gridSize))
              _ _ Harr') as (m & m' & Hm & Hm' & Hle).
  rewrite Hm, Hm'. apply NoFarther_intensity; [| exact Hle].
  exact (nearestDistance_range _ _ _ Hm').
Qed.

Lemma X10_witness :
  exists cells cells',
    fst (RestroomMap.generateCoverageHeatmap
           (RestroomMap.loaded {| features := [Sample.centralPark] |}))
    = Normal (Some {| RestroomMap.heatmapPoints := cells |})
    /\ fst (RestroomMap.generateCoverageHeatmap
              (RestroomMap.loaded Sample.twoRecords))
       = Normal (Some {| RestroomMap.heatmapPoints := cells' |})
    /\ Forall2
         (fun cell cell' =>
            RestroomMap.lat cell' = RestroomMap.lat cell
            /\ RestroomMap.lng cell' = RestroomMap.lng cell
            /\ AtMost (RestroomMap.intensity cell')
                 (RestroomMap.intensity cell))
         cells cells'.
Proof.
  apply (@X10_more_restrooms_never_worse
           (RestroomMap.loaded {| features := [Sample.centralPark] |})
           (RestroomMap.loaded Sample.twoRecords)
           {| features := [Sample.centralPark] |} Sample.twoRecords
           [Sample.mainLibrary]);
    try reflexivity.
  repeat constructor.
Defined.

End MoreRestrooms.

(* ------------------------------------------------------------------ *)
(** * What the map shows of the heat map *)
(* ------------------------------------------------------------------ *)

(** The filter listeners leave every variable and element of the heat
    map as it is. *)
Lemma changeFilters_heat_frame (update : Filters.t -> Filters.t)
  (st : RestroomMap.state) :
  let st' := snd (RestroomMap.changeFilters update st) in
  RestroomMap.isHeatmapVisible st' = RestroomMap.isHeatmapVisible st
  /\ RestroomMap.heatmapData st' = RestroomMap.heatmapData st
  /\ RestroomMap.heatmapSource st' = RestroomMap.heatmapSource st
  /\ RestroomMap.heatmapLayer st' = RestroomMap.heatmapLayer st
  /\ RestroomMap.legendHidden st' = RestroomMap.legendHidden st
  /\ RestroomMap.timers st' = RestroomMap.timers st
  /\ RestroomMap.buttonDisabled st' = RestroomMap.buttonDisabled st
  /\ RestroomMap.buttonText st' = RestroomMap.buttonText st.
Proof.
  destruct st as [store filters visible cache source hsource hlayer text
                    disabled hidden pending out].
  handler_fields. destruct store as [data|]; [| now repeat split].
  destruct source; now repeat split.
Qed.

Lemma toggleHeatmap_display (data : FeatureCollection)
  (st : RestroomMap.state) :
  HeatDisplay data st -> HeatDisplay data (snd (RestroomMap.toggleHeatmap st)).
Proof.
  destruct st as [store filters visible cache source hsource hlayer text
                    disabled hidden pending out].
  unfold HeatDisplay.
  cbn [RestroomMap.allRestroomData RestroomMap.heatmapData
         RestroomMap.isHeatmapVisible RestroomMap.heatmapSource
         RestroomMap.heatmapLayer RestroomMap.legendHidden].
  intros (-> & Hgrid & Hshown). handler_fields.
  destruct visible.
  - handler_fields. now repeat split.
  - destruct cache as [grid|]; handler_fields.
    + split; [reflexivity |]. split; [exact Hgrid |].
      exists grid. now repeat split.
    + now repeat split.
Qed.

Lemma generateCallback_display (data : FeatureCollection)
  (st : RestroomMap.state) :
  HeatDisplay data st ->
  HeatDisplay data (snd (RestroomMap.generateCallback st)).
Proof.
  destruct st as [store filters visible cache source hsource hlayer text
                    disabled hidden pending out].
  unfold HeatDisplay.
  cbn [RestroomMap.allRestroomData RestroomMap.heatmapData
         RestroomMap.isHeatmapVisible RestroomMap.heatmapSource
         RestroomMap.heatmapLayer RestroomMap.legendHidden].
  intros (-> & Hgrid & Hshown).
  cbv beta iota zeta delta [RestroomMap.generateCallback RestroomMap.bind
    RestroomMap.log RestroomMap.modify].
  rewrite generateCoverageHeatmap_loaded with (data := data) by reflexivity.
  destruct (RestroomMap.gridLoops _ _ _) as [cells|e] eqn:Hloops;
    handler_fields.
  - split; [reflexivity |]. split.
    + intros grid H. now injection H as <-.
    + eexists. now repeat split.
  - now repeat split.
Qed.

Lemma dispatch_display_heat (data : FeatureCollection)
  (st : RestroomMap.state) (e : RestroomMap.Event) :
  HeatDisplay data st -> HeatDisplay data (RestroomMap.dispatch st e).
Proof.
  intros Hinv.
  destruct e; cbn [RestroomMap.dispatch];
    rewrite ?resetAllFilters_changeFilters;
    try match goal with
        | |- context [RestroomMap.changeFilters ?update st] =>
            destruct (changeFilters_heat_frame update st)
              as (Hv & Hd & Hs & Hl & Hh & _);
            destruct (changeFilters_frame update st) as (Hstore & _);
            unfold HeatDisplay in *;
            rewrite Hv, Hd, Hs, Hl, Hh, Hstore; exact Hinv
        end.
  - destruct (RestroomMap.buttonDisabled st); [exact Hinv |].
    now apply toggleHeatmap_display.
  - destruct (RestroomMap.timers st) as [|pending]; [exact Hinv |].
    apply generateCallback_display.
    destruct st; exact Hinv.
Qed.

Lemma run_display_heat (data : FeatureCollection)
  (events : list RestroomMap.Event) :
  HeatDisplay data (RestroomMap.run events (RestroomMap.loaded data)).
Proof.
  assert (HeatDisplay data (RestroomMap.loaded data)) as Hstart.
  { unfold HeatDisplay. cbn. repeat split. intros grid H. discriminate. }
  revert Hstart. generalize (RestroomMap.loaded data).
  induction events as [|e events IH]; intros st Hst; [exact Hst |].
  rewrite run_cons. apply IH. now apply dispatch_display_heat.
Qed.


Lemma gridLoops_length (bounds : RestroomMap.Bounds) (N : nat)
  (restroomCoords : list Coordinates)
  (cells : list RestroomMap.HeatmapPoint) :
  RestroomMap.gridLoops bounds N restroomCoords = Normal cells ->
  List.length cells = (N * N)%nat.
Proof.
  intros Hloops.
  destruct (Forall_dec isArray isArray_dec restroomCoords) as [Harr|Hbad].
  - rewrite gridLoops_normal in Hloops by exact Harr.
    injection Hloops as <-. apply grid_length.
  - destruct N as [|N].
    + unfold RestroomMap.gridLoops in Hloops. cbn in Hloops.
      now injection Hloops as <-.
    + rewrite gridLoops_throws in Hloops by (assumption || lia).
      discriminate.
Qed.

(** X19. Whatever the user does after the data has loaded, whenever the
    map has a 'heatmap-source' it holds exactly 100 * 100 features, and
    the intensity of each of them (the weight of the heat layer) is a
    number between 0 and 1. *)
Theorem X19_heat_source_is_a_full_grid (data : FeatureCollection)
  (events : list RestroomMap.Event)
  (shown : list RestroomMap.HeatFeature) :
  RestroomMap.heatmapSource
    (RestroomMap.run events (RestroomMap.loaded data)) = Some shown ->
  List.length shown = (100 * 100)%nat
  /\ Forall (fun feature => UnitInterval (RestroomMap.heat_intensity feature))
       shown.
Proof.
  intros Hshown.
  destruct (run_display_heat data events) as (_ & Hgrid & Hflag).
  destruct (RestroomMap.isHeatmapVisible _).
  - destruct Hflag as (grid & Hcache & Hsource & _).
    rewrite Hsource in Hshown. injection Hshown as <-.
    specialize (Hgrid grid Hcache). split.
    + rewrite length_map. exact (gridLoops_length _ _ _ Hgrid).
    + apply Forall_map. cbn [heatFeatureOf RestroomMap.heat_intensity].
      exact (gridLoops_intensity_unit _ _ _ Hgrid).
  - destruct Hflag as [Hnone _]. congruence.
Qed.

Lemma store_of_arrays (data : FeatureCollection) :
  Forall isArray (restroomCoordsOf data) ->
  Forall HasCoordinateArray (features data).
Proof.
  unfold restroomCoordsOf. induction (features data) as [|f fs IH]; simpl;
    intros H; [constructor |].
  inversion H; subst. constructor; auto.
Qed.

Lemma dispatch_stuck (st : RestroomMap.state) (e : RestroomMap.Event) :
  Stuck st -> Stuck (RestroomMap.dispatch st e).
Proof.
  intros Hstuck.
  destruct e; cbn [RestroomMap.dispatch];
    rewrite ?resetAllFilters_changeFilters;
    try match goal with
        | |- context [RestroomMap.changeFilters ?update st] =>
            destruct (changeFilters_heat_frame update st)
              as (Hv & Hd & Hs & Hl & _ & Ht & Hb & Hx);
            unfold Stuck in *;
            rewrite Hv, Hd, Hs, Hl, Ht, Hb, Hx; exact Hstuck
        end.
  - pose proof Hstuck as (_ & _ & _ & _ & _ & Hdisabled & _).
    rewrite Hdisabled. exact Hstuck.
  - pose proof Hstuck as (_ & _ & _ & _ & Htimers & _).
    rewrite Htimers. exact Hstuck.
Qed.

(** X12. When a record of the loaded store has no coordinates array, the
    first request for the heat map fails for good: after the click on the
    toggle and its timer, and whatever the user does afterwards, no grid
    is cached, no heat layer is on the map, and the button stays disabled
    on its text "Generating Danger Zone Analysis...". *)
Theorem X12_failed_generation_locks_button (data : FeatureCollection)
  (events : list RestroomMap.Event) :
  ~ Forall HasCoordinateArray (features data) ->
  Stuck (RestroomMap.run
           (RestroomMap.ToggleHeatmapClick :: RestroomMap.TimerFires :: events)
           (RestroomMap.loaded data)).
Proof.
  intros Hbad.
  assert (RestroomMap.gridLoops RestroomMap.nycBounds RestroomMap.gridSize
            (restroomCoordsOf data) = Throw TypeError) as Hloops.
  { apply gridLoops_throws; [| unfold RestroomMap.gridSize; lia].
    intros H. apply Hbad. now apply store_of_arrays. }
  rewrite !run_cons.
  assert (Stuck (RestroomMap.dispatch
                   (RestroomMap.dispatch (RestroomMap.loaded data)
                      RestroomMap.ToggleHeatmapClick)
                   RestroomMap.TimerFires)) as Hstart.
  { cbn [RestroomMap.dispatch RestroomMap.loaded RestroomMap.buttonDisabled].
    match goal with
    | |- context [RestroomMap.timers ?s] =>
        change (RestroomMap.timers s) with 1%nat
    end.
    cbv iota.
    rewrite generateCallback_throws with (data := data) (e := TypeError);
      [| reflexivity | exact Hloops].
    unfold Stuck. cbn. now repeat split. }
  revert Hstart.
  generalize (RestroomMap.dispatch
                (RestroomMap.dispatch (RestroomMap.loaded data)
                   RestroomMap.ToggleHeatmapClick)
                RestroomMap.TimerFires).
  induction events as [|e events IH]; intros st Hst; [exact Hst |].
  rewrite run_cons. apply IH. now apply dispatch_stuck.
Qed.

Lemma X12_witness :
  Stuck (RestroomMap.run
           [RestroomMap.ToggleHeatmapClick; RestroomMap.TimerFires;
            RestroomMap.ToggleHeatmapClick; RestroomMap.ResetAllFiltersClick;
            RestroomMap.TimerFires]
           (RestroomMap.loaded
              {| features := [Sample.centralPark; Sample.unlocated] |})).
Proof.
  apply (@X12_failed_generation_locks_button
           {| features := [Sample.centralPark; Sample.unlocated] |}
           [RestroomMap.ToggleHeatmapClick; RestroomMap.ResetAllFiltersClick;
            RestroomMap.TimerFires]).
  intros H. inversion H as [|? ? _ H']. inversion H' as [|? ? Hnull _].
  exact Hnull.
Defined.

(* ------------------------------------------------------------------ *)
(** * Map layers and popups *)
(* ------------------------------------------------------------------ *)

(** X13. The status colour of a popup is the colour of the marker: for
    every feature, whatever its status (one of the three known values,
    any other text, or none), [getStatusColor] of the status is the
    value of the 'circle-color' expression of the layer. *)
Theorem X13_popup_colour_is_marker_colour (props : Props.t) :
  MapLayers.getStatusColor (Props.status props)
  = MapLayers.evaluate MapLayers.circleColor props.
Proof.
  unfold MapLayers.evaluate, MapLayers.circleColor.
  cbn [MapLayers.branches MapLayers.fallback MapLayers.firstMatch].
  unfold MapLayers.holds. cbn [MapLayers.property MapLayers.literal].
  change (MapLayers.get props "status") with (Props.status props).
  destruct (Props.status props) as [s|]; cbn [strictNotEqual negb
    MapLayers.getStatusColor]; [| reflexivity].
  rewrite !negb_involutive.
  destruct (s =? "Operational")%string; [reflexivity |].
  destruct (s =? "Not Operational")%string; [reflexivity |].
  now destruct (s =? "Closed for Construction")%string.
Qed.

Section Longitude.

Local Open Scope R_scope.

Variable click : R.

Lemma wrapLongitude_near (fuel : nat) (lng : R) :
  Rabs (click - lng) <= 180 ->
  MapLayers.wrapLongitude fuel (Num click) (Num lng) = Some (Num lng).
Proof.
  intros H. destruct fuel; cbn [MapLayers.wrapLongitude sub neg add
    Math_abs lessThan];
    fold (click - lng);
    destruct (Rlt_dec 180 (Rabs (click - lng))); try reflexivity; lra.
Qed.

Lemma wrapLongitude_far (fuel : nat) (lng : R) :
  180 < Rabs (click - lng) ->
  MapLayers.wrapLongitude (S fuel) (Num click) (Num lng)
  = MapLayers.wrapLongitude fuel (Num click)
      (Num (if Rlt_dec lng click then lng + 360 else lng + - 360)).
Proof.
  intros H. cbn [MapLayers.wrapLongitude sub neg add Math_abs lessThan].
  fold (click - lng).
  destruct (Rlt_dec 180 (Rabs (click - lng))); [| lra].
  now destruct (Rlt_dec lng click).
Qed.

Lemma wrapLongitude_within (n : nat) :
  forall lng : R,
    Rabs (click - lng) <= 180 + 360 * INR n ->
    exists (lng' : R) (k : Z),
      (forall fuel, (n <= fuel)%nat ->
                    MapLayers.wrapLongitude fuel (Num click) (Num lng)
                    = Some (Num lng'))
      /\ Rabs (click - lng') <= 180
      /\ lng' = lng + 360 * IZR k.
Proof.
  induction n as [|n IH]; intros lng Hd.
  - exists lng, 0%Z. simpl in Hd. split; [| split; [lra | lra]].
    intros fuel _. apply wrapLongitude_near. lra.
  - destruct (Rle_or_lt (Rabs (click - lng)) 180) as [Hnear|Hfar].
    + exists lng, 0%Z. split; [| split; [lra | lra]].
      intros fuel _. now apply wrapLongitude_near.
    + rewrite S_INR in Hd. pose proof (pos_INR n) as Hn.
      assert (exists (next : R) (step : Z),
                 next = (if Rlt_dec lng click then lng + 360
                         else lng + - 360)
                 /\ next = lng + 360 * IZR step
                 /\ Rabs (click - next) <= 180 + 360 * INR n)
        as (next & step & Hnext & Hstep & Hclose).
      { destruct (Rlt_dec lng click) as [Hlt|Hge].
        - exists (lng + 360), 1%Z. split; [reflexivity |].
          split; [lra |].
          unfold Rabs in *.
          destruct (Rcase_abs (click - lng));
            destruct (Rcase_abs (click - (lng + 360))); lra.
        - exists (lng + - 360), (-1)%Z. split; [reflexivity |].
          split; [lra |].
          unfold Rabs in *.
          destruct (Rcase_abs (click - lng));
            destruct (Rcase_abs (click - (lng + - 360))); lra. }
      destruct (IH next Hclose) as (lng' & k & Hrun & Hin & Hk).
      exists lng', (step + k)%Z. split; [| split; [exact Hin |]].
      * intros fuel Hfuel. destruct fuel as [|fuel]; [lia |].
        rewrite wrapLongitude_far by exact Hfar. rewrite <- Hnext.
        apply Hrun. lia.
      * rewrite plus_IZR. lra.
Qed.

End Longitude.

(** X14. For a click longitude and a feature longitude of at most a
    million degrees in magnitude (finite numbers being reals, without
    rounding), the loop that moves the popup to the copy of the feature
    nearest to the click ends within 60 * 100 iterations: it returns a
    longitude that is within 180 degrees of the click and differs from
    that of the feature by a whole number of turns of 360 degrees. *)
Theorem X14_longitude_wraps_to_click (click lng : R) :
  MapLongitude click -> MapLongitude lng ->
  exists (enough : nat) (lng' : R) (k : Z),
    enough <= 60 * 100
    /\ (forall fuel, enough <= fuel ->
                     MapLayers.wrapLongitude fuel (Num click) (Num lng)
                     = Some (Num lng'))
    /\ (Rabs (click - lng') <= 180)%R
    /\ lng' = (lng + 360 * IZR k)%R.
Proof.
  intros Hclick Hlng.
  destruct (@wrapLongitude_within click (60 * 100) lng) as (lng' & k & H).
  - rewrite mult_INR, !INR_IZR_INZ.
    change (Z.of_nat 60) with 60%Z. change (Z.of_nat 100) with 100%Z.
    unfold MapLongitude, Rabs in *.
    destruct (Rcase_abs click), (Rcase_abs lng), (Rcase_abs (click - lng));
      lra.
  - now exists (60 * 100), lng', k.
Qed.

Lemma X14_witness :
  exists (enough : nat) (lng' : R) (k : Z),
    enough <= 60 * 100
    /\ (forall fuel, enough <= fuel ->
                     MapLayers.wrapLongitude fuel (Num 400)
                       (Num (- 73.97))
                     = Some (Num lng'))
    /\ (Rabs (400 - lng') <= 180)%R
    /\ lng' = (- 73.97 + 360 * IZR k)%R.
Proof.
  apply (@X14_longitude_wraps_to_click 400 (- 73.97));
    unfold MapLongitude; apply Rabs_le; lra.
Defined.

(** X15. Edge cases of that loop: when the click longitude or the
    feature longitude is NaN the loop does not run and the longitude is
    returned as it is; when the feature longitude is infinite and the
    click longitude is finite the loop never ends, however many
    iterations are allowed. *)
Theorem X15_longitude_loop_edges :
  (forall fuel lng, MapLayers.wrapLongitude fuel NaN lng = Some lng)
  /\ (forall fuel clickLng,
        MapLayers.wrapLongitude fuel clickLng NaN = Some NaN)
  /\ (forall fuel click,
        MapLayers.wrapLongitude fuel (Num click) Infinity = None
        /\ MapLayers.wrapLongitude fuel (Num click) NegInfinity = None).
Proof.
  split; [| split].
  - intros fuel lng. now destruct fuel.
  - intros fuel clickLng. destruct fuel, clickLng; reflexivity.
  - intros fuel click. induction fuel as [|fuel [IHp IHn]];
      [split; reflexivity |].
    split; cbn [MapLayers.wrapLongitude sub neg add Math_abs lessThan].
    + exact IHp.
    + exact IHn.
Qed.

(* ------------------------------------------------------------------ *)
(** * Token management *)
(* ------------------------------------------------------------------ *)

Lemma getItem_setItem (key value : string) (storage : Token.Storage) :
  Token.getItem key (Token.setItem key value storage) = Some value.
Proof. unfold Token.setItem. simpl. now rewrite String.eqb_refl. Qed.

Lemma prefix_not_empty (token : string) :
  String.prefix "pk." token = true -> (token =? "")%string = false.
Proof. now destruct token. Qed.

Lemma submitToken_kept (p : Token.page) :
  TokenKept p -> TokenKept (Token.submitToken p).
Proof.
  intros [Hall Hlast]. unfold Token.submitToken.
  destruct (Token.trim (Token.mapboxToken p) =? "")%string;
    [split; assumption |].
  destruct (String.prefix "pk." (Token.trim (Token.mapboxToken p))) eqn:Hpk;
    cbn [negb]; [| split; assumption].
  split; cbn [Token.showMap Token.initialized Token.localStorage
                Token.tokenSectionHidden Token.mapSectionHidden].
  - now constructor.
  - now rewrite getItem_setItem.
Qed.

Lemma dispatch_kept (p : Token.page) (e : Token.Event) :
  TokenKept p -> TokenKept (Token.dispatch p e).
Proof.
  intros H. destruct e; cbn [Token.dispatch].
  - exact H.
  - now apply submitToken_kept.
Qed.

(** X16. Starting the page without a stored token, whatever is typed and
    however often the submit button is clicked: the map is only ever
    initialised with tokens that start with "pk."; as long as none was
    accepted nothing is stored and the token section stays; once one was
    accepted, the latest is the stored token and the map section is
    shown. And a reload of the page ([restroomMapApp] on the storage as
    it is left) shows the same section and, when a token was accepted,
    initialises the map with the latest one. *)
Theorem X16_only_pk_tokens_reach_the_map (storage : Token.Storage)
  (events : list Token.Event) :
  Token.getItem Token.STORAGE_KEY storage = None ->
  let p := Token.run events (Token.restroomMapApp storage) in
  let reloaded := Token.restroomMapApp (Token.localStorage p) in
  TokenKept p
  /\ Token.initialized reloaded = firstn 1 (Token.initialized p)
  /\ Token.tokenSectionHidden reloaded = Token.tokenSectionHidden p
  /\ Token.mapSectionHidden reloaded = Token.mapSectionHidden p.
Proof.
  intros Hnone. cbv zeta.
  assert (TokenKept (Token.run events (Token.restroomMapApp storage)))
    as Hkept.
  { assert (TokenKept (Token.restroomMapApp storage)) as Hstart.
    { unfold Token.restroomMapApp. rewrite Hnone. split; [constructor |].
      cbn. now repeat split. }
    revert Hstart. generalize (Token.restroomMapApp storage).
    induction events as [|e events IH]; intros p Hp; [exact Hp |].
    apply IH. now apply dispatch_kept. }
  split; [exact Hkept |].
  destruct Hkept as [Hall Hlast].
  set (p := Token.run events (Token.restroomMapApp storage)) in *.
  unfold Token.restroomMapApp.
  destruct (Token.initialized p) as [|token rest].
  - destruct Hlast as (-> & -> & ->). now repeat split.
  - destruct Hlast as (-> & -> & ->).
    inversion Hall as [|? ? Hpk _]; subst.
    rewrite (prefix_not_empty _ Hpk). now repeat split.
Qed.

Lemma X16_witness :
  let p := Token.run [Token.Type_ "sk.secret"; Token.SubmitClick;
                      Token.Type_ "  pk.abc "; Token.SubmitClick]
             (Token.restroomMapApp []) in
  let reloaded := Token.restroomMapApp (Token.localStorage p) in
  TokenKept p
  /\ Token.initialized reloaded = firstn 1 (Token.initialized p)
  /\ Token.tokenSectionHidden reloaded = Token.tokenSectionHidden p
  /\ Token.mapSectionHidden reloaded = Token.mapSectionHidden p.
Proof.
  apply (@X16_only_pk_tokens_reach_the_map []
           [Token.Type_ "sk.secret"; Token.SubmitClick;
            Token.Type_ "  pk.abc "; Token.SubmitClick]).
  reflexivity.
Defined.

(** A token is stored without the white space around it; a refused one
    leaves an alert and nothing else. *)
Example submit_trims_and_refuses :
  let p := Token.run [Token.Type_ "sk.secret"; Token.SubmitClick;
                      Token.Type_ "  pk.abc "; Token.SubmitClick]
             (Token.restroomMapApp []) in
  Token.localStorage p = [("mapbox_access_token", "pk.abc")]
  /\ Token.initialized p = ["pk.abc"]
  /\ Token.alerts p = [Token.AlertInvalidToken].
Proof. repeat split. Qed.

(* ------------------------------------------------------------------ *)
(** * Widening a query, and the two revisions side by side *)
(* ------------------------------------------------------------------ *)

Lemma Filters_search_eta (q : Filters.t) :
  Filters.set_search (Filters.search q) (Filters.set_search "" q) = q.
Proof. now destruct q. Qed.

Lemma cleared_search_keeps (q : Filters.t) (records : list Feature)
  (record : Feature) :
  In record (filterFeatures q records) ->
  In record (filterFeatures (Filters.set_search "" q) records).
Proof.
  unfold filterFeatures. rewrite !filter_In. intros [Hin Hq].
  split; [exact Hin |]. apply featureMatches_spec.
  apply Tightens_Satisfies with q; [| now apply featureMatches_spec].
  rewrite <- (Filters_search_eta q) at 2. apply tighten_search.
  now exists "", (Filters.search q).
Qed.

(** X17. Escape clears the search and nothing else: on a loaded page with
    its 'restrooms' source, after the Escape key the search text is
    empty, the three facet filters are as before, the map shows the store
    filtered by them, and every record of the store that the filters let
    through before is still shown. *)
Theorem X17_escape_only_widens (st : RestroomMap.state)
  (data : FeatureCollection) :
  RestroomMap.allRestroomData st = Some data ->
  RestroomMap.restroomsSource st <> None ->
  let q := RestroomMap.currentFilters st in
  let st' := RestroomMap.dispatch st RestroomMap.EscapeKey in
  RestroomMap.currentFilters st' = Filters.set_search "" q
  /\ RestroomMap.restroomsSource st'
     = Some {| features :=
                 filterFeatures (Filters.set_search "" q) (features data) |}
  /\ forall record,
       In record (filterFeatures q (features data)) ->
       In record (filterFeatures (Filters.set_search "" q) (features data)).
Proof.
  intros Hdata Hsrc. cbv zeta. cbn [RestroomMap.dispatch].
  destruct (@changeFilters_loaded (Filters.set_search "") st data Hdata Hsrc)
    as (_ & -> & ->).
  repeat split. intros record. apply cleared_search_keeps.
Qed.

Lemma X17_witness :
  let st := RestroomMap.dispatch (RestroomMap.loaded Sample.twoRecords)
              (RestroomMap.SearchInput "Park") in
  let q := RestroomMap.currentFilters st in
  let st' := RestroomMap.dispatch st RestroomMap.EscapeKey in
  RestroomMap.currentFilters st' = Filters.set_search "" q
  /\ RestroomMap.restroomsSource st'
     = Some {| features :=
                 filterFeatures (Filters.set_search "" q)
                   (features Sample.twoRecords) |}
  /\ forall record,
       In record (filterFeatures q (features Sample.twoRecords)) ->
       In record (filterFeatures (Filters.set_search "" q)
                    (features Sample.twoRecords)).
Proof.
  intros st.
  apply (@X17_escape_only_widens st Sample.twoRecords);
    [reflexivity | discriminate].
Defined.

Lemma Part000_dispatch_filters (data : FeatureCollection)
  (st : Part000.state) (e : Part000.Event) :
  Part000.allRestroomData st = Some data ->
  Part000.restroomsSource st <> None ->
  Part000.currentFilters (Part000.dispatch st e)
  = nextFilters e (Part000.currentFilters st).
Proof.
  intros Hdata Hsrc.
  destruct e; cbn [Part000.dispatch nextFilters];
    unfold Part000.changeFilters, Part000.resetAllFilters,
      Part000.applyFilters;
    cbn [Part000.set_currentFilters Part000.allRestroomData
           Part000.currentFilters Part000.restroomsSource];
    rewrite Hdata; destruct (Part000.restroomsSource st);
    try contradiction; reflexivity.
Qed.

Lemma RestroomMap_dispatch_filters (data : FeatureCollection)
  (st : RestroomMap.state) (e : Part000.Event) :
  RestroomMap.allRestroomData st = Some data ->
  RestroomMap.restroomsSource st <> None ->
  RestroomMap.currentFilters (RestroomMap.dispatch st (asRestroomMapEvent e))
  = nextFilters e (RestroomMap.currentFilters st).
Proof.
  intros Hdata Hsrc.
  destruct e; cbn [asRestroomMapEvent RestroomMap.dispatch nextFilters];
    rewrite ?resetAllFilters_changeFilters;
    match goal with
    | |- context [RestroomMap.changeFilters ?update st] =>
        now destruct (@changeFilters_loaded update st data Hdata Hsrc)
          as (_ & -> & _)
    end.
Qed.

(** X18. The two revisions filter alike: after the same events on the
    search box, the selects, the reset button and the Escape key, from
    the same loaded data, both have the same current filters and hand
    the same features to the 'restrooms' source of the map. *)
Theorem X18_revisions_filter_alike (data : FeatureCollection)
  (events : list Part000.Event) :
  let panel := Part000.run events (Part000.loaded data) in
  let heat := RestroomMap.run (map asRestroomMapEvent events)
                (RestroomMap.loaded data) in
  Part000.currentFilters panel = RestroomMap.currentFilters heat
  /\ Part000.restroomsSource panel = RestroomMap.restroomsSource heat.
Proof.
  cbv zeta.
  enough (forall (a : Part000.state) (b : RestroomMap.state),
             PanelAgrees data a ->
             RestroomMap.allRestroomData b = Some data ->
             RestroomMap.restroomsSource b
             = Some {| features :=
                         filterFeatures (RestroomMap.currentFilters b)
                           (features data) |} ->
             Part000.currentFilters a = RestroomMap.currentFilters b ->
             Part000.currentFilters (Part000.run events a)
             = RestroomMap.currentFilters
                 (RestroomMap.run (map asRestroomMapEvent events) b)
             /\ Part000.restroomsSource (Part000.run events a)
                = RestroomMap.restroomsSource
                    (RestroomMap.run (map asRestroomMapEvent events) b))
    as Hgen.
  { apply Hgen.
    - apply PanelAgrees_loaded.
    - reflexivity.
    - cbn. now rewrite filterFeatures_initial, collection_eta.
    - reflexivity. }
  induction events as [|e events IH]; intros a b Ha Hdata Hshown Hq.
  - cbn [map Part000.run RestroomMap.run fold_left]. split; [exact Hq |].
    destruct Ha as (_ & shown & -> & -> & _). now rewrite Hshown, Hq.
  - cbn [map]. change (Part000.run (e :: events) a)
      with (Part000.run events (Part000.dispatch a e)).
    rewrite run_cons. apply IH.
    + now apply Part000_dispatch_agrees.
    + now rewrite dispatch_store.
    + now apply dispatch_display.
    + destruct Ha as (Hstore & shown & _ & Hsrc & _).
      rewrite Part000_dispatch_filters with (data := data);
        [| exact Hstore | rewrite Hsrc; discriminate].
      rewrite RestroomMap_dispatch_filters with (data := data);
        [| exact Hdata | rewrite Hshown; discriminate].
      now rewrite Hq.
Qed.

Lemma generateCallback_source (st : RestroomMap.state)
  (data : FeatureCollection) (cells : list RestroomMap.HeatmapPoint) :
  RestroomMap.allRestroomData st = Some data ->
  RestroomMap.gridLoops RestroomMap.nycBounds RestroomMap.gridSize
    (restroomCoordsOf data) = Normal cells ->
  RestroomMap.heatmapSource (snd (RestroomMap.generateCallback st))
  = Some (map heatFeatureOf cells).
Proof.
  intros Hdata Hloops.
  cbv beta iota zeta delta [RestroomMap.generateCallback RestroomMap.bind
    RestroomMap.log RestroomMap.modify].
  rewrite generateCoverageHeatmap_loaded with (data := data)
    by (destruct st; exact Hdata).
  rewrite Hloops. destruct st. handler_fields. reflexivity.
Qed.

Lemma X19_witness :
  exists shown,
    RestroomMap.heatmapSource
      (RestroomMap.run
         [RestroomMap.ToggleHeatmapClick; RestroomMap.TimerFires]
         (RestroomMap.loaded Sample.twoRecords)) = Some shown
    /\ List.length shown = (100 * 100)%nat
    /\ Forall (fun feature =>
                 UnitInterval (RestroomMap.heat_intensity feature)) shown.
Proof.
  assert (Forall isArray (restroomCoordsOf Sample.twoRecords)) as Harr
    by (repeat constructor).
  pose proof (gridLoops_normal RestroomMap.nycBounds RestroomMap.gridSize
                Harr) as Hloops.
  set (cells := flat_map
                  (fun i =>
                     map (cellOf RestroomMap.nycBounds RestroomMap.gridSize
                            (restroomCoordsOf Sample.twoRecords) i)
                       (seq 0 RestroomMap.gridSize))
                  (seq 0 RestroomMap.gridSize)) in *.
  exists (map heatFeatureOf cells).
  assert (RestroomMap.heatmapSource
            (RestroomMap.run
               [RestroomMap.ToggleHeatmapClick; RestroomMap.TimerFires]
               (RestroomMap.loaded Sample.twoRecords))
          = Some (map heatFeatureOf cells)) as Hshown.
  { cbn [RestroomMap.run fold_left RestroomMap.dispatch RestroomMap.loaded
           RestroomMap.buttonDisabled].
    match goal with
    | |- context [RestroomMap.timers ?s] =>
        change (RestroomMap.timers s) with 1%nat
    end.
    cbv iota.
    apply generateCallback_source with (data := Sample.twoRecords);
      [reflexivity | exact Hloops]. }
  split; [exact Hshown |].
  exact (@X19_heat_source_is_a_full_grid Sample.twoRecords
           [RestroomMap.ToggleHeatmapClick; RestroomMap.TimerFires] _ Hshown).
Defined.
